(** * Helmet reservations, QR check-in and bulk schedule deletion

    A shallow embedding of the four request handlers of the reservation
    core:

    - [ScanRoute.POST]      the QR check-in endpoint,
    - [CreateRoute.POST]    the reservation creation endpoint,
    - [CancelRoute.DELETE]  the single reservation cancellation endpoint,
    - [BulkDelete.POST]     the bulk schedule deletion endpoint.

    and, beside them, of the listing of a user's reservations
    ([UserRoute.GET]), of the subscription status and the offers popup
    ([SubscriptionUtils]), of the code of a discount card
    ([DiscountCode]) and of the listing of a user's discount cards
    ([UserCards.GET]).

    Handlers are written in a state-and-exception monad over a [World]
    that holds the document store, the clock, the console and the mail
    outbox.  A JavaScript [throw] keeps every write that happened before
    it, so the monad returns the world in both outcomes. *)

From Stdlib Require Import ZArith String Ascii List Bool Lia DecimalString.
Import ListNotations.

Local Open Scope list_scope.
Local Open Scope string_scope.

(* ===================================================================== *)
(** * JavaScript values *)
(* ===================================================================== *)

(** The result of evaluating an expression: a value, or a thrown error
    carrying its [message]. *)
Inductive Outcome (A : Type) : Type :=
| Ok (a : A)
| Throw (message : string).
Arguments Ok {A} a.
Arguments Throw {A} message.

(** A field of a JSON body: [None] is [undefined]. *)
Definition truthy (v : option string) : bool :=
  match v with
  | Some s => negb (s =? "")
  | None => false
  end.

(** [String(v)]. *)
Definition String_of (v : option string) : string :=
  match v with
  | Some s => s
  | None => "undefined"
  end.

(** [v || ''] on a string field. *)
Definition or_empty (v : option string) : string :=
  match v with
  | Some s => s
  | None => ""
  end.

(** [e.message || fallback]. *)
Definition message_or (message fallback : string) : string :=
  if message =? "" then fallback else message.

Definition string_of_nat (n : nat) : string :=
  NilEmpty.string_of_uint (Nat.to_uint n).

Definition string_of_Z (z : Z) : string :=
  NilZero.string_of_int (Z.to_int z).

(* ===================================================================== *)
(** * Dates *)
(* ===================================================================== *)

(** A [Date] object is its time value in milliseconds since the epoch;
    [None] is the NaN time value of an Invalid Date. *)
Record JsDate : Type := mkDate { getTime : option Z }.

Definition msPerDay : Z := 86400000.

(** TimeClip of the language standard. *)
Definition timeClip (t : Z) : option Z :=
  if (Z.abs t <=? 8640000000000000)%Z then Some t else None.

(** [new Date(n)] for a number [n]. *)
Definition Date_of_number (n : option Z) : JsDate :=
  match n with
  | Some t => mkDate (timeClip t)
  | None => mkDate None
  end.

(** [a < b] and [a > b] on dates: both sides become numbers, and every
    comparison with NaN is false. *)
Definition date_lt (a b : JsDate) : bool :=
  match getTime a, getTime b with
  | Some x, Some y => (x <? y)%Z
  | _, _ => false
  end.

Definition date_gt (a b : JsDate) : bool := date_lt b a.

(** The shapes in which a schedule's [startTime] / [endTime] reaches a
    handler. *)
Inductive TimeValue : Type :=
| TvTimestamp (toDate : Outcome JsDate)
    (** an object with a [toDate] function, and what calling it gives *)
| TvDate (d : JsDate)
    (** [instanceof Date] *)
| TvSeconds (seconds : option Z)
    (** a plain object with a [seconds] key; [None] when
        [seconds * 1000] is NaN *)
| TvRaw (raw : string)
    (** a string; the empty string is falsy *)
| TvAbsent.
    (** [undefined] or [null] *)

(* ===================================================================== *)
(** * Documents *)
(* ===================================================================== *)

Inductive ReservationStatus : Type := booked | checked_in | cancelled.

Definition ReservationStatus_eqb (a b : ReservationStatus) : bool :=
  match a, b with
  | booked, booked | checked_in, checked_in | cancelled, cancelled => true
  | _, _ => false
  end.

Module User.
Record t : Type := mk
    { id : string; firstName : string; lastName : string; email : string }.
End User.

Module CourseSchedule.
Record t : Type := mk
    { id : string;
      courseId : option string;
      title : string;
      startTime : TimeValue;
      endTime : TimeValue;
      location : string;
      createdBy : option string }.
End CourseSchedule.

Module Course.
Record t : Type := mk { id : string; coachId : option string }.
End Course.

Module HelmetReservation.
Record t : Type := mk
    { id : string;
      userId : string;
      userName : string;
      userEmail : string;
      courseId : option string;
      courseName : string;
      scheduleId : string;
      coachId : option string;
      coachName : string;
      reservationDate : JsDate;
      classDate : TimeValue;
      classStartTime : TimeValue;
      classEndTime : TimeValue;
      location : string;
      status : ReservationStatus;
      qrCode : string;
      checkinTime : option Z }.

Definition with_id (i : string) (r : t) : t :=
    mk i (userId r) (userName r) (userEmail r) (courseId r) (courseName r)
       (scheduleId r) (coachId r) (coachName r) (reservationDate r)
       (classDate r) (classStartTime r) (classEndTime r) (location r)
       (status r) (qrCode r) (checkinTime r).

Definition with_status (s : ReservationStatus) (r : t) : t :=
    mk (id r) (userId r) (userName r) (userEmail r) (courseId r) (courseName r)
       (scheduleId r) (coachId r) (coachName r) (reservationDate r)
       (classDate r) (classStartTime r) (classEndTime r) (location r)
       s (qrCode r) (checkinTime r).

Definition with_checkinTime (c : option Z) (r : t) : t :=
    mk (id r) (userId r) (userName r) (userEmail r) (courseId r) (courseName r)
       (scheduleId r) (coachId r) (coachName r) (reservationDate r)
       (classDate r) (classStartTime r) (classEndTime r) (location r)
       (status r) (qrCode r) c.
End HelmetReservation.

Module UserQRCode.
Record t : Type := mk
    { id : string; userId : string; qrCodeData : string; qrCodeImage : string }.
End UserQRCode.

Module Notification.
Record t : Type := mk
    { userId : string; title : string; message : string;
      type : string; read : bool }.
End Notification.

(** The JSON body posted to the [send-email] endpoint. *)
Module EmailRequest.
Record t : Type := mk
    { userEmail : string; userName : string; courseName : string;
      classDate : string; classTime : string; location : string;
      qrCodeImage : string }.
End EmailRequest.

(* ===================================================================== *)
(** * The world *)
(* ===================================================================== *)

(** The document store, one list per collection, in document order. *)
Record Db : Type := mkDb
  { users : list User.t;
    courseSchedules : list CourseSchedule.t;
    courses : list Course.t;
    helmetReservations : list HelmetReservation.t;
    userQRCodes : list UserQRCode.t;
    notifications : list Notification.t }.

Inductive LogLine : Type :=
| console_log (args : list string)
| console_error (args : list string).

Record World : Type := mkWorld
  { db : Db;
    outbox : list EmailRequest.t;   (** mails handed to [send-email] *)
    console : list LogLine;         (** oldest line first *)
    clock : Z;                      (** [Date.now()] *)
    nextDocId : nat }.              (** source of generated document ids *)

Definition set_db (d : Db) (w : World) : World :=
  mkWorld d (outbox w) (console w) (clock w) (nextDocId w).

Definition set_helmetReservations (l : list HelmetReservation.t) (d : Db) : Db :=
  mkDb (users d) (courseSchedules d) (courses d) l (userQRCodes d)
       (notifications d).

Definition set_courseSchedules (l : list CourseSchedule.t) (d : Db) : Db :=
  mkDb (users d) l (courses d) (helmetReservations d) (userQRCodes d)
       (notifications d).

Definition set_userQRCodes (l : list UserQRCode.t) (d : Db) : Db :=
  mkDb (users d) (courseSchedules d) (courses d) (helmetReservations d) l
       (notifications d).

Definition set_notifications (l : list Notification.t) (d : Db) : Db :=
  mkDb (users d) (courseSchedules d) (courses d) (helmetReservations d)
       (userQRCodes d) l.

Definition push_outbox (e : EmailRequest.t) (w : World) : World :=
  mkWorld (db w) (outbox w ++ [e])%list (console w) (clock w) (nextDocId w).

Definition push_console (l : LogLine) (w : World) : World :=
  mkWorld (db w) (outbox w) (console w ++ [l])%list (clock w) (nextDocId w).

Definition bump_docId (w : World) : World :=
  mkWorld (db w) (outbox w) (console w) (clock w) (S (nextDocId w)).

(** The calls that leave the process: each may fail. *)
Inductive Op : Type :=
| op_userService_getById (id : string)
| op_scheduleService_getById (id : string)
| op_courseService_getById (id : string)
| op_courseService_getAll
| op_helmetReservationService_getByUserAndSchedule (userId scheduleId : string)
| op_helmetReservationService_getById (id : string)
| op_helmetReservationService_getByScheduleId (scheduleId : string)
| op_helmetReservationService_create (userId scheduleId : string)
| op_helmetReservationService_checkIn (id : string)
| op_helmetReservationService_cancel (id : string)
| op_userQRCodeService_getByUserId (userId : string)
| op_userQRCodeService_getByQRCodeData (qrCodeData : string)
| op_userQRCodeService_create (userId : string)
| op_notificationService_create (userId : string)
| op_QRCode_toDataURL (qrCodeData : string)
| op_fetch_send_email
| op_getDocs_courseSchedules
| op_deleteDoc_courseSchedules (id : string).

(** What the handlers take from the JavaScript runtime and from the
    libraries they import. *)
Record Runtime : Type := mkRuntime
  { Date_parse : string -> option Z;
      (** [Date.parse]: [None] is NaN *)
    tzOffset : Z;
      (** local time is UTC plus this many milliseconds *)
    toLocaleDateString : JsDate -> string;
    toLocaleTimeString : JsDate -> string;
    QRCode_render : string -> string;
      (** the data URL that [QRCode.toDataURL] resolves to *)
    pick : list HelmetReservation.t -> nat;
      (** of the documents that match a query for one reservation, the
          position of the one that the store returns *)
    faults : Op -> option string }.
      (** the calls that reject, with the message of the error *)

(* ===================================================================== *)
(** * The handler monad *)
(* ===================================================================== *)

(** A computation over a state [S]: the handlers run over the [World],
    and a loop that updates local counters runs over the world paired
    with those locals. *)
Definition St (S A : Type) : Type := S -> Outcome A * S.

Definition M : Type -> Type := St World.

Definition ret {S A} (a : A) : St S A := fun s => (Ok a, s).

Definition bind {S A B} (m : St S A) (k : A -> St S B) : St S B :=
  fun s =>
    match m s with
    | (Ok a, s') => k a s'
    | (Throw e, s') => (Throw e, s')
    end.

Definition throw {S A} (message : string) : St S A :=
  fun s => (Throw message, s).

(** [try { m } catch (e) { h e }]. *)
Definition try_catch {S A} (m : St S A) (h : string -> St S A) : St S A :=
  fun s =>
    match m s with
    | (Ok a, s') => (Ok a, s')
    | (Throw e, s') => h e s'
    end.

Definition gets {S A} (f : S -> A) : St S A := fun s => (Ok (f s), s).

Definition modify {S} (f : S -> S) : St S unit := fun s => (Ok tt, f s).

(** [for (const x of l) { body x }]. *)
Fixpoint for_of {S A} (l : list A) (body : A -> St S unit) : St S unit :=
  match l with
  | [] => ret tt
  | x :: rest => bind (body x) (fun _ => for_of rest body)
  end.

Declare Scope handler_scope.
Delimit Scope handler_scope with handler.
Notation "x <- m ;; k" := (bind m (fun x => k))
  (at level 100, m at next level, right associativity) : handler_scope.
Notation "m ;;; k" := (bind m (fun _ => k))
  (at level 100, right associativity) : handler_scope.
Local Open Scope handler_scope.

Definition log (args : list string) : M unit :=
  modify (push_console (console_log args)).

Definition log_error (args : list string) : M unit :=
  modify (push_console (console_error args)).

(** An HTTP response: the status and the JSON body. *)
Record Response (B : Type) : Type := mkResponse { http : nat; body : B }.
Arguments mkResponse {B} http body.
Arguments http {B} r.
Arguments body {B} r.

(** [NextResponse.json(body)] and [NextResponse.json(body, { status })]. *)
Definition json {B} (b : B) : Response B := mkResponse 200 b.
Definition json_status {B} (b : B) (status : nat) : Response B := mkResponse status b.

(* ===================================================================== *)
(** * Dates of the runtime *)
(* ===================================================================== *)

Section Dates.
Variable rt : Runtime.

(** [new Date(s)] for a string [s]. *)
Definition Date_of_string (s : string) : JsDate :=
  match Date_parse rt s with
  | Some t => mkDate (timeClip t)
  | None => mkDate None
  end.

(** [d.setHours(h, m, s, ms)]: the same local day, at the given local
    time.  An Invalid Date stays invalid. *)
Definition setHours (d : JsDate) (h m s ms : Z) : JsDate :=
  match getTime d with
  | None => mkDate None
  | Some t =>
      let day := ((t + tzOffset rt) / msPerDay)%Z in
      let time := (h * 3600000 + m * 60000 + s * 1000 + ms)%Z in
      mkDate (timeClip (day * msPerDay + time - tzOffset rt))
  end.

End Dates.

(* ===================================================================== *)
(** * The store accessors and the other collaborators *)
(* ===================================================================== *)

(** Pure readings and updates of the store. *)
Module Store.

Definition user_by_id (d : Db) (id : string) : option User.t :=
  find (fun u => User.id u =? id) (users d).

Definition schedule_by_id (d : Db) (id : string) : option CourseSchedule.t :=
  find (fun s => CourseSchedule.id s =? id) (courseSchedules d).

Definition course_by_id (d : Db) (id : string) : option Course.t :=
  find (fun c => Course.id c =? id) (courses d).

Definition reservation_by_id (d : Db) (id : string)
  : option HelmetReservation.t :=
  find (fun r => HelmetReservation.id r =? id) (helmetReservations d).

Definition for_pair (userId scheduleId : string) (r : HelmetReservation.t)
  : bool :=
  (HelmetReservation.userId r =? userId)
  && (HelmetReservation.scheduleId r =? scheduleId).

(** The reservation resolved for a user and a schedule: one of the
    documents of the pair, chosen by the store, and none when there is
    no such document. *)
Definition reservation_by_user_and_schedule (rt : Runtime) (d : Db)
  (userId scheduleId : string) : option HelmetReservation.t :=
  match filter (for_pair userId scheduleId) (helmetReservations d) with
  | [] => None
  | r :: rest => Some (nth (pick rt (r :: rest)) (r :: rest) r)
  end.

Definition reservations_by_schedule (d : Db) (scheduleId : string)
  : list HelmetReservation.t :=
  filter (fun r => HelmetReservation.scheduleId r =? scheduleId)
         (helmetReservations d).

Definition qr_by_user (d : Db) (userId : string) : option UserQRCode.t :=
  find (fun q => UserQRCode.userId q =? userId) (userQRCodes d).

Definition qr_by_data (d : Db) (qrCodeData : string) : option UserQRCode.t :=
  find (fun q => UserQRCode.qrCodeData q =? qrCodeData) (userQRCodes d).

(** Update of the one document with the given id. *)
Definition update_reservation (id : string)
  (f : HelmetReservation.t -> HelmetReservation.t) (d : Db) : Db :=
  set_helmetReservations
    (map (fun r => if HelmetReservation.id r =? id then f r else r)
         (helmetReservations d))
    d.

Definition delete_schedule (id : string) (d : Db) : Db :=
  set_courseSchedules
    (filter (fun s => negb (CourseSchedule.id s =? id)) (courseSchedules d))
    d.

End Store.

Section Services.
Variable rt : Runtime.

(** A call that leaves the process: it rejects when the runtime says so,
    and otherwise reads or updates the world. *)
Definition call {A} (op : Op) (f : World -> A * World) : M A :=
  fun w =>
    match faults rt op with
    | Some e => (Throw e, w)
    | None => let (a, w') := f w in (Ok a, w')
    end.

Definition query {A} (op : Op) (f : Db -> A) : M A :=
  call op (fun w => (f (db w), w)).

Definition update (op : Op) (f : World -> World) : M unit :=
  call op (fun w => (tt, f w)).

(** The id given to the next created document. *)
Definition fresh_id (w : World) : string := "doc" ++ string_of_nat (nextDocId w).

(** Modelled from the spec: [userService.getById] of the database
    module, the user lookup by id; [None] is the collaborator's "not
    found". *)
Definition userService_getById (id : string) : M (option User.t) :=
  query (op_userService_getById id) (fun d => Store.user_by_id d id).

(** Modelled from the spec: [scheduleService.getById] of the database
    module, the schedule lookup by id. *)
Definition scheduleService_getById (id : string) : M (option CourseSchedule.t) :=
  query (op_scheduleService_getById id) (fun d => Store.schedule_by_id d id).

(** Modelled from the spec: [courseService.getById] of the database
    module, the course lookup by id. *)
Definition courseService_getById (id : string) : M (option Course.t) :=
  query (op_courseService_getById id) (fun d => Store.course_by_id d id).

(** Modelled from the spec: [courseService.getAll] of the database
    module, the listing of all courses. *)
Definition courseService_getAll : M (list Course.t) :=
  query op_courseService_getAll courses.

(** Modelled from the spec: [helmetReservationService.getByUserAndSchedule]
    of the database module, which resolves the reservation for
    (userId, scheduleId).  When several documents match, the one that is
    returned is left to the store ([pick]). *)
Definition helmetReservationService_getByUserAndSchedule
  (userId scheduleId : string) : M (option HelmetReservation.t) :=
  query (op_helmetReservationService_getByUserAndSchedule userId scheduleId)
        (fun d => Store.reservation_by_user_and_schedule rt d userId scheduleId).

(** Modelled from the spec: [helmetReservationService.getById] of the
    database module, the reservation lookup by id. *)
Definition helmetReservationService_getById (id : string)
  : M (option HelmetReservation.t) :=
  query (op_helmetReservationService_getById id)
        (fun d => Store.reservation_by_id d id).

(** Modelled from the spec: [helmetReservationService.getByScheduleId] of
    the database module, the reservations of one schedule. *)
Definition helmetReservationService_getByScheduleId (scheduleId : string)
  : M (list HelmetReservation.t) :=
  query (op_helmetReservationService_getByScheduleId scheduleId)
        (fun d => Store.reservations_by_schedule d scheduleId).

(** Modelled from the spec: [helmetReservationService.create] of the
    database module: persists the reservation under a generated id and
    returns that id. *)
Definition helmetReservationService_create (data : HelmetReservation.t)
  : M string :=
  call (op_helmetReservationService_create (HelmetReservation.userId data)
                                           (HelmetReservation.scheduleId data))
       (fun w =>
          let id := fresh_id w in
          (id,
           bump_docId
             (set_db (set_helmetReservations
                        (helmetReservations (db w)
                           ++ [HelmetReservation.with_id id data])%list
                        (db w))
                     w))).

(** Modelled from the spec: [helmetReservationService.checkIn] of the
    database module: "set status=checked_in, record checkinTime=now,
    persist". *)
Definition helmetReservationService_checkIn (id : string) : M unit :=
  update (op_helmetReservationService_checkIn id)
         (fun w =>
            set_db (Store.update_reservation id
                      (fun r => HelmetReservation.with_checkinTime
                                  (Some (clock w))
                                  (HelmetReservation.with_status checked_in r))
                      (db w))
                   w).

(** Modelled from the spec: [helmetReservationService.cancel] of the
    database module: "status=cancelled, persisted". *)
Definition helmetReservationService_cancel (id : string) : M unit :=
  update (op_helmetReservationService_cancel id)
         (fun w =>
            set_db (Store.update_reservation id
                      (HelmetReservation.with_status cancelled) (db w))
                   w).

(** Modelled from the spec: [userQRCodeService.getByUserId] of the
    database module, the lookup of a user's existing identity. *)
Definition userQRCodeService_getByUserId (userId : string)
  : M (option UserQRCode.t) :=
  query (op_userQRCodeService_getByUserId userId)
        (fun d => Store.qr_by_user d userId).

(** Modelled from the spec: [userQRCodeService.getByQRCodeData] of the
    database module, [lookupByToken]: resolves a token back to its
    identity, [None] when the token is unknown. *)
Definition userQRCodeService_getByQRCodeData (qrCodeData : string)
  : M (option UserQRCode.t) :=
  query (op_userQRCodeService_getByQRCodeData qrCodeData)
        (fun d => Store.qr_by_data d qrCodeData).

(** Modelled from the spec: [userQRCodeService.create] of the database
    module: persists one identity record and returns its id. *)
Definition userQRCodeService_create (userId qrCodeData qrCodeImage : string)
  : M string :=
  call (op_userQRCodeService_create userId)
       (fun w =>
          let id := fresh_id w in
          (id,
           bump_docId
             (set_db (set_userQRCodes
                        (userQRCodes (db w)
                           ++ [UserQRCode.mk id userId qrCodeData qrCodeImage])%list
                        (db w))
                     w))).

(** Modelled from the spec: [notificationService.create] of the database
    module, the notification creation. *)
Definition notificationService_create (n : Notification.t) : M unit :=
  update (op_notificationService_create (Notification.userId n))
         (fun w => set_db (set_notifications (notifications (db w) ++ [n])%list
                                             (db w)) w).

(** [QRCode.toDataURL] of the qrcode package. *)
Definition QRCode_toDataURL (qrCodeData : string) : M string :=
  call (op_QRCode_toDataURL qrCodeData)
       (fun w => (QRCode_render rt qrCodeData, w)).

(** [fetch] of the [send-email] endpoint: it rejects on a network
    failure and resolves otherwise. *)
Definition fetch_send_email (e : EmailRequest.t) : M unit :=
  update op_fetch_send_email (push_outbox e).

(** [getDocs(collection(db, 'courseSchedules'))] of the Firestore SDK. *)
Definition getDocs_courseSchedules : M (list CourseSchedule.t) :=
  query op_getDocs_courseSchedules courseSchedules.

(** [deleteDoc(doc(db, 'courseSchedules', id))] of the Firestore SDK. *)
Definition deleteDoc_courseSchedules (id : string) : M unit :=
  update (op_deleteDoc_courseSchedules id)
         (fun w => set_db (Store.delete_schedule id (db w)) w).

End Services.

(* ===================================================================== *)
(** * POST /api/helmet-reservations/scan *)
(* ===================================================================== *)

Module ScanRoute.

Record Request : Type := mkRequest
  { qrCodeData : option string; scheduleId : option string }.

(** The JSON bodies of the endpoint; an optional key that the handler
    leaves out is [None]. *)
Record Scan : Type := mkScan
  { valid : bool;
    status : string;
    message : string;
    userName : option string;
    userEmail : option string;
    courseName : option string;
    location : option string;
    checkinTime : option Z;
    reservationId : option string }.

Inductive Body : Type :=
| Error (error : string)
| Result (r : Scan).

Section Handler.
Variable rt : Runtime.

Definition POST (request : Request) : M (Response Body) :=
  try_catch
    (if negb (truthy (qrCodeData request)) || negb (truthy (scheduleId request))
     then ret (json_status
                 (Error "Missing required fields: qrCodeData and scheduleId") 400)
     else
       let qrCodeData := or_empty (qrCodeData request) in
       let scheduleId := or_empty (scheduleId request) in
       userQRCode <- userQRCodeService_getByQRCodeData rt qrCodeData ;;
       match userQRCode with
       | None =>
           ret (json (Result (mkScan false "invalid_qr" "Invalid QR code"
                                None None None None None None)))
       | Some userQRCode =>
       schedule <- scheduleService_getById rt scheduleId ;;
       match schedule with
       | None =>
           ret (json (Result (mkScan false "invalid_schedule" "Schedule not found"
                                None None None None None None)))
       | Some _ =>
       reservation <- helmetReservationService_getByUserAndSchedule rt
                        (UserQRCode.userId userQRCode) scheduleId ;;
       match reservation with
       | None =>
           ret (json (Result (mkScan false "no_reservation"
                                "No reservation found for this class"
                                (Some "") None None None None None)))
       | Some reservation =>
       if ReservationStatus_eqb (HelmetReservation.status reservation) checked_in
       then
         ret (json (Result (mkScan false "already_checked_in" "Already checked in"
                              (Some (HelmetReservation.userName reservation))
                              None None None
                              (HelmetReservation.checkinTime reservation)
                              None)))
       else
       if ReservationStatus_eqb (HelmetReservation.status reservation) cancelled
       then
         ret (json (Result (mkScan false "cancelled" "Reservation was cancelled"
                              (Some (HelmetReservation.userName reservation))
                              None None None None None)))
       else
         helmetReservationService_checkIn rt (HelmetReservation.id reservation) ;;;
         ret (json (Result (mkScan true "success"
                              ("Welcome " ++ HelmetReservation.userName reservation
                                 ++ "!")
                              (Some (HelmetReservation.userName reservation))
                              (Some (HelmetReservation.userEmail reservation))
                              (Some (HelmetReservation.courseName reservation))
                              (Some (HelmetReservation.location reservation))
                              None
                              (Some (HelmetReservation.id reservation)))))
       end end end)
    (fun error =>
       log_error ["Error scanning QR code:"; error] ;;;
       ret (json_status (Error (message_or error "Internal server error")) 500)).

End Handler.
End ScanRoute.

(* ===================================================================== *)
(** * DELETE /api/helmet-reservations/[reservationId] *)
(* ===================================================================== *)

Module CancelRoute.

Inductive Body : Type :=
| Error (error : string)
| Cancelled (success : bool) (message : string).

Section Handler.
Variable rt : Runtime.

Definition DELETE (reservationId : option string) : M (Response Body) :=
  try_catch
    (if negb (truthy reservationId)
     then ret (json_status (Error "Reservation ID is required") 400)
     else
       let reservationId := or_empty reservationId in
       reservation <- helmetReservationService_getById rt reservationId ;;
       match reservation with
       | None => ret (json_status (Error "Reservation not found") 404)
       | Some reservation =>
       if ReservationStatus_eqb (HelmetReservation.status reservation) checked_in
       then
         ret (json_status
                (Error "Cannot cancel a reservation that has already been checked in")
                400)
       else
         helmetReservationService_cancel rt reservationId ;;;
         ret (json (Cancelled true "Reservation cancelled successfully"))
       end)
    (fun error =>
       log_error ["Error cancelling reservation:"; error] ;;;
       ret (json_status (Error (message_or error "Internal server error")) 500)).

End Handler.
End CancelRoute.

(* ===================================================================== *)
(** * POST /api/helmet-reservations/create *)
(* ===================================================================== *)

Module CreateRoute.

Record Request : Type := mkRequest
  { userId : option string; scheduleId : option string }.

Inductive Body : Type :=
| Error (error : string)
| Created (success : bool) (reservationId : string) (qrCode : string)
          (message : string).

Section Handler.
Variable rt : Runtime.

(** [v instanceof Date ? v : v.toDate()], for the field named [field]. *)
Definition as_Date (field : string) (v : TimeValue) : M JsDate :=
  match v with
  | TvDate d => ret d
  | TvTimestamp (Ok d) => ret d
  | TvTimestamp (Throw e) => throw e
  | TvSeconds _ | TvRaw _ => throw (field ++ ".toDate is not a function")
  | TvAbsent =>
      throw "Cannot read properties of undefined (reading 'toDate')"
  end.

(** Get or create the user's QR code. *)
Definition get_or_create_QRCode (userId : string) : M (option UserQRCode.t) :=
  userQRCode <- userQRCodeService_getByUserId rt userId ;;
  match userQRCode with
  | Some userQRCode => ret (Some userQRCode)
  | None =>
      now <- gets clock ;;
      let qrCodeData := "USER_" ++ userId ++ "_" ++ string_of_Z now in
      qrCodeImage <- QRCode_toDataURL rt qrCodeData ;;
      userQRCodeService_create rt userId qrCodeData qrCodeImage ;;;
      userQRCodeService_getByUserId rt userId
  end.

(** The document handed to [helmetReservationService.create]. *)
Definition reservation_data (user : User.t) (schedule : CourseSchedule.t)
  (userId scheduleId : string) (now : Z) (userQRCode : UserQRCode.t)
  : HelmetReservation.t :=
  {| HelmetReservation.id := "";
     HelmetReservation.userId := userId;
     HelmetReservation.userName :=
       User.firstName user ++ " " ++ User.lastName user;
     HelmetReservation.userEmail := User.email user;
     HelmetReservation.courseId := CourseSchedule.courseId schedule;
     HelmetReservation.courseName := CourseSchedule.title schedule;
     HelmetReservation.scheduleId := scheduleId;
     HelmetReservation.coachId := CourseSchedule.createdBy schedule;
     HelmetReservation.coachName := "";
     HelmetReservation.reservationDate := mkDate (Some now);
     HelmetReservation.classDate := CourseSchedule.startTime schedule;
     HelmetReservation.classStartTime := CourseSchedule.startTime schedule;
     HelmetReservation.classEndTime := CourseSchedule.endTime schedule;
     HelmetReservation.location := CourseSchedule.location schedule;
     HelmetReservation.status := booked;
     HelmetReservation.qrCode := UserQRCode.qrCodeData userQRCode;
     HelmetReservation.checkinTime := None |}.

(** [existingReservation && existingReservation.status !== 'cancelled']. *)
Definition blocks_booking (existingReservation : option HelmetReservation.t)
  : bool :=
  match existingReservation with
  | Some r => negb (ReservationStatus_eqb (HelmetReservation.status r) cancelled)
  | None => false
  end.

(** What follows the persisting of the reservation: the formatting of
    the dates, the notification, the mail and the response. *)
Definition after_create (user : User.t) (schedule : CourseSchedule.t)
  (userId : string) (userQRCode : UserQRCode.t) (reservationId : string)
  : M (Response Body) :=
  classDate <- as_Date "schedule.startTime" (CourseSchedule.startTime schedule) ;;
  endTime <- as_Date "schedule.endTime" (CourseSchedule.endTime schedule) ;;
  let formattedDate := toLocaleDateString rt classDate in
  let formattedTime :=
    toLocaleTimeString rt classDate ++ " - " ++ toLocaleTimeString rt endTime in
  notificationService_create rt
    {| Notification.userId := userId;
       Notification.title := "Helmet Reserved!";
       Notification.message :=
         "Your helmet is reserved for " ++ CourseSchedule.title schedule
           ++ " on " ++ formattedDate;
       Notification.type := "booking";
       Notification.read := false |} ;;;
  try_catch
    (fetch_send_email rt
       {| EmailRequest.userEmail := User.email user;
          EmailRequest.userName :=
            User.firstName user ++ " " ++ User.lastName user;
          EmailRequest.courseName := CourseSchedule.title schedule;
          EmailRequest.classDate := formattedDate;
          EmailRequest.classTime := formattedTime;
          EmailRequest.location := CourseSchedule.location schedule;
          EmailRequest.qrCodeImage := UserQRCode.qrCodeImage userQRCode |})
    (fun emailError => log_error ["Error sending email:"; emailError]) ;;;
  ret (json (Created true reservationId (UserQRCode.qrCodeImage userQRCode)
               "Helmet reservation created successfully")).

Definition POST (request : Request) : M (Response Body) :=
  try_catch
    (if negb (truthy (userId request)) || negb (truthy (scheduleId request))
     then ret (json_status
                 (Error "Missing required fields: userId and scheduleId") 400)
     else
       let userId := or_empty (userId request) in
       let scheduleId := or_empty (scheduleId request) in
       user <- userService_getById rt userId ;;
       match user with
       | None => ret (json_status (Error "User not found") 404)
       | Some user =>
       schedule <- scheduleService_getById rt scheduleId ;;
       match schedule with
       | None => ret (json_status (Error "Schedule not found") 404)
       | Some schedule =>
       existingReservation <-
         helmetReservationService_getByUserAndSchedule rt userId scheduleId ;;
       if blocks_booking existingReservation
       then ret (json_status
                   (Error "You already have a reservation for this class") 400)
       else
       userQRCode <- get_or_create_QRCode userId ;;
       match userQRCode with
       | None => ret (json_status (Error "Failed to generate QR code") 500)
       | Some userQRCode =>
       now <- gets clock ;;
       reservationId <-
         helmetReservationService_create rt
           (reservation_data user schedule userId scheduleId now userQRCode) ;;
       after_create user schedule userId userQRCode reservationId
       end end end)
    (fun error =>
       log_error ["Error creating helmet reservation:"; error] ;;;
       ret (json_status (Error (message_or error "Internal server error")) 500)).

End Handler.
End CreateRoute.

(* ===================================================================== *)
(** * POST /api/schedules/bulk-delete *)
(* ===================================================================== *)

Module BulkDelete.

Record Request : Type := mkRequest
  { courseId : option string;
    startDate : option string;
    endDate : option string;
    coachId : option string }.

Inductive Body : Type :=
| Error (error : string)
| Failed (error : string) (details : string)
| NoMatch (success : bool) (deletedCount : nat) (message : string)
| Deleted (success : bool) (deletedCount : nat)
          (cancelledReservationsCount : nat) (errors : option (list string))
          (message : string).

(** The [let] and [const] locals that the deletion loop updates. *)
Record Tally : Type := mkTally
  { deletedCount : nat;
    cancelledReservationsCount : nat;
    errors : list string }.

Definition Loop : Type -> Type := St (World * Tally).

(** A handler step run inside the loop: it leaves the locals alone. *)
Definition lift {A} (m : M A) : Loop A :=
  fun s => let (o, w') := m (fst s) in (o, (w', snd s)).

Definition on_tally (f : Tally -> Tally) : Loop unit :=
  modify (fun s => (fst s, f (snd s))).

(** [deletedCount++], [cancelledReservationsCount++], [errors.push(m)]. *)
Definition incr_deletedCount : Loop unit :=
  on_tally (fun t => mkTally (S (deletedCount t))
                             (cancelledReservationsCount t) (errors t)).

Definition incr_cancelledReservationsCount : Loop unit :=
  on_tally (fun t => mkTally (deletedCount t)
                             (S (cancelledReservationsCount t)) (errors t)).

Definition errors_push (errorMsg : string) : Loop unit :=
  on_tally (fun t => mkTally (deletedCount t) (cancelledReservationsCount t)
                             (errors t ++ [errorMsg])%list).

(** Runs a loop from the given locals and gives back their final
    values. *)
Definition with_locals {A} (t0 : Tally) (m : Loop A) : M (A * Tally) :=
  fun w =>
    match m (w, t0) with
    | (Ok a, (w', t)) => (Ok (a, t), w')
    | (Throw e, (w', _)) => (Throw e, w')
    end.

(** [l.filter(x => ...)] with a callback that may log. *)
Fixpoint filterM {A} (f : A -> M bool) (l : list A) : M (list A) :=
  match l with
  | [] => ret []
  | x :: rest =>
      keep <- f x ;;
      kept <- filterM f rest ;;
      ret (if keep then x :: kept else kept)
  end.

Section Handler.
Variable rt : Runtime.

(** The callback of the coach-ownership filter. *)
Definition owned_by (coachIdStr : string) (allCourses : list Course.t)
  (schedule : CourseSchedule.t) : bool :=
  let scheduleCreatedBy :=
    if truthy (CourseSchedule.createdBy schedule)
    then String_of (CourseSchedule.createdBy schedule) else "" in
  if scheduleCreatedBy =? coachIdStr then true
  else
    match find (fun c => Course.id c
                           =? String_of (CourseSchedule.courseId schedule))
               allCourses with
    | Some course => or_empty (Course.coachId course) =? coachIdStr
    | None => false
    end.

(** Step 2: the filter by course, or else by coach; [inl] is an early
    response. *)
Definition filter_by_owner (request : Request)
  (schedules : list CourseSchedule.t)
  : M (Response Body + list CourseSchedule.t) :=
  if truthy (courseId request) then
    let courseId := or_empty (courseId request) in
    course <- courseService_getById rt courseId ;;
    match course with
    | None => ret (inl (json_status (Error "Course not found") 404))
    | Some course =>
        let courseCoachId := or_empty (Course.coachId course) in
        let requestCoachId := String_of (coachId request) in
        if negb (courseCoachId =? requestCoachId)
        then ret (inl (json_status
                         (Error "You do not have permission to delete schedules for this course")
                         403))
        else
          let beforeCourseFilter := length schedules in
          let schedules :=
            filter (fun schedule =>
                      String_of (CourseSchedule.courseId schedule) =? courseId)
                   schedules in
          log ["After course filter (" ++ courseId ++ "): "
                 ++ string_of_nat beforeCourseFilter ++ " -> "
                 ++ string_of_nat (length schedules) ++ " schedules"] ;;;
          ret (inr schedules)
    end
  else
    allCourses <- courseService_getAll rt ;;
    let coachIdStr := String_of (coachId request) in
    let beforeCoachFilter := length schedules in
    let schedules := filter (owned_by coachIdStr allCourses) schedules in
    log ["After coach filter: " ++ string_of_nat beforeCoachFilter ++ " -> "
           ++ string_of_nat (length schedules) ++ " schedules"] ;;;
    ret (inr schedules).

(** The shapes of [schedule.startTime] brought to one [Date]; [Ok None]
    is the final [else] branch, which returns [false]. *)
Definition scheduleStartTime (v : TimeValue) : Outcome (option JsDate) :=
  match v with
  | TvTimestamp (Ok d) => Ok (Some d)
  | TvTimestamp (Throw e) => Throw e
  | TvDate d => Ok (Some d)
  | TvSeconds seconds =>
      Ok (Some (Date_of_number (option_map (fun s => (s * 1000)%Z) seconds)))
  | TvRaw raw =>
      if raw =? "" then Ok None else Ok (Some (Date_of_string rt raw))
  | TvAbsent => Ok None
  end.

(** [bound && test]: a missing bound filters nothing. *)
Definition outside (bound : option JsDate) (test : JsDate -> bool) : bool :=
  match bound with
  | Some b => test b
  | None => false
  end.

(** The callback of the date filter. *)
Definition in_date_range (start end_ : option JsDate)
  (schedule : CourseSchedule.t) : M bool :=
  try_catch
    (match scheduleStartTime (CourseSchedule.startTime schedule) with
     | Throw e => throw e
     | Ok None => ret false
     | Ok (Some scheduleStartTime) =>
         if outside start (fun start => date_lt scheduleStartTime start)
         then ret false
         else if outside end_ (fun end_ => date_gt scheduleStartTime end_)
         then ret false
         else ret true
     end)
    (fun error =>
       log_error ["Error parsing schedule " ++ CourseSchedule.id schedule
                    ++ " startTime:"; error] ;;;
       ret false).

(** The two bounds of the date filter, after [setHours]. *)
Definition start_bound (request : Request) : option JsDate :=
  if truthy (startDate request)
  then Some (setHours rt (Date_of_string rt (or_empty (startDate request)))
                      0 0 0 0)
  else None.

Definition end_bound (request : Request) : option JsDate :=
  if truthy (endDate request)
  then Some (setHours rt (Date_of_string rt (or_empty (endDate request)))
                      23 59 59 999)
  else None.

(** Step 3: the filter by date range. *)
Definition filter_by_date (request : Request)
  (schedules : list CourseSchedule.t) : M (list CourseSchedule.t) :=
  if truthy (startDate request) || truthy (endDate request) then
    let start := start_bound request in
    let end_ := end_bound request in
    let beforeDateFilter := length schedules in
    schedules <- filterM (in_date_range start end_) schedules ;;
    log ["After date filter: " ++ string_of_nat beforeDateFilter ++ " -> "
           ++ string_of_nat (length schedules) ++ " schedules"] ;;;
    ret schedules
  else ret schedules.

(** Steps 1 to 3: the validation and the selection of the schedules. *)
Definition select (request : Request)
  : M (Response Body + list CourseSchedule.t) :=
  log ["Delete request received:"; String_of (courseId request);
       String_of (startDate request); String_of (endDate request);
       String_of (coachId request)] ;;;
  if negb (truthy (coachId request))
  then ret (inl (json_status (Error "Coach ID is required") 400))
  else
  if negb (truthy (courseId request)) && negb (truthy (startDate request))
     && negb (truthy (endDate request))
  then ret (inl (json_status
                   (Error "At least one filter (course or date range) must be provided")
                   400))
  else
    schedules <- getDocs_courseSchedules rt ;;
    log ["Total schedules in database: " ++ string_of_nat (length schedules)] ;;;
    owned <- filter_by_owner request schedules ;;
    match owned with
    | inl response => ret (inl response)
    | inr schedules =>
        schedules <- filter_by_date request schedules ;;
        log ["Final schedules to delete: "
               ++ string_of_nat (length schedules)] ;;;
        ret (inr schedules)
    end.

(** The body of the inner loop over the reservations of a schedule. *)
Definition cancel_if_active (reservation : HelmetReservation.t) : Loop unit :=
  if negb (ReservationStatus_eqb (HelmetReservation.status reservation) checked_in)
     && negb (ReservationStatus_eqb (HelmetReservation.status reservation) cancelled)
  then
    lift (helmetReservationService_cancel rt (HelmetReservation.id reservation)) ;;;
    incr_cancelledReservationsCount
  else ret tt.

(** The block of the inner [try]: cancel all helmet reservations for
    this schedule. *)
Definition cancel_all (schedule : CourseSchedule.t) : Loop unit :=
  reservations <-
    lift (helmetReservationService_getByScheduleId rt
            (CourseSchedule.id schedule)) ;;
  for_of reservations cancel_if_active.

(** The inner [try] with its [catch]. *)
Definition cancel_reservations (schedule : CourseSchedule.t) : Loop unit :=
  try_catch
    (cancel_all schedule)
    (fun resError =>
       lift (log_error ["Error cancelling reservations for schedule "
                          ++ CourseSchedule.id schedule ++ ":"; resError])).

(** The body of the loop over the matched schedules. *)
Definition delete_schedule (schedule : CourseSchedule.t) : Loop unit :=
  try_catch
    (cancel_reservations schedule ;;;
     lift (deleteDoc_courseSchedules rt (CourseSchedule.id schedule)) ;;;
     incr_deletedCount ;;;
     lift (log ["Deleted schedule " ++ CourseSchedule.id schedule]))
    (fun error =>
       let errorMsg :=
         "Error deleting schedule " ++ CourseSchedule.id schedule ++ ": "
           ++ error in
       lift (log_error [errorMsg]) ;;;
       errors_push errorMsg).

(** Step 4 and the final response. *)
Definition delete_all (schedules : list CourseSchedule.t)
  : M (Response Body) :=
  done <- with_locals (mkTally 0 0 []) (for_of schedules delete_schedule) ;;
  let t := snd done in
  ret (json (Deleted true (deletedCount t) (cancelledReservationsCount t)
               (if (0 <? length (errors t))%nat then Some (errors t) else None)
               (string_of_nat (deletedCount t)
                  ++ " session(s) supprimée(s) avec succès"
                  ++ (if (0 <? cancelledReservationsCount t)%nat
                      then " et " ++ string_of_nat (cancelledReservationsCount t)
                             ++ " réservation(s) annulée(s)"
                      else "")))).

Definition POST (request : Request) : M (Response Body) :=
  try_catch
    (selected <- select request ;;
     match selected with
     | inl response => ret response
     | inr schedules =>
         if (length schedules =? 0)%nat
         then ret (json (NoMatch false 0
                           "Aucune session trouvée correspondant aux critères sélectionnés"))
         else delete_all schedules
     end)
    (fun error =>
       log_error ["Error in delete schedules endpoint:"; error] ;;;
       ret (json_status (Failed "Failed to delete schedules" error) 500)).

End Handler.
End BulkDelete.

(* ===================================================================== *)
(** * Vocabulary of the statements *)
(* ===================================================================== *)

(** No call that leaves the process rejects. *)
Definition storage_ok (rt : Runtime) : Prop := forall op, faults rt op = None.

(** A tagged scan result: the answer has status 200 and a body with
    [valid], [status] and [message], not an [error] body. *)
Definition tagged (valid : bool) (status : string)
  (response : Response ScanRoute.Body) : Prop :=
  http response = 200
  /\ exists r, body response = ScanRoute.Result r
               /\ ScanRoute.valid r = valid /\ ScanRoute.status r = status.

(** What [helmetReservationService.checkIn] writes into a reservation. *)
Definition checked_in_at (now : Z) (r : HelmetReservation.t)
  : HelmetReservation.t :=
  HelmetReservation.with_checkinTime (Some now)
    (HelmetReservation.with_status checked_in r).

(** [v instanceof Date ? v : v.toDate()] gives the date [d]. *)
Definition converts (v : TimeValue) (d : JsDate) : Prop :=
  v = TvDate d \/ v = TvTimestamp (Ok d).

(** The calls of a booking, up to and including the notification, all
    succeed; nothing is said of the mail. *)
Definition booking_calls_ok (rt : Runtime) (userId scheduleId : string) : Prop :=
  faults rt (op_userService_getById userId) = None
  /\ faults rt (op_scheduleService_getById scheduleId) = None
  /\ faults rt (op_helmetReservationService_getByUserAndSchedule
                  userId scheduleId) = None
  /\ faults rt (op_userQRCodeService_getByUserId userId) = None
  /\ (forall data, faults rt (op_QRCode_toDataURL data) = None)
  /\ faults rt (op_userQRCodeService_create userId) = None
  /\ faults rt (op_helmetReservationService_create userId scheduleId) = None
  /\ faults rt (op_notificationService_create userId) = None.

(** The token of a QR identity created for [userId] at time [now]. *)
Definition token_for (userId : string) (now : Z) : string :=
  "USER_" ++ userId ++ "_" ++ string_of_Z now.

(** The QR identities of a user. *)
Definition identities_of (d : Db) (userId : string) : list UserQRCode.t :=
  filter (fun q => UserQRCode.userId q =? userId) (userQRCodes d).

Definition one_identity_per_user (d : Db) : Prop :=
  forall userId, (length (identities_of d userId) <= 1)%nat.

(** [m] relates every state to the state it leaves, whatever the
    outcome. *)
Definition sat {S A} (R : S -> S -> Prop) (m : St S A) : Prop :=
  forall s, R s (snd (m s)).

(** The identities and the clock are as before. *)
Definition qr_frame (w w' : World) : Prop :=
  userQRCodes (db w') = userQRCodes (db w) /\ clock w' = clock w.

(** What a booking by [userId] may do to the identities: nothing, or,
    when the user has none, add the one derived from the user and the
    time. *)
Definition qr_step (rt : Runtime) (userId : string) (w w' : World) : Prop :=
  clock w' = clock w
  /\ (userQRCodes (db w') = userQRCodes (db w)
      \/ (Store.qr_by_user (db w) userId = None
          /\ exists id,
              userQRCodes (db w')
              = (userQRCodes (db w)
                   ++ [UserQRCode.mk id userId (token_for userId (clock w))
                         (QRCode_render rt (token_for userId (clock w)))])%list)).

(** A request to one of the four endpoints. *)
Inductive Call : Type :=
| call_create (request : CreateRoute.Request)
| call_scan (request : ScanRoute.Request)
| call_cancel (reservationId : option string)
| call_bulk_delete (request : BulkDelete.Request).

(** A request as it is served: by some runtime, at some time. *)
Record Served : Type := mkServed
  { served_by : Runtime; served_at : Z; served_call : Call }.

Definition set_clock (now : Z) (w : World) : World :=
  mkWorld (db w) (outbox w) (console w) now (nextDocId w).

(** The world after a request has been served. *)
Definition serve_one (x : Served) (w : World) : World :=
  let w := set_clock (served_at x) w in
  match served_call x with
  | call_create request => snd (CreateRoute.POST (served_by x) request w)
  | call_scan request => snd (ScanRoute.POST (served_by x) request w)
  | call_cancel reservationId =>
      snd (CancelRoute.DELETE (served_by x) reservationId w)
  | call_bulk_delete request => snd (BulkDelete.POST (served_by x) request w)
  end.

(** The world after a history of requests, served one after the other. *)
Definition serve (history : list Served) (w : World) : World :=
  fold_left (fun w x => serve_one x w) history w.

(** A relation on worlds, read on the states of the deletion loop. *)
Definition on_world (R : World -> World -> Prop)
  (s s' : World * BulkDelete.Tally) : Prop :=
  R (fst s) (fst s').

Create HintDb frame.

(** One step of the identities of a store: nothing, or one identity
    added for a user who had none. *)
Definition identity_step (d d' : Db) : Prop :=
  userQRCodes d' = userQRCodes d
  \/ exists q, Store.qr_by_user d (UserQRCode.userId q) = None
               /\ userQRCodes d' = (userQRCodes d ++ [q])%list.

(** The persistent state is as before. *)
Definition db_frame (w w' : World) : Prop := db w' = db w.

(** The delete call for the schedule succeeds. *)
Definition deletable (rt : Runtime) (s : CourseSchedule.t) : bool :=
  match faults rt (op_deleteDoc_courseSchedules (CourseSchedule.id s)) with
  | None => true
  | Some _ => false
  end.

(** The message pushed to [errors] for a schedule whose delete call
    fails. *)
Definition delete_error (rt : Runtime) (s : CourseSchedule.t) : list string :=
  match faults rt (op_deleteDoc_courseSchedules (CourseSchedule.id s)) with
  | None => []
  | Some e =>
      ["Error deleting schedule " ++ CourseSchedule.id s ++ ": " ++ e]
  end.

Definition delete_errors (rt : Runtime) (schedules : list CourseSchedule.t)
  : list string :=
  flat_map (delete_error rt) schedules.

(** The document [x] has the id of a schedule of the list whose delete
    call succeeds. *)
Definition deleted_by (rt : Runtime) (schedules : list CourseSchedule.t)
  (x : CourseSchedule.t) : bool :=
  existsb (fun s => deletable rt s
                    && (CourseSchedule.id x =? CourseSchedule.id s))
          schedules.

(** [errors.length > 0 ? errors : undefined]. *)
Definition errors_field (errors : list string) : option (list string) :=
  if (0 <? length errors)%nat then Some errors else None.

(** One iteration of the deletion loop leaves the schedules, the count
    of deleted schedules and the errors as they were. *)
Definition loop_keeps (s s' : World * BulkDelete.Tally) : Prop :=
  courseSchedules (db (fst s')) = courseSchedules (db (fst s))
  /\ BulkDelete.deletedCount (snd s') = BulkDelete.deletedCount (snd s)
  /\ BulkDelete.errors (snd s') = BulkDelete.errors (snd s).

Definition schedules_frame (w w' : World) : Prop :=
  courseSchedules (db w') = courseSchedules (db w).

(** The console line of the inner [catch]. *)
Definition cancel_error_line (schedule : CourseSchedule.t) (e : string)
  : LogLine :=
  console_error ["Error cancelling reservations for schedule "
                   ++ CourseSchedule.id schedule ++ ":"; e].

(** Brings the lookups assumed by a case together with the lookups met
    on the path of the handler. *)
Ltac lookups :=
  intros;
  repeat match goal with
         | H : Some _ = Some _ |- _ => injection H as <-
         | H : None = Some _ |- _ => discriminate H
         | H : Some _ = None |- _ => discriminate H
         | H : ?x = None, H' : ?x = Some _ |- _ => congruence
         | H : ?x = Some _, H' : ?x = Some _ |- _ => rewrite H in H'
         end.

Ltac five_cases := split; [|split; [|split; [|split]]].

(** Unfolds the monad, to expose the next call of a handler. *)
Ltac monad :=
  unfold log, log_error in *;
  unfold try_catch, bind, ret, throw, gets, modify in *.

(* ===================================================================== *)
(** * A concrete runtime and a concrete store *)
(* ===================================================================== *)

Module Sample.

Definition digit (c : ascii) : option Z :=
  let n := Z.of_nat (nat_of_ascii c) in
  if ((48 <=? n) && (n <=? 57))%Z then Some (n - 48)%Z else None.

(** Days from 1970-01-01 to the given day of the proleptic Gregorian
    calendar. *)
Definition days_from_civil (y m d : Z) : Z :=
  let y' := (if m <=? 2 then y - 1 else y)%Z in
  let era := (y' / 400)%Z in
  let yoe := (y' - era * 400)%Z in
  let mp := (if 2 <? m then m - 3 else m + 9)%Z in
  let doy := ((153 * mp + 2) / 5 + d - 1)%Z in
  let doe := (yoe * 365 + yoe / 4 - yoe / 100 + doy)%Z in
  (era * 146097 + doe - 719468)%Z.

Definition is_leap (y : Z) : bool :=
  ((y mod 4 =? 0) && (negb (y mod 100 =? 0) || (y mod 400 =? 0)))%Z.

Definition days_in_month (y m : Z) : Z :=
  if (m =? 2)%Z then (if is_leap y then 29 else 28)%Z
  else if ((m =? 4) || (m =? 6) || (m =? 9) || (m =? 11))%Z then 30%Z
  else 31%Z.

Definition number (ds : list ascii) : option Z :=
  fold_left (fun acc c =>
               match acc, digit c with
               | Some n, Some d => Some (10 * n + d)%Z
               | _, _ => None
               end) ds (Some 0%Z).

(** The date-only form [YYYY-MM-DD] of [Date.parse], which is read as
    UTC midnight; every other string is taken as unparseable. *)
Definition parse_date_only (s : string) : option Z :=
  match list_ascii_of_string s with
  | [y1; y2; y3; y4; s1; m1; m2; s2; d1; d2] =>
      if (Ascii.eqb s1 "-" && Ascii.eqb s2 "-")%bool then
        match number [y1; y2; y3; y4], number [m1; m2], number [d1; d2] with
        | Some y, Some m, Some d =>
            if ((1 <=? m) && (m <=? 12) && (1 <=? d)
                && (d <=? days_in_month y m))%Z
            then Some (days_from_civil y m d * msPerDay)%Z
            else None
        | _, _, _ => None
        end
      else None
  | _ => None
  end.

Definition show_date (what : string) (d : JsDate) : string :=
  match getTime d with
  | Some t => what ++ " " ++ string_of_Z t
  | None => "Invalid Date"
  end.

(** A runtime one hour east of UTC in which every call succeeds and the
    store returns the first document that matches. *)
Definition runtime : Runtime :=
  {| Date_parse := parse_date_only;
     tzOffset := 3600000;
     toLocaleDateString := show_date "date";
     toLocaleTimeString := show_date "time";
     QRCode_render := fun data => "data:image/png;base64," ++ data;
     pick := fun _ => 0%nat;
     faults := fun _ => None |}.

(** The same runtime with the given calls rejecting. *)
Definition failing (failures : Op -> option string) : Runtime :=
  {| Date_parse := Date_parse runtime;
     tzOffset := tzOffset runtime;
     toLocaleDateString := toLocaleDateString runtime;
     toLocaleTimeString := toLocaleTimeString runtime;
     QRCode_render := QRCode_render runtime;
     pick := pick runtime;
     faults := failures |}.

(** The notification store is down. *)
Definition notification_down : Runtime :=
  failing (fun op =>
             match op with
             | op_notificationService_create _ =>
                 Some "notification store unavailable"
             | _ => None
             end).

(** The mail endpoint cannot be reached. *)
Definition mail_down : Runtime :=
  failing (fun op =>
             match op with
             | op_fetch_send_email => Some "fetch failed"
             | _ => None
             end).

(** 2024-03-10T18:00:00Z and 19:00:00Z. *)
Definition six_pm : JsDate := mkDate (Some 1710093600000%Z).
Definition seven_pm : JsDate := mkDate (Some 1710097200000%Z).

Definition ada : User.t := User.mk "u1" "Ada" "Lovelace" "ada@example.org".

Definition salsa : CourseSchedule.t :=
  CourseSchedule.mk "s1" (Some "c1") "Salsa" (TvTimestamp (Ok six_pm))
                    (TvTimestamp (Ok seven_pm)) "Studio A" (Some "coach1").

Definition zouk : CourseSchedule.t :=
  CourseSchedule.mk "s2" (Some "c1") "Zouk" (TvDate six_pm) (TvDate seven_pm)
                    "Studio B" (Some "coach1").

(** A schedule whose [startTime] is a string that is not a date. *)
Definition undated : CourseSchedule.t :=
  CourseSchedule.mk "s3" (Some "c1") "Kizomba" (TvRaw "to be announced")
                    TvAbsent "Studio C" (Some "coach1").

Definition dance : Course.t := Course.mk "c1" (Some "coach1").

Definition store : Db :=
  {| users := [ada];
     courseSchedules := [salsa; zouk];
     courses := [dance];
     helmetReservations := [];
     userQRCodes := [];
     notifications := [] |}.

Definition world : World :=
  {| db := store; outbox := []; console := [];
     clock := 1710000000000; nextDocId := 0 |}.

(** The store with the salsa class and the class without a date. *)
Definition world_undated : World :=
  {| db := {| users := [ada];
              courseSchedules := [salsa; undated];
              courses := [dance];
              helmetReservations := [];
              userQRCodes := [];
              notifications := [] |};
     outbox := []; console := [];
     clock := 1710000000000; nextDocId := 0 |}.

(** Coach 1 deletes the sessions of January 2025. *)
Definition january_2025 : BulkDelete.Request :=
  BulkDelete.mkRequest None (Some "2025-01-01") (Some "2025-01-31")
                       (Some "coach1").

(** Coach 2 deletes the sessions of the course of coach 1. *)
Definition foreign_course : BulkDelete.Request :=
  BulkDelete.mkRequest (Some "c1") None None (Some "coach2").

(** Coach 1 deletes the sessions of a course that does not exist. *)
Definition missing_course : BulkDelete.Request :=
  BulkDelete.mkRequest (Some "c9") None None (Some "coach1").

(** Coach 1 deletes the sessions of the dance course. *)
Definition own_course : BulkDelete.Request :=
  BulkDelete.mkRequest (Some "c1") None None (Some "coach1").

(** The salsa class cannot be deleted, and the reservations of the zouk
    class cannot be read. *)
Definition deletion_trouble : Runtime :=
  failing (fun op =>
             match op with
             | op_deleteDoc_courseSchedules id =>
                 if id =? "s1" then Some "permission denied" else None
             | op_helmetReservationService_getByScheduleId id =>
                 if id =? "s2" then Some "reservations unavailable" else None
             | _ => None
             end).

Definition book (userId scheduleId : string) : CreateRoute.Request :=
  CreateRoute.mkRequest (Some userId) (Some scheduleId).

Definition scan (qrCodeData scheduleId : string) : ScanRoute.Request :=
  ScanRoute.mkRequest (Some qrCodeData) (Some scheduleId).

(** The world after the handler has run. *)
Definition after {A} (m : M A) (w : World) : World := snd (m w).

(** Ada has booked the salsa class. *)
Definition world_booked : World :=
  after (CreateRoute.POST runtime (book "u1" "s1")) world.

(** Ada has booked the salsa class and has been checked in. *)
Definition world_checked_in : World :=
  after (ScanRoute.POST runtime (scan "USER_u1_1710000000000" "s1"))
        world_booked.

(** Ada has booked the salsa class and has cancelled. *)
Definition world_cancelled : World :=
  after (CancelRoute.DELETE runtime (Some "doc1")) world_booked.

(** The token and the identity issued to Ada by her first booking. *)
Definition ada_token : string := "USER_u1_1710000000000".

Definition ada_identity : UserQRCode.t :=
  UserQRCode.mk "doc0" "u1" ada_token ("data:image/png;base64," ++ ada_token).

(** Requests that follow the first booking of Ada: a cancellation, a
    scan, a bulk deletion and, a day later, a second booking. *)
Definition later_requests : list Served :=
  [ mkServed mail_down 1710000100000 (call_cancel (Some "doc1"));
    mkServed runtime 1710000200000 (call_scan (scan ada_token "s1"));
    mkServed deletion_trouble 1710000300000 (call_bulk_delete foreign_course);
    mkServed runtime 1710086400000 (call_create (book "u1" "s1")) ].

End Sample.

(* ===================================================================== *)
(** * GET /api/helmet-reservations/user/[userId] *)
(* ===================================================================== *)

Module UserRoute.

Inductive Body : Type :=
| Error (error : string)
| Listing (success : bool) (reservations : list HelmetReservation.t)
          (qrCode : option string) (qrCodeData : option string).

(** [v || null] on a string that may be missing: [None] is [null]. *)
Definition or_null (v : option string) : option string :=
  if truthy v then v else None.

Section Handler.
Variable rt : Runtime.

(** Whether the lookup of the reservations of a user rejects, and with
    which message. *)
Variable getByUserId_fault : string -> option string.

(** Modelled from the spec: [helmetReservationService.getByUserId] of the
    database module, the reservations of one user. *)
Definition helmetReservationService_getByUserId (userId : string)
  : M (list HelmetReservation.t) :=
  fun w =>
    match getByUserId_fault userId with
    | Some e => (Throw e, w)
    | None =>
        (Ok (filter (fun r => HelmetReservation.userId r =? userId)
                    (helmetReservations (db w))), w)
    end.

Definition GET (userId : option string) : M (Response Body) :=
  try_catch
    (if negb (truthy userId)
     then ret (json_status (Error "User ID is required") 400)
     else
       let userId := or_empty userId in
       reservations <- helmetReservationService_getByUserId userId ;;
       userQRCode <- userQRCodeService_getByUserId rt userId ;;
       ret (json (Listing true reservations
                    (or_null (option_map UserQRCode.qrCodeImage userQRCode))
                    (or_null (option_map UserQRCode.qrCodeData userQRCode)))))
    (fun error =>
       log_error ["Error fetching user reservations:"; error] ;;;
       ret (json_status (Error (message_or error "Internal server error")) 500)).

End Handler.
End UserRoute.

(* ===================================================================== *)
(** * Vocabulary of the further statements *)
(* ===================================================================== *)

(** The schedule was created by the coach, or belongs to a course of the
    coach. *)
Definition owned (d : Db) (coach : string) (s : CourseSchedule.t) : Prop :=
  CourseSchedule.createdBy s = Some coach
  \/ exists c, In c (courses d)
               /\ Course.id c = String_of (CourseSchedule.courseId s)
               /\ or_empty (Course.coachId c) = coach.

(** [v.toDate] cannot be called: [v] is missing, or is neither a date
    nor an object with that function. *)
Definition no_toDate (v : TimeValue) : Prop :=
  v = TvAbsent \/ (exists raw, v = TvRaw raw) \/ (exists n, v = TvSeconds n).

(** The test of the inner loop of the bulk deletion: the reservation is
    neither checked in nor cancelled. *)
Definition active (r : HelmetReservation.t) : bool :=
  negb (ReservationStatus_eqb (HelmetReservation.status r) checked_in)
  && negb (ReservationStatus_eqb (HelmetReservation.status r) cancelled).

(** The reservation after the cancellation of the documents that have
    one of the ids. *)
Definition cancel_ids (ids : list string) (r : HelmetReservation.t)
  : HelmetReservation.t :=
  if existsb (String.eqb (HelmetReservation.id r)) ids
  then HelmetReservation.with_status cancelled r
  else r.

(** From [w] to [w'] the reservations with one of the ids have been
    cancelled; the other reservations, the users, the courses, the
    identities, the notifications and the outbox are as they were. *)
Definition cancels_ids (ids : list string) (w w' : World) : Prop :=
  helmetReservations (db w')
  = map (cancel_ids ids) (helmetReservations (db w))
  /\ users (db w') = users (db w)
  /\ courses (db w') = courses (db w)
  /\ userQRCodes (db w') = userQRCodes (db w)
  /\ notifications (db w') = notifications (db w)
  /\ outbox w' = outbox w.

(** The store and the outbox are as they were. *)
Definition reads (w w' : World) : Prop :=
  db w' = db w /\ outbox w' = outbox w.

(** The reservation is for one of the schedules. *)
Definition reserved_for (schedules : list CourseSchedule.t)
  (r : HelmetReservation.t) : bool :=
  existsb (fun s => HelmetReservation.scheduleId r =? CourseSchedule.id s)
          schedules.

(** The id is the id of a booked reservation of the list that is for
    one of the schedules. *)
Definition booked_for (l : list HelmetReservation.t)
  (schedules : list CourseSchedule.t) (id : string) : Prop :=
  exists r, In r l
            /\ HelmetReservation.id r = id
            /\ HelmetReservation.status r = booked
            /\ reserved_for schedules r = true.

(** The reservation after the deletion of the schedules, when no call
    fails: cancelled when it was active and for one of them. *)
Definition cancel_for (schedules : list CourseSchedule.t)
  (r : HelmetReservation.t) : HelmetReservation.t :=
  if active r && reserved_for schedules r
  then HelmetReservation.with_status cancelled r
  else r.

(** The schedule has the id of one of the schedules. *)
Definition among (schedules : list CourseSchedule.t) (x : CourseSchedule.t)
  : bool :=
  existsb (fun s => CourseSchedule.id x =? CourseSchedule.id s) schedules.

(** What the selection of a bulk deletion lets through for a request:
    a schedule of the store that the coach of the request owns, of the
    course of the request when it names one. *)
Definition selectable (d : Db) (request : BulkDelete.Request)
  (s : CourseSchedule.t) : Prop :=
  In s (courseSchedules d)
  /\ (exists coach, BulkDelete.coachId request = Some coach
                    /\ coach <> ""
                    /\ owned d coach s)
  /\ (truthy (BulkDelete.courseId request) = true ->
      String_of (CourseSchedule.courseId s)
      = or_empty (BulkDelete.courseId request)).

(* ===================================================================== *)
(** * lib/subscriptionUtils.ts *)
(* ===================================================================== *)

Module SubscriptionUtils.

(** The fields of a [UserSubscription] that the two functions read. *)
Record UserSubscription : Type := mkSubscription
  { planType : string;
    endDate : TimeValue;
    remainingSessions : option Z;   (** [None]: missing, or NaN *)
    status : string }.

Record UserSubscriptionStatus : Type := mkStatus
  { hasActiveSubscription : bool;
    hasPurchasedOffer : bool;
    subscription : option UserSubscription;
    isExpired : bool }.

(** Truthiness of a stored time. *)
Definition truthy_time (v : TimeValue) : bool :=
  match v with
  | TvAbsent => false
  | TvRaw raw => negb (raw =? "")
  | _ => true
  end.

(** [!n || n <= 0] on a number that may be missing. *)
Definition none_left (n : option Z) : bool :=
  match n with
  | None => true
  | Some n => (n =? 0)%Z || (n <=? 0)%Z
  end.

Section Utils.
Variable rt : Runtime.

(** [userSubscriptionService.getActiveByUserId] and
    [offerPurchaseService.hasActivePurchase] of the database module,
    which is not among the sources: any two computations on the world. *)
Variable userSubscriptionService_getActiveByUserId
  : string -> M (option UserSubscription).
Variable offerPurchaseService_hasActivePurchase : string -> M bool.

(** [endDate instanceof Timestamp ? endDate.toDate() : new Date(endDate)],
    with [TvTimestamp] read as a Firestore [Timestamp].  A plain object
    is not a date string: [new Date] of it is an Invalid Date.  The last
    case is not reached, a missing end date being falsy. *)
Definition endDate_as_Date (v : TimeValue) : Outcome JsDate :=
  match v with
  | TvTimestamp toDate => toDate
  | TvDate d => Ok (mkDate (getTime d))
  | TvSeconds _ => Ok (mkDate None)
  | TvRaw raw => Ok (Date_of_string rt raw)
  | TvAbsent => Ok (mkDate None)
  end.

(** The value given to [isExpired] for a subscription. *)
Definition expired (subscription : UserSubscription) : M bool :=
  if (planType subscription =? "annual")
     && truthy_time (endDate subscription)
  then
    match endDate_as_Date (endDate subscription) with
    | Throw e => throw e
    | Ok endDate =>
        now <- gets clock ;;
        ret (date_lt endDate (mkDate (Some now)))
    end
  else if planType subscription =? "session_pack"
  then ret (none_left (remainingSessions subscription))
  else ret false.

Definition checkUserSubscriptionStatus (userId : string)
  : M UserSubscriptionStatus :=
  try_catch
    (subscription <- userSubscriptionService_getActiveByUserId userId ;;
     flags <- match subscription with
              | Some s =>
                  isExpired <- expired s ;;
                  ret (negb isExpired && (status s =? "active"), isExpired)
              | None => ret (false, false)
              end ;;
     let hasActiveSubscription := fst flags in
     let isExpired := snd flags in
     hasPurchasedOffer <- offerPurchaseService_hasActivePurchase userId ;;
     ret (mkStatus hasActiveSubscription hasPurchasedOffer
                   (if hasActiveSubscription then subscription else None)
                   isExpired))
    (fun error =>
       log_error ["Error checking subscription status:"; error] ;;;
       ret (mkStatus false false None false)).

Definition shouldShowOffersPopup (userId : string) : M bool :=
  status <- checkUserSubscriptionStatus userId ;;
  ret ((negb (hasActiveSubscription status)
        && negb (hasPurchasedOffer status))
       || isExpired status).

End Utils.
End SubscriptionUtils.

(* ===================================================================== *)
(** * The code of a discount card *)
(* ===================================================================== *)

Module DiscountCode.

Definition in_range (lo hi : nat) (c : ascii) : bool :=
  ((lo <=? nat_of_ascii c) && (nat_of_ascii c <=? hi))%nat.

Definition is_digit (c : ascii) : bool := in_range 48 57 c.
Definition is_upper (c : ascii) : bool := in_range 65 90 c.
Definition is_lower (c : ascii) : bool := in_range 97 122 c.

(** [s.replace(/[^a-zA-Z0-9]/g, '')]. *)
Fixpoint keep_alnum (s : string) : string :=
  match s with
  | EmptyString => EmptyString
  | String c rest =>
      if is_lower c || is_upper c || is_digit c
      then String c (keep_alnum rest)
      else keep_alnum rest
  end.

(** [s.toUpperCase()] on a string of ASCII characters. *)
Definition upper (c : ascii) : ascii :=
  if is_lower c then ascii_of_nat (nat_of_ascii c - 32) else c.

Fixpoint toUpperCase (s : string) : string :=
  match s with
  | EmptyString => EmptyString
  | String c rest => String (upper c) (toUpperCase rest)
  end.

(** [s.slice(0, n)] and [s.slice(-n)]. *)
Definition slice_to (n : nat) (s : string) : string := substring 0 n s.

Definition slice_last (n : nat) (s : string) : string :=
  substring (String.length s - n) n s.

(** [generateDiscountCode], at the time [now] of [Date.now()] and for a
    percentage that is an integer. *)
Definition generateDiscountCode (now : Z) (coachName : string)
  (percentage : Z) : string :=
  let timestamp := slice_last 6 (string_of_Z now) in
  let cleanName := slice_to 4 (toUpperCase (keep_alnum coachName)) in
  cleanName ++ string_of_Z percentage ++ timestamp.

End DiscountCode.

(** Every character of the string passes the test. *)
Fixpoint string_forall (p : ascii -> bool) (s : string) : bool :=
  match s with
  | EmptyString => true
  | String c rest => p c && string_forall p rest
  end.

(** A digit or an upper-case letter. *)
Definition code_char (c : ascii) : bool :=
  DiscountCode.is_digit c || DiscountCode.is_upper c.

(* ===================================================================== *)
(** * GET /api/discount-cards/user-cards *)
(* ===================================================================== *)

Module UserCards.

(** A document of the collection [discount_cards]: its id, and the
    fields that the queries read. *)
Record DiscountCard : Type := mkCard
  { id : string;
    coachId : option string;
    userEmail : option string;
    cardType : option string }.

Inductive Body : Type :=
| Error (error : string)
| Cards (success : bool) (discountCards : list DiscountCard).

(** The queries sent to the store. *)
Inductive Query : Type :=
| users_by_id (userId : string)
| student_cards (coachId userEmail : string)
| course_cards (coachId : string)
| cards_by_email (userEmail : string).

(** [where(field, '==', value)] on a field that may be missing. *)
Definition field_is (field : option string) (value : string) : bool :=
  match field with
  | Some s => s =? value
  | None => false
  end.

(** A [Map] with string keys, as the list of its entries in the order
    of their insertion: [set] on a key that is present replaces the
    value where it is. *)
Fixpoint Map_set {V} (k : string) (v : V) (m : list (string * V))
  : list (string * V) :=
  match m with
  | [] => [(k, v)]
  | (k', v') :: rest =>
      if k' =? k then (k, v) :: rest else (k', v') :: Map_set k v rest
  end.

Definition Map_has {V} (k : string) (m : list (string * V)) : bool :=
  existsb (fun entry => fst entry =? k) m.

Definition Map_values {V} (m : list (string * V)) : list V := map snd m.

Section Handler.

(** The collection [discount_cards], which the handler only reads. *)
Variable discount_cards : list DiscountCard.

(** Whether a query rejects, and with which message. *)
Variable getDocs_fault : Query -> option string.

(** [getDocs(query(...))] of the Firestore SDK. *)
Definition getDocs {A} (q : Query) (docs : World -> list A) : M (list A) :=
  fun w =>
    match getDocs_fault q with
    | Some e => (Throw e, w)
    | None => (Ok (docs w), w)
    end.

(** The two snapshots merged by document id: the student cards, then
    the course cards that are not among them. *)
Definition merge (studentCardsSnap courseCardsSnap : list DiscountCard)
  : list DiscountCard :=
  let docsMap :=
    fold_left (fun docsMap doc => Map_set (id doc) doc docsMap)
              studentCardsSnap [] in
  let docsMap :=
    fold_left (fun docsMap doc =>
                 if negb (Map_has (id doc) docsMap)
                 then Map_set (id doc) doc docsMap
                 else docsMap)
              courseCardsSnap docsMap in
  Map_values docsMap.

(** The two queries of [Promise.all] only read: they are run one after
    the other, and the failure of the first is the one reported. *)
Definition GET (userId coachId : option string) : M (Response Body) :=
  try_catch
    (if negb (truthy userId)
     then ret (json_status (Error "User ID is required") 400)
     else
       let userId := or_empty userId in
       userSnapshot <-
         getDocs (users_by_id userId)
                 (fun w => filter (fun u => User.id u =? userId)
                                  (users (db w))) ;;
       match userSnapshot with
       | [] => ret (json_status (Error "User not found") 404)
       | first :: _ =>
           let userEmail := User.email first in
           if truthy coachId then
             let coachId := or_empty coachId in
             studentCardsSnap <-
               getDocs (student_cards coachId userEmail)
                       (fun _ =>
                          filter (fun c =>
                                    field_is (UserCards.coachId c) coachId
                                    && field_is (UserCards.userEmail c)
                                                userEmail)
                                 discount_cards) ;;
             courseCardsSnap <-
               getDocs (course_cards coachId)
                       (fun _ =>
                          filter (fun c =>
                                    field_is (UserCards.coachId c) coachId
                                    && field_is (cardType c) "course")
                                 discount_cards) ;;
             ret (json (Cards true (merge studentCardsSnap courseCardsSnap)))
           else
             querySnapshot <-
               getDocs (cards_by_email userEmail)
                       (fun _ =>
                          filter (fun c => field_is (UserCards.userEmail c)
                                                    userEmail)
                                 discount_cards) ;;
             ret (json (Cards true querySnapshot))
       end)
    (fun error =>
       log_error ["Error fetching user discount cards:"; error] ;;;
       ret (json_status (Error "Internal server error") 500)).

End Handler.
End UserCards.

(** The entry of a [Map] for a document, under its key. *)
Definition entry {V} (key : V -> string) (v : V) : string * V := (key v, v).

(** The cards that a user with the given email may be shown: with a
    coach, the cards of the coach that are addressed to the user or are
    course cards; without one, the cards addressed to the user. *)
Definition visible (coachId : option string) (email : string)
  (c : UserCards.DiscountCard) : bool :=
  if truthy coachId
  then UserCards.field_is (UserCards.coachId c) (or_empty coachId)
       && (UserCards.field_is (UserCards.userEmail c) email
           || UserCards.field_is (UserCards.cardType c) "course")
  else UserCards.field_is (UserCards.userEmail c) email.

(** Concrete cases for the further statements. *)
Module Cases.

(** The write of a check-in is refused. *)
Definition checkin_down : Runtime :=
  Sample.failing (fun op =>
                    match op with
                    | op_helmetReservationService_checkIn _ =>
                        Some "write refused"
                    | _ => None
                    end).

(** Ada books the class that has no date. *)
Definition book_undated : CreateRoute.Request := Sample.book "u1" "s3".

End Cases.

(** Three subscribers: Ada holds an annual subscription that ended on
    2024-01-01 and has purchased an offer, Bob holds a session pack with
    three sessions left, and the purchases of Carl cannot be read. *)
Module Subscribers.

Definition ended : SubscriptionUtils.UserSubscription :=
  SubscriptionUtils.mkSubscription
    "annual" (TvTimestamp (Ok (mkDate (Some 1704067200000%Z)))) None "active".

Definition pack : SubscriptionUtils.UserSubscription :=
  SubscriptionUtils.mkSubscription "session_pack" TvAbsent (Some 3%Z) "active".

Definition getActive (userId : string)
  : M (option SubscriptionUtils.UserSubscription) :=
  fun w =>
    if userId =? "u1" then (Ok (Some ended), w)
    else if userId =? "u2" then (Ok (Some pack), w)
    else (Ok None, w).

Definition hasPurchase (userId : string) : M bool :=
  fun w =>
    if userId =? "u3" then (Throw "purchases unavailable", w)
    else (Ok (userId =? "u1"), w).

End Subscribers.

(** The discount cards of two coaches: a card for Ada, a course card, a
    course card addressed to Ada, a card for Bob, and a card of another
    coach for Ada. *)
Module Wallet.

Definition welcome : UserCards.DiscountCard :=
  UserCards.mkCard "k1" (Some "coach1") (Some "ada@example.org")
                   (Some "student").

Definition salsa10 : UserCards.DiscountCard :=
  UserCards.mkCard "k2" (Some "coach1") None (Some "course").

Definition both : UserCards.DiscountCard :=
  UserCards.mkCard "k3" (Some "coach1") (Some "ada@example.org")
                   (Some "course").

Definition for_bob : UserCards.DiscountCard :=
  UserCards.mkCard "k4" (Some "coach1") (Some "bob@example.org")
                   (Some "student").

Definition elsewhere : UserCards.DiscountCard :=
  UserCards.mkCard "k5" (Some "coach2") (Some "ada@example.org") None.

Definition cards : list UserCards.DiscountCard :=
  [welcome; salsa10; both; for_bob; elsewhere].

End Wallet.

(* ===================================================================== *)
(** * Basic facts *)
(* ===================================================================== *)

Lemma ReservationStatus_eqb_eq a b :
  ReservationStatus_eqb a b = true <-> a = b.
Proof. destruct a, b; simpl; split; congruence. Qed.

Lemma truthy_Some s : s <> "" -> truthy (Some s) = true.
Proof.
  intros H. unfold truthy. apply negb_true_iff. now apply String.eqb_neq.
Qed.

Lemma truthy_inv v : truthy v = true -> exists s, v = Some s /\ s <> "".
Proof.
  destruct v as [s|]; simpl; [|discriminate].
  intros H. exists s. split; [reflexivity|].
  apply String.eqb_neq. now apply negb_true_iff.
Qed.

Section CallFacts.
Variable rt : Runtime.

Lemma call_ok {A} op (f : World -> A * World) w :
  faults rt op = None -> call rt op f w = (Ok (fst (f w)), snd (f w)).
Proof. intros H. unfold call. rewrite H. now destruct (f w). Qed.

Lemma call_fail {A} op (f : World -> A * World) w e :
  faults rt op = Some e -> call rt op f w = (Throw e, w).
Proof. intros H. unfold call. now rewrite H. Qed.

Lemma query_ok {A} op (f : Db -> A) w :
  faults rt op = None -> query rt op f w = (Ok (f (db w)), w).
Proof. intros H. unfold query. now rewrite call_ok. Qed.

Lemma query_fail {A} op (f : Db -> A) w e :
  faults rt op = Some e -> query rt op f w = (Throw e, w).
Proof. intros H. unfold query. now rewrite (call_fail _ _ _ e). Qed.

Lemma update_ok op f w :
  faults rt op = None -> update rt op f w = (Ok tt, f w).
Proof. intros H. unfold update. now rewrite call_ok. Qed.

Lemma update_fail op f w e :
  faults rt op = Some e -> update rt op f w = (Throw e, w).
Proof. intros H. unfold update. now rewrite (call_fail _ _ _ e). Qed.

(** A call never touches the world when it rejects, and a query never
    touches it at all. *)
Lemma query_world {A} op (f : Db -> A) w : snd (query rt op f w) = w.
Proof. unfold query, call. now destruct (faults rt op). Qed.

End CallFacts.


(* ===================================================================== *)
(** * Cancellation *)
(* ===================================================================== *)

Section CancelFacts.
Variable rt : Runtime.

(** C3. Cancelling a reservation whose status is [checked_in] answers 400
    and writes nothing, whatever its other fields; cancelling a
    reservation that is already cancelled answers 200 with
    [success: true]; cancelling an id that names no reservation answers
    404 and writes nothing. *)
Theorem DELETE_by_status (reservationId : string) (w : World) :
  reservationId <> "" ->
  faults rt (op_helmetReservationService_getById reservationId) = None ->
  (forall r,
      Store.reservation_by_id (db w) reservationId = Some r ->
      HelmetReservation.status r = checked_in ->
      CancelRoute.DELETE rt (Some reservationId) w
      = (Ok (json_status
               (CancelRoute.Error
                  "Cannot cancel a reservation that has already been checked in")
               400), w))
  /\ (forall r,
         Store.reservation_by_id (db w) reservationId = Some r ->
         HelmetReservation.status r = cancelled ->
         faults rt (op_helmetReservationService_cancel reservationId) = None ->
         fst (CancelRoute.DELETE rt (Some reservationId) w)
         = Ok (json (CancelRoute.Cancelled true
                       "Reservation cancelled successfully")))
  /\ (Store.reservation_by_id (db w) reservationId = None ->
      CancelRoute.DELETE rt (Some reservationId) w
      = (Ok (json_status (CancelRoute.Error "Reservation not found") 404), w)).
Proof.
  intros Hid Hget. unfold CancelRoute.DELETE.
  rewrite (truthy_Some _ Hid). cbn [negb or_empty].
  unfold helmetReservationService_getById. monad.
  rewrite (query_ok _ _ _ _ Hget).
  repeat split.
  - intros r Hr Hs. rewrite Hr, Hs. reflexivity.
  - intros r Hr Hs Hc. rewrite Hr, Hs. cbn [ReservationStatus_eqb].
    unfold helmetReservationService_cancel.
    rewrite (update_ok _ _ _ _ Hc). reflexivity.
  - intros Hr. rewrite Hr. reflexivity.
Qed.

End CancelFacts.

(* ===================================================================== *)
(** * Check-in *)
(* ===================================================================== *)

Section ScanFacts.
Variable rt : Runtime.

(** The store resolves no reservation for a pair exactly when it holds
    none, and what it resolves is a reservation of the pair that it
    holds. *)
Lemma reservation_lookup_None d userId scheduleId :
  Store.reservation_by_user_and_schedule rt d userId scheduleId = None
  <-> (forall r, In r (helmetReservations d) ->
                 Store.for_pair userId scheduleId r = false).
Proof.
  unfold Store.reservation_by_user_and_schedule. split.
  - intros H r Hin.
    destruct (Store.for_pair userId scheduleId r) eqn:E; [|reflexivity].
    assert (Hf : In r (filter (Store.for_pair userId scheduleId)
                              (helmetReservations d)))
      by (apply filter_In; auto).
    destruct (filter _ _); [contradiction | discriminate].
  - intros H.
    destruct (filter _ _) as [|r rest] eqn:E; [reflexivity|].
    assert (Hin : In r (filter (Store.for_pair userId scheduleId)
                               (helmetReservations d)))
      by (rewrite E; now left).
    apply filter_In in Hin. destruct Hin as [Hin Hp].
    rewrite (H r Hin) in Hp. discriminate.
Qed.

Lemma reservation_lookup_Some d userId scheduleId r :
  Store.reservation_by_user_and_schedule rt d userId scheduleId = Some r ->
  In r (helmetReservations d) /\ Store.for_pair userId scheduleId r = true.
Proof.
  unfold Store.reservation_by_user_and_schedule.
  destruct (filter _ _) as [|x rest] eqn:E; [discriminate|].
  intros H. injection H as <-. apply filter_In. rewrite E.
  destruct (nth_in_or_default (pick rt (x :: rest)) (x :: rest) x) as [H|H];
    [exact H|].
  change (In (nth (pick rt (x :: rest)) (x :: rest) x) (x :: rest)).
  rewrite H. now left.
Qed.

Local Ltac is_tagged :=
  cbn; do 3 eexists; (split; [reflexivity|]); unfold tagged; cbn; eauto 6.

(** C1. With both fields present and the store answering, the check-in
    decides in this order and stops at the first condition that holds:
    unknown QR token, unknown schedule, no reservation for the resolved
    user and the schedule, reservation checked in, reservation
    cancelled, and otherwise (booked) the check-in itself.  Every one of
    the six answers is a tagged result with status 200; only the last
    one writes, and it sets the reservation to [checked_in]. *)
Theorem POST_scan_cascade (qrToken scheduleId : string) (w : World) :
  storage_ok rt ->
  qrToken <> "" ->
  scheduleId <> "" ->
  let run :=
    ScanRoute.POST rt (ScanRoute.mkRequest (Some qrToken) (Some scheduleId)) w
  in
  (Store.qr_by_data (db w) qrToken = None ->
   run = (Ok (json (ScanRoute.Result
                      (ScanRoute.mkScan false "invalid_qr" "Invalid QR code"
                         None None None None None None))), w))
  /\ (forall q,
         Store.qr_by_data (db w) qrToken = Some q ->
         Store.schedule_by_id (db w) scheduleId = None ->
         run = (Ok (json (ScanRoute.Result
                            (ScanRoute.mkScan false "invalid_schedule"
                               "Schedule not found"
                               None None None None None None))), w))
  /\ (forall q s,
         Store.qr_by_data (db w) qrToken = Some q ->
         Store.schedule_by_id (db w) scheduleId = Some s ->
         (forall r, In r (helmetReservations (db w)) ->
                    Store.for_pair (UserQRCode.userId q) scheduleId r = false) ->
         run = (Ok (json (ScanRoute.Result
                            (ScanRoute.mkScan false "no_reservation"
                               "No reservation found for this class"
                               (Some "") None None None None None))), w))
  /\ (forall q s r,
         Store.qr_by_data (db w) qrToken = Some q ->
         Store.schedule_by_id (db w) scheduleId = Some s ->
         Store.reservation_by_user_and_schedule
           rt (db w) (UserQRCode.userId q) scheduleId = Some r ->
         match HelmetReservation.status r with
         | checked_in =>
             run = (Ok (json (ScanRoute.Result
                                (ScanRoute.mkScan false "already_checked_in"
                                   "Already checked in"
                                   (Some (HelmetReservation.userName r))
                                   None None None
                                   (HelmetReservation.checkinTime r) None))),
                    w)
         | cancelled =>
             run = (Ok (json (ScanRoute.Result
                                (ScanRoute.mkScan false "cancelled"
                                   "Reservation was cancelled"
                                   (Some (HelmetReservation.userName r))
                                   None None None None None))), w)
         | booked =>
             run = (Ok (json (ScanRoute.Result
                                (ScanRoute.mkScan true "success"
                                   ("Welcome " ++ HelmetReservation.userName r
                                      ++ "!")
                                   (Some (HelmetReservation.userName r))
                                   (Some (HelmetReservation.userEmail r))
                                   (Some (HelmetReservation.courseName r))
                                   (Some (HelmetReservation.location r))
                                   None
                                   (Some (HelmetReservation.id r))))),
                    set_db (Store.update_reservation (HelmetReservation.id r)
                              (checked_in_at (clock w)) (db w)) w)
         end)
  /\ (exists valid status response,
         fst run = Ok response /\ tagged valid status response).
Proof.
  intros Hok Htok Hsid run. subst run.
  assert (Hnone : forall q,
             (forall r, In r (helmetReservations (db w)) ->
                        Store.for_pair (UserQRCode.userId q) scheduleId r
                        = false) ->
             Store.reservation_by_user_and_schedule
               rt (db w) (UserQRCode.userId q) scheduleId = None)
    by (intros q; apply reservation_lookup_None).
  unfold ScanRoute.POST. cbn [ScanRoute.qrCodeData ScanRoute.scheduleId].
  rewrite (truthy_Some _ Htok), (truthy_Some _ Hsid). cbn [negb orb or_empty].
  unfold userQRCodeService_getByQRCodeData, scheduleService_getById,
    helmetReservationService_getByUserAndSchedule,
    helmetReservationService_checkIn.
  monad. rewrite (query_ok _ _ _ _ (Hok _)).
  destruct (Store.qr_by_data (db w) qrToken) as [q|] eqn:Hq.
  2:{ five_cases; lookups; try reflexivity. is_tagged. }
  rewrite (query_ok _ _ _ _ (Hok _)).
  destruct (Store.schedule_by_id (db w) scheduleId) as [s|] eqn:Hs.
  2:{ five_cases; lookups; try reflexivity. is_tagged. }
  rewrite (query_ok _ _ _ _ (Hok _)).
  destruct (Store.reservation_by_user_and_schedule
           rt (db w) (UserQRCode.userId q) scheduleId) as [r|] eqn:Hr.
  2:{ five_cases; lookups; try reflexivity. is_tagged. }
  destruct (HelmetReservation.status r) eqn:Hst; cbn [ReservationStatus_eqb];
    try rewrite (update_ok _ _ _ _ (Hok _));
    five_cases; lookups; try (rewrite Hst; reflexivity);
    try (match goal with
         | H : forall r, In r _ -> _ = false |- _ =>
             apply Hnone in H; congruence
         end);
    is_tagged.
Qed.

(** C4. Scanning for a reservation that is already checked in answers
    [already_checked_in] with [valid: false] and the stored check-in
    time, and leaves the world as it was: nothing is written and no
    side effect runs.  Any later scan of the same store, at any later
    time, gives the same answer again. *)
Theorem POST_scan_already_checked_in (qrToken scheduleId : string)
  (w : World) (q : UserQRCode.t) (s : CourseSchedule.t)
  (r : HelmetReservation.t) :
  qrToken <> "" ->
  scheduleId <> "" ->
  faults rt (op_userQRCodeService_getByQRCodeData qrToken) = None ->
  faults rt (op_scheduleService_getById scheduleId) = None ->
  faults rt (op_helmetReservationService_getByUserAndSchedule
               (UserQRCode.userId q) scheduleId) = None ->
  Store.qr_by_data (db w) qrToken = Some q ->
  Store.schedule_by_id (db w) scheduleId = Some s ->
  Store.reservation_by_user_and_schedule
           rt (db w) (UserQRCode.userId q) scheduleId
  = Some r ->
  HelmetReservation.status r = checked_in ->
  let answer :=
    json (ScanRoute.Result
            (ScanRoute.mkScan false "already_checked_in" "Already checked in"
               (Some (HelmetReservation.userName r)) None None None
               (HelmetReservation.checkinTime r) None)) in
  let request := ScanRoute.mkRequest (Some qrToken) (Some scheduleId) in
  ScanRoute.POST rt request w = (Ok answer, w)
  /\ (forall w', db w' = db w ->
                 ScanRoute.POST rt request w' = (Ok answer, w')).
Proof.
  intros Htok Hsid Hf1 Hf2 Hf3 Hq Hs Hr Hst answer request.
  assert (H : forall w', db w' = db w ->
                         ScanRoute.POST rt request w' = (Ok answer, w')).
  { intros w' Hdb.
    unfold ScanRoute.POST, request.
    cbn [ScanRoute.qrCodeData ScanRoute.scheduleId].
    rewrite (truthy_Some _ Htok), (truthy_Some _ Hsid). cbn [negb orb or_empty].
    unfold userQRCodeService_getByQRCodeData, scheduleService_getById,
      helmetReservationService_getByUserAndSchedule.
    monad.
    rewrite (query_ok _ _ _ _ Hf1), Hdb, Hq.
    rewrite (query_ok _ _ _ _ Hf2), Hdb, Hs.
    rewrite (query_ok _ _ _ _ Hf3), Hdb, Hr, Hst.
    reflexivity. }
  split; [now apply H | exact H].
Qed.

End ScanFacts.

(* ===================================================================== *)
(** * Booking *)
(* ===================================================================== *)

Lemma bind_ok {S A B} (m : St S A) (k : A -> St S B) s a s' :
  m s = (Ok a, s') -> bind m k s = k a s'.
Proof. intros H. unfold bind. now rewrite H. Qed.

Lemma bind_throw {S A B} (m : St S A) (k : A -> St S B) s e s' :
  m s = (Throw e, s') -> bind m k s = (Throw e, s').
Proof. intros H. unfold bind. now rewrite H. Qed.

Lemma try_catch_ok {S A} (m : St S A) h s a s' :
  m s = (Ok a, s') -> try_catch m h s = (Ok a, s').
Proof. intros H. unfold try_catch. now rewrite H. Qed.

Lemma try_catch_throw {S A} (m : St S A) h s e s' :
  m s = (Throw e, s') -> try_catch m h s = h e s'.
Proof. intros H. unfold try_catch. now rewrite H. Qed.

Lemma find_app_None {A} (p : A -> bool) l x :
  find p l = None -> find p (l ++ [x]) = if p x then Some x else None.
Proof.
  induction l as [|y l IH]; simpl; [reflexivity|].
  destruct (p y); [discriminate|]. exact IH.
Qed.

Lemma find_app_Some {A} (p : A -> bool) l l' x :
  find p l = Some x -> find p (l ++ l') = Some x.
Proof.
  induction l as [|y l IH]; simpl; [discriminate|].
  destruct (p y); [trivial|]. exact IH.
Qed.

Section BookingFacts.
Variable rt : Runtime.

Lemma as_Date_converts field v d w :
  converts v d -> CreateRoute.as_Date field v w = (Ok d, w).
Proof. intros [->| ->]; reflexivity. Qed.

(** An identity that exists is returned as it is, and nothing is
    written. *)
Lemma get_or_create_existing userId w q :
  faults rt (op_userQRCodeService_getByUserId userId) = None ->
  Store.qr_by_user (db w) userId = Some q ->
  CreateRoute.get_or_create_QRCode rt userId w = (Ok (Some q), w).
Proof.
  intros Hf Hq. unfold CreateRoute.get_or_create_QRCode.
  unfold userQRCodeService_getByUserId.
  rewrite (bind_ok _ _ _ _ _ (query_ok rt _ _ _ Hf)). now rewrite Hq.
Qed.

(** The identity created when there is none, and the world after. *)
Lemma get_or_create_fresh userId w :
  faults rt (op_userQRCodeService_getByUserId userId) = None ->
  (forall data, faults rt (op_QRCode_toDataURL data) = None) ->
  faults rt (op_userQRCodeService_create userId) = None ->
  Store.qr_by_user (db w) userId = None ->
  let data := token_for userId (clock w) in
  let q := UserQRCode.mk (fresh_id w) userId data (QRCode_render rt data) in
  CreateRoute.get_or_create_QRCode rt userId w
  = (Ok (Some q),
     bump_docId
       (set_db (set_userQRCodes (userQRCodes (db w) ++ [q])%list (db w)) w)).
Proof.
  intros Hf Hr Hc Hq data q. subst data q. unfold token_for.
  unfold CreateRoute.get_or_create_QRCode.
  unfold userQRCodeService_getByUserId at 1.
  rewrite (bind_ok _ _ _ _ _ (query_ok rt _ _ _ Hf)). rewrite Hq.
  rewrite (bind_ok (gets clock) _ w (clock w) w eq_refl).
  unfold QRCode_toDataURL.
  rewrite (bind_ok _ _ _ _ _ (call_ok rt _ _ _ (Hr _))). cbn [fst snd].
  unfold userQRCodeService_create.
  rewrite (bind_ok _ _ _ _ _ (call_ok rt _ _ _ Hc)). cbn [fst snd].
  unfold userQRCodeService_getByUserId. rewrite (query_ok rt _ _ _ Hf).
  unfold Store.qr_by_user. cbn [db set_db bump_docId userQRCodes set_userQRCodes].
  unfold Store.qr_by_user in Hq. rewrite (find_app_None _ _ _ Hq).
  cbn [UserQRCode.userId]. now rewrite String.eqb_refl.
Qed.

(** With its calls succeeding, get-or-create resolves an identity of the
    user and touches no reservation. *)
Lemma get_or_create_ok userId w :
  faults rt (op_userQRCodeService_getByUserId userId) = None ->
  (forall data, faults rt (op_QRCode_toDataURL data) = None) ->
  faults rt (op_userQRCodeService_create userId) = None ->
  exists q w1,
    CreateRoute.get_or_create_QRCode rt userId w = (Ok (Some q), w1)
    /\ helmetReservations (db w1) = helmetReservations (db w)
    /\ clock w1 = clock w
    /\ Store.qr_by_user (db w1) userId = Some q.
Proof.
  intros Hf Hr Hc.
  destruct (Store.qr_by_user (db w) userId) as [q|] eqn:Hq.
  - exists q, w. rewrite (get_or_create_existing _ _ _ Hf Hq). auto.
  - eexists _, _. rewrite (get_or_create_fresh _ _ Hf Hr Hc Hq).
    repeat split.
    unfold Store.qr_by_user in *.
    cbn [db set_db bump_docId userQRCodes set_userQRCodes].
    rewrite (find_app_None _ _ _ Hq). cbn [UserQRCode.userId].
    now rewrite String.eqb_refl.
Qed.

(** After the reservation is persisted: when the dates convert and the
    notification is created, the answer is the success response whether
    or not the mail goes out, and a mail that fails is logged. *)
Lemma after_create_ok user schedule userId q reservationId w classDate endTime :
  converts (CourseSchedule.startTime schedule) classDate ->
  converts (CourseSchedule.endTime schedule) endTime ->
  faults rt (op_notificationService_create userId) = None ->
  exists w',
    CreateRoute.after_create rt user schedule userId q reservationId w
    = (Ok (json (CreateRoute.Created true reservationId
                   (UserQRCode.qrCodeImage q)
                   "Helmet reservation created successfully")), w')
    /\ helmetReservations (db w') = helmetReservations (db w)
    /\ userQRCodes (db w') = userQRCodes (db w)
    /\ (forall e, faults rt op_fetch_send_email = Some e ->
                  console w'
                  = (console w ++ [console_error ["Error sending email:"; e]])%list
                    /\ outbox w' = outbox w).
Proof.
  intros Hs He Hn. unfold CreateRoute.after_create.
  rewrite (bind_ok _ _ _ _ _ (as_Date_converts _ _ _ _ Hs)).
  rewrite (bind_ok _ _ _ _ _ (as_Date_converts _ _ _ _ He)).
  unfold notificationService_create. cbn [Notification.userId].
  rewrite (bind_ok _ _ _ _ _ (update_ok rt _ _ _ Hn)).
  unfold fetch_send_email.
  destruct (faults rt op_fetch_send_email) as [e|] eqn:Hm.
  - erewrite bind_ok
      by (erewrite try_catch_throw by (apply (update_fail rt _ _ _ _ Hm));
          reflexivity).
    eexists. split; [reflexivity|].
    split; [reflexivity|split; [reflexivity|]].
    intros e' He'. injection He' as <-. split; reflexivity.
  - erewrite bind_ok
      by (erewrite try_catch_ok by (apply (update_ok rt _ _ _ Hm));
          reflexivity).
    eexists. split; [reflexivity|].
    split; [reflexivity|split; [reflexivity|]]. intros; discriminate.
Qed.

(** The success path of a booking. *)
Lemma POST_create_ok userId scheduleId w user schedule classDate endTime :
  userId <> "" ->
  scheduleId <> "" ->
  booking_calls_ok rt userId scheduleId ->
  Store.user_by_id (db w) userId = Some user ->
  Store.schedule_by_id (db w) scheduleId = Some schedule ->
  CreateRoute.blocks_booking
    (Store.reservation_by_user_and_schedule rt (db w) userId
       scheduleId) = false ->
  converts (CourseSchedule.startTime schedule) classDate ->
  converts (CourseSchedule.endTime schedule) endTime ->
  exists q w1 w',
    CreateRoute.get_or_create_QRCode rt userId w = (Ok (Some q), w1)
    /\ CreateRoute.POST rt (CreateRoute.mkRequest (Some userId) (Some scheduleId)) w
       = (Ok (json (CreateRoute.Created true (fresh_id w1)
                      (UserQRCode.qrCodeImage q)
                      "Helmet reservation created successfully")), w')
    /\ helmetReservations (db w')
       = (helmetReservations (db w)
            ++ [HelmetReservation.with_id (fresh_id w1)
                  (CreateRoute.reservation_data user schedule userId scheduleId
                     (clock w) q)])%list
    /\ userQRCodes (db w') = userQRCodes (db w1)
    /\ (forall e, faults rt op_fetch_send_email = Some e ->
                  In (console_error ["Error sending email:"; e]) (console w')).
Proof.
  intros Hu Hs (F1 & F2 & F3 & F4 & F5 & F6 & F7 & F8) Huser Hsched Hfree Hd1 Hd2.
  destruct (get_or_create_ok userId w F4 F5 F6) as (q & w1 & Hq & Hres & Hclk & _).
  set (w2 := bump_docId
               (set_db (set_helmetReservations
                          (helmetReservations (db w1)
                             ++ [HelmetReservation.with_id (fresh_id w1)
                                   (CreateRoute.reservation_data
                                      user schedule userId scheduleId
                                      (clock w1) q)])%list
                          (db w1)) w1)).
  destruct (after_create_ok user schedule userId q (fresh_id w1) w2 _ _
              Hd1 Hd2 F8) as (w' & Hafter & Hres' & Hqr' & Hmail).
  exists q, w1, w'. split; [exact Hq|].
  split; [|split; [|split]].
  - unfold CreateRoute.POST.
    cbn [CreateRoute.userId CreateRoute.scheduleId].
    rewrite (truthy_Some _ Hu), (truthy_Some _ Hs). cbn [negb orb or_empty].
    apply try_catch_ok.
    unfold userService_getById.
    rewrite (bind_ok _ _ _ _ _ (query_ok rt _ _ _ F1)), Huser.
    unfold scheduleService_getById.
    rewrite (bind_ok _ _ _ _ _ (query_ok rt _ _ _ F2)), Hsched.
    unfold helmetReservationService_getByUserAndSchedule.
    rewrite (bind_ok _ _ _ _ _ (query_ok rt _ _ _ F3)), Hfree.
    rewrite (bind_ok _ _ _ _ _ Hq).
    rewrite (bind_ok (gets clock) _ w1 (clock w1) w1 eq_refl).
    unfold helmetReservationService_create.
    cbn [CreateRoute.reservation_data HelmetReservation.userId
           HelmetReservation.scheduleId].
    rewrite (bind_ok _ _ _ _ _ (call_ok rt _ _ _ F7)). cbn [fst snd].
    exact Hafter.
  - rewrite Hres'. subst w2. cbn. now rewrite Hres, Hclk.
  - rewrite Hqr'. reflexivity.
  - intros e He. destruct (Hmail e He) as [Hc _]. rewrite Hc.
    apply in_or_app. right. now left.
Qed.

(** C2. For a user and a schedule that exist: while the reservation
    that the store resolves for the pair is booked or checked in, a booking
    answers 400 with the duplicate message and writes nothing; when that
    reservation is cancelled, or when there is none, the booking goes
    through: it answers with the success response and a new reservation
    of the pair, in status booked, is in the store. *)
Theorem POST_create_duplicate (userId scheduleId : string) (w : World)
  (user : User.t) (schedule : CourseSchedule.t) :
  userId <> "" ->
  scheduleId <> "" ->
  faults rt (op_userService_getById userId) = None ->
  faults rt (op_scheduleService_getById scheduleId) = None ->
  faults rt (op_helmetReservationService_getByUserAndSchedule userId scheduleId)
  = None ->
  Store.user_by_id (db w) userId = Some user ->
  Store.schedule_by_id (db w) scheduleId = Some schedule ->
  let existing :=
    Store.reservation_by_user_and_schedule rt (db w) userId
       scheduleId in
  (forall r,
      existing = Some r ->
      HelmetReservation.status r = booked
      \/ HelmetReservation.status r = checked_in ->
      CreateRoute.POST rt (CreateRoute.mkRequest (Some userId) (Some scheduleId)) w
      = (Ok (json_status
               (CreateRoute.Error "You already have a reservation for this class")
               400), w))
  /\ (existing = None
      \/ (exists r, existing = Some r
                    /\ HelmetReservation.status r = cancelled) ->
      booking_calls_ok rt userId scheduleId ->
      (exists d, converts (CourseSchedule.startTime schedule) d) ->
      (exists d, converts (CourseSchedule.endTime schedule) d) ->
      exists reservationId qrCode w' r',
        CreateRoute.POST rt (CreateRoute.mkRequest (Some userId) (Some scheduleId)) w
        = (Ok (json (CreateRoute.Created true reservationId qrCode
                       "Helmet reservation created successfully")), w')
        /\ helmetReservations (db w')
           = (helmetReservations (db w) ++ [r'])%list
        /\ HelmetReservation.id r' = reservationId
        /\ HelmetReservation.userId r' = userId
        /\ HelmetReservation.scheduleId r' = scheduleId
        /\ HelmetReservation.status r' = booked).
Proof.
  intros Hu Hs F1 F2 F3 Huser Hsched existing. subst existing. split.
  - intros r Hr Hst.
    unfold CreateRoute.POST.
    cbn [CreateRoute.userId CreateRoute.scheduleId].
    rewrite (truthy_Some _ Hu), (truthy_Some _ Hs). cbn [negb orb or_empty].
    apply try_catch_ok.
    unfold userService_getById.
    rewrite (bind_ok _ _ _ _ _ (query_ok rt _ _ _ F1)), Huser.
    unfold scheduleService_getById.
    rewrite (bind_ok _ _ _ _ _ (query_ok rt _ _ _ F2)), Hsched.
    unfold helmetReservationService_getByUserAndSchedule.
    rewrite (bind_ok _ _ _ _ _ (query_ok rt _ _ _ F3)), Hr.
    unfold CreateRoute.blocks_booking.
    destruct Hst as [-> | ->]; reflexivity.
  - intros Hfree Hcalls [d1 Hd1] [d2 Hd2].
    assert (Hnb : CreateRoute.blocks_booking
                    (Store.reservation_by_user_and_schedule rt (db w) userId
       scheduleId) = false).
    { destruct Hfree as [-> | (r & -> & Hst)]; [reflexivity|].
      unfold CreateRoute.blocks_booking. now rewrite Hst. }
    destruct (POST_create_ok userId scheduleId w user schedule d1 d2
                Hu Hs Hcalls Huser Hsched Hnb Hd1 Hd2)
      as (q & w1 & w' & _ & Hpost & Hres & _).
    eexists _, _, w', _. split; [exact Hpost|].
    split; [exact Hres|]. repeat split.
Qed.

(** C7, as the handler has it.  Once the reservation is persisted and
    the notification created, a failure of the mail is caught on the
    spot and logged: the answer is still the success response with the
    id of the reservation, and the reservation stays in the store. *)
Theorem POST_create_mail_failure (userId scheduleId : string) (w : World)
  (user : User.t) (schedule : CourseSchedule.t) (classDate endTime : JsDate)
  (e : string) :
  userId <> "" ->
  scheduleId <> "" ->
  booking_calls_ok rt userId scheduleId ->
  Store.user_by_id (db w) userId = Some user ->
  Store.schedule_by_id (db w) scheduleId = Some schedule ->
  CreateRoute.blocks_booking
    (Store.reservation_by_user_and_schedule rt (db w) userId
       scheduleId) = false ->
  converts (CourseSchedule.startTime schedule) classDate ->
  converts (CourseSchedule.endTime schedule) endTime ->
  faults rt op_fetch_send_email = Some e ->
  exists reservationId qrCode w',
    CreateRoute.POST rt (CreateRoute.mkRequest (Some userId) (Some scheduleId)) w
    = (Ok (json (CreateRoute.Created true reservationId qrCode
                   "Helmet reservation created successfully")), w')
    /\ (exists r, In r (helmetReservations (db w'))
                  /\ HelmetReservation.id r = reservationId
                  /\ HelmetReservation.status r = booked)
    /\ In (console_error ["Error sending email:"; e]) (console w').
Proof.
  intros Hu Hs Hcalls Huser Hsched Hnb Hd1 Hd2 Hmail.
  destruct (POST_create_ok userId scheduleId w user schedule classDate endTime
              Hu Hs Hcalls Huser Hsched Hnb Hd1 Hd2)
    as (q & w1 & w' & _ & Hpost & Hres & _ & Hlog).
  eexists _, _, w'. split; [exact Hpost|]. split.
  - eexists. split; [rewrite Hres; apply in_or_app; right; left; reflexivity|].
    split; reflexivity.
  - exact (Hlog e Hmail).
Qed.

End BookingFacts.

(** C7, as it is worded, fails: with the notification store down, the
    reservation of Ada for the salsa class is persisted and the answer
    is the 500 error, not the success response. *)
Lemma POST_create_notification_failure :
  let run :=
    CreateRoute.POST Sample.notification_down (Sample.book "u1" "s1")
                     Sample.world in
  fst run
  = Ok (json_status (CreateRoute.Error "notification store unavailable") 500)
  /\ map HelmetReservation.status (helmetReservations (db (snd run)))
     = [booked]
  /\ console (snd run)
     = [console_error ["Error creating helmet reservation:";
                       "notification store unavailable"]].
Proof. vm_compute. repeat split. Qed.

(* ===================================================================== *)
(** * What a handler leaves of the state it starts from *)
(* ===================================================================== *)

Section Relational.
Context {S : Type}.

Section Preorder.
Variable F : S -> S -> Prop.
Hypothesis F_refl : forall s, F s s.
Hypothesis F_trans : forall x y z, F x y -> F y z -> F x z.

Lemma sat_ret {A} (a : A) : sat F (ret a).
Proof. intros s. apply F_refl. Qed.

Lemma sat_throw {A} e : sat F (@throw S A e).
Proof. intros s. apply F_refl. Qed.

Lemma sat_gets {A} (f : S -> A) : sat F (gets f).
Proof. intros s. apply F_refl. Qed.

Lemma sat_modify f : (forall s, F s (f s)) -> sat F (modify f).
Proof. intros H s. apply H. Qed.

Lemma sat_bind {A B} (m : St S A) (k : A -> St S B) :
  sat F m -> (forall a, sat F (k a)) -> sat F (bind m k).
Proof.
  intros Hm Hk s. unfold bind. specialize (Hm s).
  destruct (m s) as [[a|e] s1]; cbn in *; [|exact Hm].
  eapply F_trans; [exact Hm | apply Hk].
Qed.

Lemma sat_try_catch {A} (m : St S A) h :
  sat F m -> (forall e, sat F (h e)) -> sat F (try_catch m h).
Proof.
  intros Hm Hh s. unfold try_catch. specialize (Hm s).
  destruct (m s) as [[a|e] s1]; cbn in *; [exact Hm|].
  eapply F_trans; [exact Hm | apply Hh].
Qed.

Lemma sat_for_of {A} (l : list A) body :
  (forall x, sat F (body x)) -> sat F (for_of l body).
Proof.
  intros Hb. induction l as [|x l IH]; cbn [for_of].
  - apply sat_ret.
  - apply sat_bind; [apply Hb | intros _; exact IH].
Qed.

Section Around.
Variable R : S -> S -> Prop.
Hypothesis F_R : forall x y, F x y -> R x y.
Hypothesis FR : forall x y z, F x y -> R y z -> R x z.
Hypothesis RF : forall x y z, R x y -> F y z -> R x z.

Lemma sat_weaken {A} (m : St S A) : sat F m -> sat R m.
Proof. intros H s. apply F_R, H. Qed.

Lemma sat_bind_l {A B} (m : St S A) (k : A -> St S B) :
  sat F m -> (forall a, sat R (k a)) -> sat R (bind m k).
Proof.
  intros Hm Hk s. unfold bind. specialize (Hm s).
  destruct (m s) as [[a|e] s1]; cbn in *; [|apply F_R, Hm].
  eapply FR; [exact Hm | apply Hk].
Qed.

Lemma sat_bind_r {A B} (m : St S A) (k : A -> St S B) :
  sat R m -> (forall a, sat F (k a)) -> sat R (bind m k).
Proof.
  intros Hm Hk s. unfold bind. specialize (Hm s).
  destruct (m s) as [[a|e] s1]; cbn in *; [|exact Hm].
  eapply RF; [exact Hm | apply Hk].
Qed.

Lemma sat_try_catch_r {A} (m : St S A) h :
  sat R m -> (forall e, sat F (h e)) -> sat R (try_catch m h).
Proof.
  intros Hm Hh s. unfold try_catch. specialize (Hm s).
  destruct (m s) as [[a|e] s1]; cbn in *; [exact Hm|].
  eapply RF; [exact Hm | apply Hh].
Qed.

End Around.
End Preorder.
End Relational.

(* ===================================================================== *)
(** * The QR identities under the four endpoints *)
(* ===================================================================== *)

Lemma qr_frame_refl w : qr_frame w w.
Proof. split; reflexivity. Qed.

Lemma qr_frame_trans x y z : qr_frame x y -> qr_frame y z -> qr_frame x z.
Proof. intros [A B] [C D]. split; congruence. Qed.

Lemma on_world_refl R :
  (forall w, R w w) -> forall s, on_world R s s.
Proof. intros H s. apply H. Qed.

Lemma on_world_trans R :
  (forall x y z, R x y -> R y z -> R x z) ->
  forall x y z, on_world R x y -> on_world R y z -> on_world R x z.
Proof. intros H x y z. apply H. Qed.

#[local] Hint Resolve qr_frame_refl qr_frame_trans : frame.
#[local] Hint Resolve on_world_refl on_world_trans : frame.

Section Frames.
Variable rt : Runtime.
Variable R : World -> World -> Prop.
Hypothesis R_refl : forall w, R w w.

Lemma sat_call {A} op (f : World -> A * World) :
  (forall w, R w (snd (f w))) -> sat R (call rt op f).
Proof.
  intros H w. unfold call. destruct (faults rt op); cbn; [apply R_refl|].
  specialize (H w). now destruct (f w).
Qed.

Lemma sat_query {A} op (f : Db -> A) : sat R (query rt op f).
Proof. apply sat_call. intros w. apply R_refl. Qed.

Lemma sat_update op f : (forall w, R w (f w)) -> sat R (update rt op f).
Proof. intros H. apply sat_call. exact H. Qed.

Lemma sat_lift {A} (m : M A) : sat R m -> sat (on_world R) (BulkDelete.lift m).
Proof.
  intros H s. unfold BulkDelete.lift, on_world. specialize (H (fst s)).
  now destruct (m (fst s)).
Qed.

Lemma sat_on_tally f : sat (on_world R) (BulkDelete.on_tally f).
Proof. intros s. apply R_refl. Qed.

Lemma sat_with_locals {A} t0 (m : BulkDelete.Loop A) :
  sat (on_world R) m -> sat R (BulkDelete.with_locals t0 m).
Proof.
  intros H w. unfold BulkDelete.with_locals. specialize (H (w, t0)).
  unfold on_world in H. destruct (m (w, t0)) as [[a|e] [w' t]]; exact H.
Qed.

Hypothesis R_trans : forall x y z, R x y -> R y z -> R x z.

Lemma sat_filterM {A} (f : A -> M bool) l :
  (forall x, sat R (f x)) -> sat R (BulkDelete.filterM f l).
Proof.
  intros H. induction l as [|x l IH]; cbn [BulkDelete.filterM].
  - now apply sat_ret.
  - apply sat_bind; [assumption | apply H | intros keep].
    apply sat_bind; [assumption | exact IH | intros kept].
    now apply sat_ret.
Qed.

End Frames.

(** Walks down a handler, one construct at a time, to show that every
    one of its steps is within the relation. *)
Ltac frame :=
  repeat (intros;
          match goal with
          | |- sat _ (ret _) => apply sat_ret
          | |- sat _ (throw _) => apply sat_throw
          | |- sat _ (gets _) => apply sat_gets
          | |- sat _ (bind _ _) => apply sat_bind
          | |- sat _ (try_catch _ _) => apply sat_try_catch
          | |- sat _ (for_of _ _) => apply sat_for_of
          | |- sat _ (BulkDelete.filterM _ _) => apply sat_filterM
          | |- sat _ (BulkDelete.with_locals _ _) => apply sat_with_locals
          | |- sat _ (BulkDelete.lift _) => apply sat_lift
          | |- sat _ (BulkDelete.on_tally _) => apply sat_on_tally
          | |- sat _ (match ?x with _ => _ end) => destruct x
          | |- sat _ (let _ := _ in _) => cbv zeta
          | |- _ => solve [eauto with frame]
          end).

Section IdentityFacts.
Variable rt : Runtime.

Lemma keeps_query {A} op (f : Db -> A) : sat qr_frame (query rt op f).
Proof. apply sat_query. apply qr_frame_refl. Qed.

Lemma keeps_log args : sat qr_frame (log args).
Proof. intros w. split; reflexivity. Qed.

Lemma keeps_log_error args : sat qr_frame (log_error args).
Proof. intros w. split; reflexivity. Qed.

Lemma keeps_checkIn id : sat qr_frame (helmetReservationService_checkIn rt id).
Proof. apply sat_update; [apply qr_frame_refl|]. intros w; split; reflexivity. Qed.

Lemma keeps_cancel id : sat qr_frame (helmetReservationService_cancel rt id).
Proof. apply sat_update; [apply qr_frame_refl|]. intros w; split; reflexivity. Qed.

Lemma keeps_create_reservation data :
  sat qr_frame (helmetReservationService_create rt data).
Proof. apply sat_call; [apply qr_frame_refl|]. intros w; split; reflexivity. Qed.

Lemma keeps_notification n : sat qr_frame (notificationService_create rt n).
Proof. apply sat_update; [apply qr_frame_refl|]. intros w; split; reflexivity. Qed.

Lemma keeps_fetch e : sat qr_frame (fetch_send_email rt e).
Proof. apply sat_update; [apply qr_frame_refl|]. intros w; split; reflexivity. Qed.

Lemma keeps_deleteDoc id : sat qr_frame (deleteDoc_courseSchedules rt id).
Proof. apply sat_update; [apply qr_frame_refl|]. intros w; split; reflexivity. Qed.

Lemma keeps_toDataURL data : sat qr_frame (QRCode_toDataURL rt data).
Proof. apply sat_call; [apply qr_frame_refl|]. intros w; split; reflexivity. Qed.

Lemma keeps_as_Date field v : sat qr_frame (CreateRoute.as_Date field v).
Proof. destruct v as [[d|e]|d|n|r|]; intros w; apply qr_frame_refl. Qed.

#[local] Hint Resolve keeps_query keeps_log keeps_log_error keeps_checkIn
  keeps_cancel keeps_create_reservation keeps_notification keeps_fetch
  keeps_deleteDoc keeps_toDataURL keeps_as_Date : frame.

(** The check-in endpoint writes no identity. *)
Lemma scan_keeps request : sat qr_frame (ScanRoute.POST rt request).
Proof.
  unfold ScanRoute.POST, userQRCodeService_getByQRCodeData,
    scheduleService_getById, helmetReservationService_getByUserAndSchedule.
  frame.
Qed.

(** The cancellation endpoint writes no identity. *)
Lemma cancel_keeps reservationId :
  sat qr_frame (CancelRoute.DELETE rt reservationId).
Proof.
  unfold CancelRoute.DELETE, helmetReservationService_getById. frame.
Qed.

Lemma qr_frame_step userId x y : qr_frame x y -> qr_step rt userId x y.
Proof. intros [A B]. split; [exact B | now left]. Qed.

Lemma qr_frame_then_step userId x y z :
  qr_frame x y -> qr_step rt userId y z -> qr_step rt userId x z.
Proof.
  intros [A B] [C D]. split; [congruence|].
  destruct D as [D | (Hn & id & D)].
  - left. congruence.
  - right. unfold Store.qr_by_user in *. rewrite A, B in *. eauto.
Qed.

Lemma qr_step_then_frame userId x y z :
  qr_step rt userId x y -> qr_frame y z -> qr_step rt userId x z.
Proof.
  intros [C D] [A B]. split; [congruence|].
  destruct D as [D | (Hn & id & D)].
  - left. congruence.
  - right. split; [exact Hn|]. exists id. congruence.
Qed.

(** Get-or-create adds an identity only for a user who has none, and
    the identity it adds carries the token of the user and the time. *)
Lemma get_or_create_step userId :
  sat (qr_step rt userId) (CreateRoute.get_or_create_QRCode rt userId).
Proof.
  intros w.
  unfold CreateRoute.get_or_create_QRCode, userQRCodeService_getByUserId,
    QRCode_toDataURL, userQRCodeService_create, query, call, bind, gets, ret.
  destruct (faults rt (op_userQRCodeService_getByUserId userId)) eqn:F1;
    [apply qr_frame_step, qr_frame_refl|].
  destruct (Store.qr_by_user (db w) userId) eqn:Hq;
    [apply qr_frame_step, qr_frame_refl|].
  destruct (faults rt (op_QRCode_toDataURL _)) eqn:F2;
    [apply qr_frame_step, qr_frame_refl|].
  destruct (faults rt (op_userQRCodeService_create userId)) eqn:F3;
    [apply qr_frame_step, qr_frame_refl|].
  cbn [fst snd]. split; [reflexivity|]. right. split; [exact Hq|].
  exists (fresh_id w). reflexivity.
Qed.

(** The identity that get-or-create returns is the one the store then
    resolves for the user. *)
Lemma get_or_create_result userId w q w1 :
  CreateRoute.get_or_create_QRCode rt userId w = (Ok (Some q), w1) ->
  Store.qr_by_user (db w1) userId = Some q.
Proof.
  unfold CreateRoute.get_or_create_QRCode, userQRCodeService_getByUserId,
    QRCode_toDataURL, userQRCodeService_create, query, call, bind, gets, ret.
  destruct (faults rt (op_userQRCodeService_getByUserId userId)) eqn:F1;
    [discriminate|].
  destruct (Store.qr_by_user (db w) userId) eqn:Hq.
  { intros H. injection H as <- <-. exact Hq. }
  destruct (faults rt (op_QRCode_toDataURL _)) eqn:F2; [discriminate|].
  destruct (faults rt (op_userQRCodeService_create userId)) eqn:F3;
    [discriminate|].
  cbn [fst snd]. intros H. injection H as H <-. exact H.
Qed.

(** A booking adds an identity only for a user who has none. *)
Lemma create_step request :
  sat (qr_step rt (or_empty (CreateRoute.userId request)))
      (CreateRoute.POST rt request).
Proof.
  set (u := or_empty (CreateRoute.userId request)).
  pose proof (qr_frame_step u) as W.
  pose proof (qr_frame_then_step u) as L.
  pose proof (qr_step_then_frame u) as Rr.
  unfold CreateRoute.POST.
  apply (sat_try_catch_r qr_frame _ Rr); [|frame].
  destruct (negb _ || negb _); [apply (sat_weaken qr_frame _ W); frame|].
  unfold userService_getById.
  apply (sat_bind_l qr_frame _ W L); [frame|]. intros [user|];
    [|apply (sat_weaken qr_frame _ W); frame].
  unfold scheduleService_getById.
  apply (sat_bind_l qr_frame _ W L); [frame|]. intros [schedule|];
    [|apply (sat_weaken qr_frame _ W); frame].
  unfold helmetReservationService_getByUserAndSchedule.
  apply (sat_bind_l qr_frame _ W L); [frame|]. intros existing.
  destruct (CreateRoute.blocks_booking existing);
    [apply (sat_weaken qr_frame _ W); frame|].
  apply (sat_bind_r qr_frame _ Rr); [apply get_or_create_step|].
  intros [q|]; unfold CreateRoute.after_create; frame.
Qed.

(** The bulk deletion endpoint writes no identity. *)
Lemma bulk_delete_keeps request : sat qr_frame (BulkDelete.POST rt request).
Proof.
  unfold BulkDelete.POST, BulkDelete.select, BulkDelete.filter_by_owner,
    BulkDelete.filter_by_date, BulkDelete.in_date_range, BulkDelete.delete_all,
    BulkDelete.delete_schedule, BulkDelete.cancel_reservations,
    BulkDelete.cancel_all,
    BulkDelete.cancel_if_active, BulkDelete.incr_deletedCount,
    BulkDelete.incr_cancelledReservationsCount, BulkDelete.errors_push,
    getDocs_courseSchedules, courseService_getById, courseService_getAll,
    helmetReservationService_getByScheduleId.
  frame.
Qed.

End IdentityFacts.

Lemma find_None_filter {A} (p : A -> bool) l :
  find p l = None -> filter p l = [].
Proof.
  induction l as [|x l IH]; cbn; [reflexivity|].
  destruct (p x); [discriminate | exact IH].
Qed.

Lemma identity_step_refl d : identity_step d d.
Proof. now left. Qed.

(** A step keeps the identities that exist. *)
Lemma identity_step_stable d d' userId q :
  identity_step d d' ->
  Store.qr_by_user d userId = Some q -> Store.qr_by_user d' userId = Some q.
Proof.
  unfold Store.qr_by_user. intros [E | (q' & _ & E)] H; rewrite E.
  - exact H.
  - now apply find_app_Some.
Qed.

(** A step keeps the identities at one per user at most. *)
Lemma identity_step_invariant d d' :
  identity_step d d' -> one_identity_per_user d -> one_identity_per_user d'.
Proof.
  intros [E | (q & Hn & E)] Hinv u; unfold identities_of; rewrite E.
  - apply Hinv.
  - rewrite filter_app, length_app. cbn [filter].
    destruct (UserQRCode.userId q =? u) eqn:Hu.
    + apply String.eqb_eq in Hu. subst u.
      unfold Store.qr_by_user in Hn. rewrite (find_None_filter _ _ Hn).
      cbn. lia.
    + cbn. specialize (Hinv u). unfold identities_of in Hinv. lia.
Qed.

Lemma qr_frame_identity_step w w' : qr_frame w w' -> identity_step (db w) (db w').
Proof. intros [E _]. now left. Qed.

Lemma qr_step_identity_step rt userId w w' :
  qr_step rt userId w w' -> identity_step (db w) (db w').
Proof.
  intros [_ [E | (Hn & id & E)]]; [now left|].
  right. eexists. split; [|exact E]. exact Hn.
Qed.

(** Every endpoint makes one step of the identities. *)
Lemma serve_one_step x w : identity_step (db w) (db (serve_one x w)).
Proof.
  unfold serve_one.
  change (db w) with (db (set_clock (served_at x) w)).
  destruct (served_call x) as [request|request|reservationId|request].
  - eapply qr_step_identity_step. apply create_step.
  - apply qr_frame_identity_step, scan_keeps.
  - apply qr_frame_identity_step, cancel_keeps.
  - apply qr_frame_identity_step, bulk_delete_keeps.
Qed.

Lemma serve_app history x w :
  serve (history ++ [x]) w = serve_one x (serve history w).
Proof. unfold serve. now rewrite fold_left_app. Qed.

(** Over any history of requests, the identities stay at one per user at
    most, and an identity that exists stays the one of its user. *)
Lemma serve_identities history w :
  (one_identity_per_user (db w) -> one_identity_per_user (db (serve history w)))
  /\ (forall userId q,
         Store.qr_by_user (db w) userId = Some q ->
         Store.qr_by_user (db (serve history w)) userId = Some q).
Proof.
  induction history as [|x history IH] using rev_ind.
  - split; auto.
  - rewrite serve_app. destruct IH as [IH1 IH2].
    pose proof (serve_one_step x (serve history w)) as Hstep. split.
    + intros H. eapply identity_step_invariant; [exact Hstep | auto].
    + intros u q H. eapply identity_step_stable; [exact Hstep | auto].
Qed.

Section IssuedOnce.
Variable rt : Runtime.

(** C8. Resolving or creating the QR identity is idempotent.  A booking
    adds an identity only for a user who has none, and the identity it
    adds carries the token [USER_<userId>_<creation time>]; over any
    history of requests to the four endpoints, served one at a time, the
    store holds at most one identity per user and an identity that exists
    is never replaced; get-or-create called again, at any later time,
    returns the identity it returned the first time; and a later booking
    by the same user answers with the image of that identity and stores
    its token in the reservation. *)
Theorem identity_issued_once (history : list Served) (w : World)
  (userId : string) (q : UserQRCode.t) :
  one_identity_per_user (db w) ->
  Store.qr_by_user (db w) userId = Some q ->
  let w' := serve history w in
  (forall request w0,
      qr_step rt (or_empty (CreateRoute.userId request)) w0
              (snd (CreateRoute.POST rt request w0)))
  /\ one_identity_per_user (db w')
  /\ Store.qr_by_user (db w') userId = Some q
  /\ (faults rt (op_userQRCodeService_getByUserId userId) = None ->
      CreateRoute.get_or_create_QRCode rt userId w' = (Ok (Some q), w'))
  /\ (forall scheduleId user schedule classDate endTime,
         userId <> "" ->
         scheduleId <> "" ->
         booking_calls_ok rt userId scheduleId ->
         Store.user_by_id (db w') userId = Some user ->
         Store.schedule_by_id (db w') scheduleId = Some schedule ->
         CreateRoute.blocks_booking
           (Store.reservation_by_user_and_schedule rt (db w') userId
              scheduleId)
         = false ->
         converts (CourseSchedule.startTime schedule) classDate ->
         converts (CourseSchedule.endTime schedule) endTime ->
         exists reservationId w'' r,
           CreateRoute.POST rt
             (CreateRoute.mkRequest (Some userId) (Some scheduleId)) w'
           = (Ok (json (CreateRoute.Created true reservationId
                          (UserQRCode.qrCodeImage q)
                          "Helmet reservation created successfully")), w'')
           /\ helmetReservations (db w'')
              = (helmetReservations (db w') ++ [r])%list
           /\ HelmetReservation.qrCode r = UserQRCode.qrCodeData q
           /\ userQRCodes (db w'') = userQRCodes (db w')).
Proof.
  intros Hinv Hq w'.
  destruct (serve_identities history w) as [H1 H2].
  specialize (H1 Hinv). specialize (H2 _ _ Hq). fold w' in H1, H2.
  split; [intros request w0; apply create_step|].
  split; [exact H1|]. split; [exact H2|]. split.
  - intros Hf. now apply get_or_create_existing.
  - intros scheduleId user schedule classDate endTime Hu Hs Hcalls Huser Hsched
           Hnb Hd1 Hd2.
    destruct (POST_create_ok rt userId scheduleId w' user schedule classDate
                endTime Hu Hs Hcalls Huser Hsched Hnb Hd1 Hd2)
      as (q1 & w1 & w'' & Hget & Hpost & Hres & Hqr & _).
    assert (F4 : faults rt (op_userQRCodeService_getByUserId userId) = None)
      by (destruct Hcalls as (_ & _ & _ & F4 & _); exact F4).
    rewrite (get_or_create_existing rt _ _ _ F4 H2) in Hget.
    injection Hget as <- <-.
    eexists _, w'', _. split; [exact Hpost|]. split; [exact Hres|].
    split; [reflexivity | exact Hqr].
Qed.

End IssuedOnce.

(* ===================================================================== *)
(** * Bulk deletion: the selection *)
(* ===================================================================== *)

Lemma db_frame_refl w : db_frame w w.
Proof. reflexivity. Qed.

Lemma db_frame_trans x y z : db_frame x y -> db_frame y z -> db_frame x z.
Proof. unfold db_frame. congruence. Qed.

#[local] Hint Resolve db_frame_refl db_frame_trans : frame.

Section SelectionFacts.
Variable rt : Runtime.

Lemma reads_query {A} op (f : Db -> A) : sat db_frame (query rt op f).
Proof. apply sat_query. apply db_frame_refl. Qed.

Lemma reads_log args : sat db_frame (log args).
Proof. intros w. reflexivity. Qed.

Lemma reads_log_error args : sat db_frame (log_error args).
Proof. intros w. reflexivity. Qed.

#[local] Hint Resolve reads_query reads_log reads_log_error : frame.

(** The selection only reads the store. *)
Lemma select_reads request : sat db_frame (BulkDelete.select rt request).
Proof.
  unfold BulkDelete.select, BulkDelete.filter_by_owner,
    BulkDelete.filter_by_date, BulkDelete.in_date_range,
    getDocs_courseSchedules, courseService_getById, courseService_getAll.
  frame.
Qed.

(** An early response of the selection is the response of the
    endpoint. *)
Lemma POST_early request w response w1 :
  BulkDelete.select rt request w = (Ok (inl response), w1) ->
  BulkDelete.POST rt request w = (Ok response, w1).
Proof.
  intros H. unfold BulkDelete.POST. apply try_catch_ok.
  now rewrite (bind_ok _ _ _ _ _ H).
Qed.

(** C6. A bulk deletion that names a course of another coach answers
    403, and one that names a course that does not exist answers 404;
    in both cases the store is as it was: no schedule is deleted and no
    reservation cancelled. *)
Theorem POST_bulk_delete_foreign_course (coachId courseId : string)
  (startDate endDate : option string) (w : World) :
  coachId <> "" ->
  courseId <> "" ->
  faults rt op_getDocs_courseSchedules = None ->
  faults rt (op_courseService_getById courseId) = None ->
  let run :=
    BulkDelete.POST rt
      (BulkDelete.mkRequest (Some courseId) startDate endDate (Some coachId))
      w in
  (forall course,
      Store.course_by_id (db w) courseId = Some course ->
      Course.coachId course <> Some coachId ->
      fst run
      = Ok (json_status
              (BulkDelete.Error
                 "You do not have permission to delete schedules for this course")
              403)
      /\ db (snd run) = db w)
  /\ (Store.course_by_id (db w) courseId = None ->
      fst run = Ok (json_status (BulkDelete.Error "Course not found") 404)
      /\ db (snd run) = db w).
Proof.
  intros Hcoach Hcourse F1 F2 run.
  set (request := BulkDelete.mkRequest (Some courseId) startDate endDate
                                       (Some coachId)) in *.
  assert (Hsel : forall response,
             fst (BulkDelete.select rt request w) = Ok (inl response) ->
             fst run = Ok response /\ db (snd run) = db w).
  { intros response H. pose proof (select_reads request w) as Hdb.
    destruct (BulkDelete.select rt request w) as [o w1] eqn:E.
    cbn in H. subst o. subst run. rewrite (POST_early _ _ _ _ E).
    split; [reflexivity | exact Hdb]. }
  split.
  - intros course Hc Hdiff. apply Hsel.
    unfold BulkDelete.select, BulkDelete.filter_by_owner, request.
    cbn [BulkDelete.coachId BulkDelete.courseId BulkDelete.startDate
           BulkDelete.endDate].
    rewrite (truthy_Some _ Hcoach), (truthy_Some _ Hcourse).
    cbn [negb andb or_empty String_of].
    unfold getDocs_courseSchedules, courseService_getById.
    monad. cbv beta iota. rewrite (query_ok _ _ _ _ F1). cbv beta iota.
    rewrite (query_ok _ _ _ _ F2). cbn [db push_console]. rewrite Hc.
    assert (Hne : (or_empty (Course.coachId course) =? coachId) = false).
    { apply String.eqb_neq. intros H. apply Hdiff.
      destruct (Course.coachId course) as [c|]; cbn in H; congruence. }
    rewrite Hne. reflexivity.
  - intros Hc. apply Hsel.
    unfold BulkDelete.select, BulkDelete.filter_by_owner, request.
    cbn [BulkDelete.coachId BulkDelete.courseId BulkDelete.startDate
           BulkDelete.endDate].
    rewrite (truthy_Some _ Hcoach), (truthy_Some _ Hcourse).
    cbn [negb andb or_empty String_of].
    unfold getDocs_courseSchedules, courseService_getById.
    monad. cbv beta iota. rewrite (query_ok _ _ _ _ F1). cbv beta iota.
    rewrite (query_ok _ _ _ _ F2). cbn [db push_console]. rewrite Hc.
    reflexivity.
Qed.

End SelectionFacts.

(* ===================================================================== *)
(** * Bulk deletion: the loop *)
(* ===================================================================== *)

Lemma loop_keeps_refl s : loop_keeps s s.
Proof. repeat split. Qed.

Lemma loop_keeps_trans x y z : loop_keeps x y -> loop_keeps y z -> loop_keeps x z.
Proof. intros (A & B & C) (D & E & G). repeat split; congruence. Qed.

Lemma schedules_frame_refl w : schedules_frame w w.
Proof. reflexivity. Qed.

#[local] Hint Resolve loop_keeps_refl loop_keeps_trans schedules_frame_refl
  : frame.

Lemma filter_filter {A} (p q : A -> bool) l :
  filter p (filter q l) = filter (fun x => q x && p x) l.
Proof.
  induction l as [|x l IH]; cbn; [reflexivity|].
  destruct (q x); cbn; [destruct (p x)|]; now rewrite IH.
Qed.

Lemma filter_all {A} (l : list A) : filter (fun _ => true) l = l.
Proof. induction l as [|x l IH]; cbn; [|rewrite IH]; reflexivity. Qed.

Lemma filter_ext_bool {A} (p q : A -> bool) l :
  (forall x, p x = q x) -> filter p l = filter q l.
Proof. intros H. induction l as [|x l IH]; cbn; [|rewrite H, IH]; reflexivity. Qed.

Section DeletionFacts.
Variable rt : Runtime.

Lemma lift_loop_keeps {A} (m : M A) :
  sat schedules_frame m -> sat loop_keeps (BulkDelete.lift m).
Proof.
  intros H s. unfold BulkDelete.lift. specialize (H (fst s)).
  destruct (m (fst s)) as [o w']. repeat split. exact H.
Qed.

Lemma getByScheduleId_schedules id :
  sat schedules_frame (helmetReservationService_getByScheduleId rt id).
Proof. apply sat_query. apply schedules_frame_refl. Qed.

Lemma cancel_schedules id :
  sat schedules_frame (helmetReservationService_cancel rt id).
Proof.
  apply sat_update; [apply schedules_frame_refl|]. intros w. reflexivity.
Qed.

Lemma log_error_schedules args : sat schedules_frame (log_error args).
Proof. intros w. reflexivity. Qed.

Lemma incr_cancelled_keeps :
  sat loop_keeps BulkDelete.incr_cancelledReservationsCount.
Proof. intros s. repeat split. Qed.

#[local] Hint Resolve lift_loop_keeps getByScheduleId_schedules
  cancel_schedules log_error_schedules incr_cancelled_keeps : frame.

(** The inner block touches neither the schedules nor the two results
    of the loop, whether it throws or not. *)
Lemma cancel_all_keeps schedule :
  sat loop_keeps (BulkDelete.cancel_all rt schedule).
Proof. unfold BulkDelete.cancel_all, BulkDelete.cancel_if_active. frame. Qed.

(** The inner [try] with its [catch] never throws. *)
Lemma cancel_reservations_ok schedule s :
  exists s',
    BulkDelete.cancel_reservations rt schedule s = (Ok tt, s')
    /\ loop_keeps s s'
    /\ (forall e s1,
           BulkDelete.cancel_all rt schedule s = (Throw e, s1) ->
           console (fst s')
           = (console (fst s1) ++ [cancel_error_line schedule e])%list).
Proof.
  unfold BulkDelete.cancel_reservations, try_catch.
  pose proof (cancel_all_keeps schedule s) as Hk.
  destruct (BulkDelete.cancel_all rt schedule s) as [[[]|e] s1] eqn:E.
  - exists s1. repeat split; try apply Hk. intros; discriminate.
  - eexists. split; [reflexivity|]. cbn in Hk. split.
    + destruct Hk as (A & B & C). repeat split; assumption.
    + intros e' s1' H. injection H as <- <-. reflexivity.
Qed.

(** One iteration of the loop: it never throws; the schedule is deleted
    and counted exactly when its delete call succeeds, and otherwise the
    message of the failure is pushed to the errors. *)
Lemma delete_schedule_spec schedule w t :
  exists w' t',
    BulkDelete.delete_schedule rt schedule (w, t) = (Ok tt, (w', t'))
    /\ BulkDelete.deletedCount t'
       = (BulkDelete.deletedCount t
          + (if deletable rt schedule then 1 else 0))%nat
    /\ BulkDelete.errors t' = (BulkDelete.errors t ++ delete_error rt schedule)%list
    /\ courseSchedules (db w')
       = filter (fun x => negb (deletable rt schedule
                                && (CourseSchedule.id x
                                    =? CourseSchedule.id schedule)))
                (courseSchedules (db w))
    /\ (forall e s1,
           BulkDelete.cancel_all rt schedule (w, t) = (Throw e, s1) ->
           In (cancel_error_line schedule e) (console w')).
Proof.
  destruct (cancel_reservations_ok schedule (w, t))
    as ([w1 t1] & Hc & (K1 & K2 & K3) & Hlog).
  cbn [fst snd] in *.
  unfold BulkDelete.delete_schedule, deletable, delete_error.
  unfold try_catch. rewrite (bind_ok _ _ _ _ _ Hc).
  unfold deleteDoc_courseSchedules.
  destruct (faults rt (op_deleteDoc_courseSchedules (CourseSchedule.id schedule)))
    as [e|] eqn:F.
  - (* the delete call fails *)
    erewrite bind_throw
      by (unfold BulkDelete.lift; cbn [fst snd];
          rewrite (update_fail rt _ _ _ _ F); reflexivity).
    eexists _, _. split; [reflexivity|]. cbn.
    rewrite K1, K2, K3. repeat split.
    + lia.
    + symmetry. apply filter_all.
    + intros e' s1 H. rewrite (Hlog _ _ H).
      apply in_or_app. left. apply in_or_app. right. now left.
  - (* the delete call succeeds *)
    erewrite bind_ok
      by (unfold BulkDelete.lift; cbn [fst snd];
          rewrite (update_ok rt _ _ _ F); reflexivity).
    eexists _, _. split; [reflexivity|]. cbn.
    rewrite K1, K2, K3. repeat split.
    + lia.
    + now rewrite app_nil_r.
    + intros e' s1 H. rewrite (Hlog _ _ H).
      apply in_or_app. left. apply in_or_app. right. now left.
Qed.

(** The whole loop, from any state. *)
Lemma for_of_delete_spec schedules :
  forall w t,
  exists w' t',
    for_of schedules (BulkDelete.delete_schedule rt) (w, t) = (Ok tt, (w', t'))
    /\ BulkDelete.deletedCount t'
       = (BulkDelete.deletedCount t
          + length (filter (deletable rt) schedules))%nat
    /\ BulkDelete.errors t'
       = (BulkDelete.errors t ++ delete_errors rt schedules)%list
    /\ courseSchedules (db w')
       = filter (fun x => negb (deleted_by rt schedules x))
                (courseSchedules (db w)).
Proof.
  induction schedules as [|schedule rest IH]; intros w t.
  - exists w, t. cbn. rewrite app_nil_r, Nat.add_0_r, filter_all. auto.
  - destruct (delete_schedule_spec schedule w t)
      as (w1 & t1 & H1 & D1 & E1 & S1 & _).
    destruct (IH w1 t1) as (w' & t' & H2 & D2 & E2 & S2).
    exists w', t'. cbn [for_of]. rewrite (bind_ok _ _ _ _ _ H1).
    split; [exact H2|]. split; [|split].
    + rewrite D2, D1. cbn [filter]. destruct (deletable rt schedule); cbn; lia.
    + rewrite E2, E1. unfold delete_errors. cbn [flat_map].
      now rewrite app_assoc.
    + rewrite S2, S1, filter_filter. apply filter_ext_bool. intros x.
      cbn [deleted_by existsb]. now rewrite negb_orb.
Qed.

(** Step 4 and the response, from any world: the response is the
    success response; it counts the schedules whose delete call
    succeeded and lists the failures of the others, and nothing else. *)
Lemma delete_all_spec schedules w :
  exists cancelledCount message w',
    BulkDelete.delete_all rt schedules w
    = (Ok (json (BulkDelete.Deleted true
                   (length (filter (deletable rt) schedules))
                   cancelledCount
                   (errors_field (delete_errors rt schedules))
                   message)), w')
    /\ courseSchedules (db w')
       = filter (fun x => negb (deleted_by rt schedules x))
                (courseSchedules (db w)).
Proof.
  destruct (for_of_delete_spec schedules w (BulkDelete.mkTally 0 0 []))
    as (w' & t' & H & D & E & Sc).
  cbn in D, E.
  unfold BulkDelete.delete_all.
  erewrite bind_ok
    by (unfold BulkDelete.with_locals; rewrite H; reflexivity).
  cbn [snd]. rewrite D, E.
  eexists _, _, w'. split; [reflexivity | exact Sc].
Qed.

Lemma find_none_intro {A} (p : A -> bool) l :
  (forall x, In x l -> p x = false) -> find p l = None.
Proof.
  induction l as [|x l IH]; intros H; cbn; [reflexivity|].
  rewrite (H x (or_introl eq_refl)). apply IH. intros y Hy. apply H. now right.
Qed.

Lemma deleted_by_In schedules s :
  In s schedules -> deletable rt s = true -> deleted_by rt schedules s = true.
Proof.
  intros Hin Hd. unfold deleted_by. apply existsb_exists. exists s.
  split; [exact Hin|]. now rewrite Hd, String.eqb_refl.
Qed.

Lemma deleted_by_id schedules x y :
  CourseSchedule.id x = CourseSchedule.id y ->
  deleted_by rt schedules x = deleted_by rt schedules y.
Proof.
  intros H. unfold deleted_by. now rewrite H.
Qed.

(** A schedule whose delete call succeeded is no longer in the store. *)
Lemma deleted_is_gone schedules s (l : list CourseSchedule.t) :
  In s schedules -> deletable rt s = true ->
  find (fun x => CourseSchedule.id x =? CourseSchedule.id s)
       (filter (fun x => negb (deleted_by rt schedules x)) l) = None.
Proof.
  intros Hin Hd. apply find_none_intro. intros x Hx.
  apply filter_In in Hx. destruct Hx as [_ Hx].
  destruct (CourseSchedule.id x =? CourseSchedule.id s) eqn:E; [|reflexivity].
  apply String.eqb_eq in E.
  rewrite (deleted_by_id schedules x s E), (deleted_by_In _ _ Hin Hd) in Hx.
  discriminate.
Qed.

Lemma delete_errors_In schedules s e :
  In s schedules ->
  faults rt (op_deleteDoc_courseSchedules (CourseSchedule.id s)) = Some e ->
  In ("Error deleting schedule " ++ CourseSchedule.id s ++ ": " ++ e)
     (delete_errors rt schedules).
Proof.
  intros Hin F. unfold delete_errors. apply in_flat_map. exists s.
  split; [exact Hin|]. unfold delete_error. rewrite F. now left.
Qed.

Lemma delete_errors_app l1 l2 :
  delete_errors rt (l1 ++ l2)
  = (delete_errors rt l1 ++ delete_errors rt l2)%list.
Proof. unfold delete_errors. apply flat_map_app. Qed.

Lemma all_deletable l :
  forallb (deletable rt) l = true ->
  filter (deletable rt) l = l /\ delete_errors rt l = [].
Proof.
  induction l as [|s l IH]; cbn; [auto|].
  intros H. apply andb_true_iff in H. destruct H as [Hs Hl].
  destruct (IH Hl) as [A B]. rewrite Hs, A. split; [reflexivity|].
  unfold delete_errors in *. cbn. rewrite B. unfold delete_error.
  unfold deletable in Hs.
  destruct (faults rt (op_deleteDoc_courseSchedules (CourseSchedule.id s)));
    [discriminate | reflexivity].
Qed.

(** C5. Over a matched set that is not empty, the bulk deletion answers
    with [success: true] whatever delete call fails.  [deletedCount] is
    the number of schedules whose delete call succeeded, every one of
    them is gone from the store, and the message of every failed delete
    is in [errors].  When the delete call fails for exactly one schedule
    out of N, the other N - 1 are deleted and [errors] holds that one
    message. *)
Theorem POST_bulk_delete_partial_failure (request : BulkDelete.Request)
  (w w1 : World) (schedules : list CourseSchedule.t) :
  BulkDelete.select rt request w = (Ok (inr schedules), w1) ->
  schedules <> [] ->
  exists cancelledCount message w',
    BulkDelete.POST rt request w
    = (Ok (json (BulkDelete.Deleted true
                   (length (filter (deletable rt) schedules))
                   cancelledCount
                   (errors_field (delete_errors rt schedules))
                   message)), w')
    /\ courseSchedules (db w')
       = filter (fun x => negb (deleted_by rt schedules x))
                (courseSchedules (db w))
    /\ (forall s,
           In s schedules -> deletable rt s = true ->
           Store.schedule_by_id (db w') (CourseSchedule.id s) = None)
    /\ (forall s e,
           In s schedules ->
           faults rt (op_deleteDoc_courseSchedules (CourseSchedule.id s))
           = Some e ->
           exists errors,
             errors_field (delete_errors rt schedules) = Some errors
             /\ In ("Error deleting schedule " ++ CourseSchedule.id s ++ ": "
                      ++ e) errors)
    /\ (forall before failed after e,
           schedules = (before ++ failed :: after)%list ->
           faults rt (op_deleteDoc_courseSchedules (CourseSchedule.id failed))
           = Some e ->
           forallb (deletable rt) (before ++ after) = true ->
           length (filter (deletable rt) schedules)
           = (length schedules - 1)%nat
           /\ errors_field (delete_errors rt schedules)
              = Some ["Error deleting schedule " ++ CourseSchedule.id failed
                        ++ ": " ++ e]).
Proof.
  intros Hsel Hne.
  destruct (delete_all_spec schedules w1) as (c & msg & w' & Hall & Hsched).
  pose proof (select_reads rt request w) as Hdb.
  rewrite Hsel in Hdb. unfold db_frame in Hdb. cbn [snd] in Hdb.
  rewrite Hdb in Hsched.
  exists c, msg, w'. split; [|split; [exact Hsched|split; [|split]]].
  - unfold BulkDelete.POST. apply try_catch_ok.
    rewrite (bind_ok _ _ _ _ _ Hsel).
    destruct schedules as [|s l]; [congruence|]. exact Hall.
  - intros s Hin Hd. unfold Store.schedule_by_id. rewrite Hsched.
    now apply deleted_is_gone.
  - intros s e Hin F. pose proof (delete_errors_In _ _ _ Hin F) as H.
    unfold errors_field.
    destruct (delete_errors rt schedules) as [|m l]; [contradiction|].
    eexists. split; [reflexivity | exact H].
  - intros before failed after e -> F Hall'.
    rewrite forallb_app in Hall'. apply andb_true_iff in Hall'.
    destruct Hall' as [Hb Ha].
    destruct (all_deletable _ Hb) as [B1 B2].
    destruct (all_deletable _ Ha) as [A1 A2].
    rewrite filter_app, delete_errors_app. cbn [filter].
    unfold delete_errors at 2. cbn [flat_map]. fold (delete_errors rt after).
    unfold deletable at 2, delete_error. rewrite F, B1, B2, A1, A2.
    rewrite !length_app. cbn. split; [lia | reflexivity].
Qed.

(** C10. In one iteration of the deletion loop, a failure of the lookup
    of the reservations, or of one of their cancellations, is caught
    apart from the deletion: when the delete call succeeds, the schedule
    is deleted and counted, [errors] is as it was, and the failure is on
    the console only.  The [errors] of the response are the failures of
    the delete calls and nothing else, whatever befalls the
    reservations. *)
Theorem delete_schedule_despite_reservation_failure
  (schedule : CourseSchedule.t) (w : World) (t : BulkDelete.Tally)
  (e : string) (s1 : World * BulkDelete.Tally) :
  BulkDelete.cancel_all rt schedule (w, t) = (Throw e, s1) ->
  faults rt (op_deleteDoc_courseSchedules (CourseSchedule.id schedule)) = None ->
  (exists w' t',
      BulkDelete.delete_schedule rt schedule (w, t) = (Ok tt, (w', t'))
      /\ BulkDelete.deletedCount t' = S (BulkDelete.deletedCount t)
      /\ BulkDelete.errors t' = BulkDelete.errors t
      /\ Store.schedule_by_id (db w') (CourseSchedule.id schedule) = None
      /\ In (cancel_error_line schedule e) (console w'))
  /\ (forall schedules w0,
         exists cancelledCount message w'',
           BulkDelete.delete_all rt schedules w0
           = (Ok (json (BulkDelete.Deleted true
                          (length (filter (deletable rt) schedules))
                          cancelledCount
                          (errors_field (delete_errors rt schedules))
                          message)), w'')).
Proof.
  intros Hthrow F. split.
  - destruct (delete_schedule_spec schedule w t)
      as (w' & t' & H & D & E & Sc & Hlog).
    assert (Hd : deletable rt schedule = true) by (unfold deletable; now rewrite F).
    exists w', t'. split; [exact H|]. split; [|split; [|split]].
    + rewrite D, Hd. lia.
    + rewrite E. unfold delete_error. rewrite F. apply app_nil_r.
    + unfold Store.schedule_by_id. rewrite Sc. apply find_none_intro.
      intros x Hx. apply filter_In in Hx. destruct Hx as [_ Hx].
      rewrite Hd in Hx. cbn in Hx. now apply negb_true_iff in Hx.
    + exact (Hlog e s1 Hthrow).
  - intros schedules w0.
    destruct (delete_all_spec schedules w0) as (c & msg & w'' & H & _).
    now exists c, msg, w''.
Qed.

(** The two ways in which the inner block throws. *)
Lemma cancel_all_lookup_fails schedule s e :
  faults rt (op_helmetReservationService_getByScheduleId
               (CourseSchedule.id schedule)) = Some e ->
  BulkDelete.cancel_all rt schedule s = (Throw e, s).
Proof.
  intros F. unfold BulkDelete.cancel_all.
  erewrite bind_throw; [reflexivity|].
  unfold BulkDelete.lift, helmetReservationService_getByScheduleId.
  rewrite (query_fail rt _ _ _ _ F). now destruct s.
Qed.

Lemma cancel_all_cancel_fails schedule w t r e :
  faults rt (op_helmetReservationService_getByScheduleId
               (CourseSchedule.id schedule)) = None ->
  Store.reservations_by_schedule (db w) (CourseSchedule.id schedule) = [r] ->
  HelmetReservation.status r = booked ->
  faults rt (op_helmetReservationService_cancel (HelmetReservation.id r))
  = Some e ->
  BulkDelete.cancel_all rt schedule (w, t) = (Throw e, (w, t)).
Proof.
  intros F Hr Hst Fc. unfold BulkDelete.cancel_all.
  erewrite bind_ok
    by (unfold BulkDelete.lift, helmetReservationService_getByScheduleId;
        cbn [fst snd]; rewrite (query_ok rt _ _ _ F); reflexivity).
  rewrite Hr. cbn [for_of]. unfold BulkDelete.cancel_if_active. rewrite Hst.
  cbn [ReservationStatus_eqb negb andb].
  erewrite bind_throw; [reflexivity|].
  erewrite bind_throw; [reflexivity|].
  unfold BulkDelete.lift, helmetReservationService_cancel. cbn [fst snd].
  now rewrite (update_fail rt _ _ _ _ Fc).
Qed.

End DeletionFacts.

(* ===================================================================== *)
(** * Bulk deletion: the date filter *)
(* ===================================================================== *)

Section DateFilterFacts.
Variable rt : Runtime.

(** [setHours(0, 0, 0, 0)] is the start of the local day of the date,
    and [setHours(23, 59, 59, 999)] is its last millisecond. *)
Lemma setHours_day (t : Z) :
  exists day0,
    (day0 <= t < day0 + msPerDay)%Z
    /\ ((day0 + tzOffset rt) mod msPerDay = 0)%Z
    /\ setHours rt (mkDate (Some t)) 0 0 0 0 = mkDate (timeClip day0)
    /\ setHours rt (mkDate (Some t)) 23 59 59 999
       = mkDate (timeClip (day0 + msPerDay - 1)).
Proof.
  exists (((t + tzOffset rt) / msPerDay) * msPerDay - tzOffset rt)%Z.
  unfold setHours, msPerDay. cbn [getTime].
  pose proof (Z.div_mod (t + tzOffset rt) 86400000 ltac:(lia)) as Hdm.
  pose proof (Z.mod_pos_bound (t + tzOffset rt) 86400000 ltac:(lia)) as Hb.
  repeat split.
  - lia.
  - lia.
  - replace ((t + tzOffset rt) / 86400000 * 86400000 - tzOffset rt
             + tzOffset rt)%Z
      with ((t + tzOffset rt) / 86400000 * 86400000)%Z by lia.
    apply Z.mod_mul. lia.
  - f_equal. f_equal. lia.
  - f_equal. f_equal. lia.
Qed.

(** A start time that denotes an instant is kept exactly when the
    instant is within the two bounds, both included. *)
Lemma in_date_range_instant schedule t lo hi w :
  BulkDelete.scheduleStartTime rt (CourseSchedule.startTime schedule)
  = Ok (Some (mkDate (Some t))) ->
  BulkDelete.in_date_range rt (Some (mkDate (Some lo)))
                           (Some (mkDate (Some hi))) schedule w
  = (Ok ((lo <=? t)%Z && (t <=? hi)%Z), w).
Proof.
  intros H. unfold BulkDelete.in_date_range, try_catch. rewrite H.
  unfold BulkDelete.outside, date_gt, date_lt. cbn [getTime].
  destruct (Z.ltb_spec t lo), (Z.ltb_spec hi t),
    (Z.leb_spec lo t), (Z.leb_spec t hi); try lia; reflexivity.
Qed.

(** A start time that is absent is left out, and so is one whose
    [toDate] throws; neither makes the request fail. *)
Lemma in_date_range_absent schedule start end_ w :
  BulkDelete.scheduleStartTime rt (CourseSchedule.startTime schedule) = Ok None ->
  BulkDelete.in_date_range rt start end_ schedule w = (Ok false, w).
Proof.
  intros H. unfold BulkDelete.in_date_range, try_catch. now rewrite H.
Qed.

Lemma in_date_range_throws schedule start end_ w e :
  BulkDelete.scheduleStartTime rt (CourseSchedule.startTime schedule) = Throw e ->
  fst (BulkDelete.in_date_range rt start end_ schedule w) = Ok false.
Proof.
  intros H. unfold BulkDelete.in_date_range, try_catch. now rewrite H.
Qed.

(** A start time that is present but denotes no instant yields an
    Invalid Date; nothing is thrown, both comparisons are false, and the
    schedule is kept whatever the bounds. *)
Lemma in_date_range_invalid schedule start end_ w :
  BulkDelete.scheduleStartTime rt (CourseSchedule.startTime schedule)
  = Ok (Some (mkDate None)) ->
  BulkDelete.in_date_range rt start end_ schedule w = (Ok true, w).
Proof.
  intros H. unfold BulkDelete.in_date_range, try_catch. rewrite H.
  unfold BulkDelete.outside, date_gt, date_lt. cbn [getTime].
  destruct start as [[[lo|]]|], end_ as [[[hi|]]|]; reflexivity.
Qed.

Lemma scheduleStartTime_unparseable raw :
  raw <> "" -> Date_parse rt raw = None ->
  BulkDelete.scheduleStartTime rt (TvRaw raw) = Ok (Some (mkDate None)).
Proof.
  intros Hne Hp. unfold BulkDelete.scheduleStartTime, Date_of_string.
  apply String.eqb_neq in Hne. now rewrite Hne, Hp.
Qed.

End DateFilterFacts.

(** C9, at the class whose start time is the string "to be announced".
    Coach 1 asks for the deletion of the sessions of January 2025.  The
    bounds are the first and the last millisecond of the two local days;
    the salsa class of March 2024 is left out; the class without a date
    is matched, and deleted. *)
Lemma POST_bulk_delete_unparseable_startTime :
  let run :=
    BulkDelete.POST Sample.runtime Sample.january_2025 Sample.world_undated in
  BulkDelete.start_bound Sample.runtime Sample.january_2025
  = Some (mkDate (Some 1735686000000%Z))
  /\ BulkDelete.end_bound Sample.runtime Sample.january_2025
     = Some (mkDate (Some 1738364399999%Z))
  /\ fst (BulkDelete.select Sample.runtime Sample.january_2025
                            Sample.world_undated)
     = Ok (inr [Sample.undated])
  /\ fst run
     = Ok (json (BulkDelete.Deleted true 1 0 None
                   "1 session(s) supprimée(s) avec succès"))
  /\ courseSchedules (db (snd run)) = [Sample.salsa].
Proof. vm_compute. repeat split. Qed.

(* ===================================================================== *)
(** * The statements at the sample store *)
(* ===================================================================== *)

Lemma storage_ok_sample : storage_ok Sample.runtime.
Proof. intros op. reflexivity. Defined.

Lemma booking_calls_ok_sample userId scheduleId :
  booking_calls_ok Sample.runtime userId scheduleId.
Proof. repeat split. Defined.

Lemma booking_calls_ok_mail_down userId scheduleId :
  booking_calls_ok Sample.mail_down userId scheduleId.
Proof. repeat split. Defined.

(** Ada, booked for the salsa class, is checked in by the scan of her
    token. *)
Lemma POST_scan_cascade_witness :
  fst (ScanRoute.POST Sample.runtime (Sample.scan Sample.ada_token "s1")
                      Sample.world_booked)
  = Ok (json (ScanRoute.Result
                (ScanRoute.mkScan true "success" "Welcome Ada Lovelace!"
                   (Some "Ada Lovelace") (Some "ada@example.org")
                   (Some "Salsa") (Some "Studio A") None (Some "doc1")))).
Proof.
  destruct (POST_scan_cascade Sample.runtime Sample.ada_token "s1"
              Sample.world_booked storage_ok_sample
              ltac:(discriminate) ltac:(discriminate))
    as (_ & _ & _ & H & _).
  exact (f_equal fst (H _ _ _ eq_refl eq_refl eq_refl)).
Defined.

(** Ada, checked in, is scanned again. *)
Lemma POST_scan_already_checked_in_witness :
  ScanRoute.POST Sample.runtime (Sample.scan Sample.ada_token "s1")
                 Sample.world_checked_in
  = (Ok (json (ScanRoute.Result
                 (ScanRoute.mkScan false "already_checked_in"
                    "Already checked in" (Some "Ada Lovelace") None None None
                    (Some 1710000000000%Z) None))),
     Sample.world_checked_in).
Proof.
  exact (proj1 (POST_scan_already_checked_in Sample.runtime Sample.ada_token
                  "s1" Sample.world_checked_in Sample.ada_identity Sample.salsa
                  _ ltac:(discriminate) ltac:(discriminate)
                  eq_refl eq_refl eq_refl eq_refl eq_refl eq_refl eq_refl)).
Defined.

(** Ada cancels after her check-in, after her cancellation, and under
    an id that names nothing. *)
Lemma DELETE_by_status_witness :
  CancelRoute.DELETE Sample.runtime (Some "doc1") Sample.world_checked_in
  = (Ok (json_status
           (CancelRoute.Error
              "Cannot cancel a reservation that has already been checked in")
           400), Sample.world_checked_in)
  /\ fst (CancelRoute.DELETE Sample.runtime (Some "doc1") Sample.world_cancelled)
     = Ok (json (CancelRoute.Cancelled true "Reservation cancelled successfully"))
  /\ CancelRoute.DELETE Sample.runtime (Some "doc7") Sample.world_booked
     = (Ok (json_status (CancelRoute.Error "Reservation not found") 404),
        Sample.world_booked).
Proof.
  split; [|split].
  - refine (proj1 (DELETE_by_status Sample.runtime "doc1"
                     Sample.world_checked_in ltac:(discriminate) eq_refl)
                  _ eq_refl eq_refl).
  - refine (proj1 (proj2 (DELETE_by_status Sample.runtime "doc1"
                            Sample.world_cancelled ltac:(discriminate) eq_refl))
                  _ eq_refl eq_refl eq_refl).
  - refine (proj2 (proj2 (DELETE_by_status Sample.runtime "doc7"
                            Sample.world_booked ltac:(discriminate) eq_refl))
                  eq_refl).
Defined.

(** Ada books the salsa class, and books it again. *)
Lemma POST_create_duplicate_witness :
  CreateRoute.POST Sample.runtime (Sample.book "u1" "s1") Sample.world_booked
  = (Ok (json_status
           (CreateRoute.Error "You already have a reservation for this class")
           400), Sample.world_booked)
  /\ exists reservationId qrCode w' r',
      CreateRoute.POST Sample.runtime (Sample.book "u1" "s1") Sample.world
      = (Ok (json (CreateRoute.Created true reservationId qrCode
                     "Helmet reservation created successfully")), w')
      /\ helmetReservations (db w')
         = (helmetReservations (db Sample.world) ++ [r'])%list
      /\ HelmetReservation.id r' = reservationId
      /\ HelmetReservation.userId r' = "u1"
      /\ HelmetReservation.scheduleId r' = "s1"
      /\ HelmetReservation.status r' = booked.
Proof.
  split.
  - refine (proj1 (POST_create_duplicate Sample.runtime "u1" "s1"
                     Sample.world_booked Sample.ada Sample.salsa
                     ltac:(discriminate) ltac:(discriminate)
                     eq_refl eq_refl eq_refl eq_refl eq_refl)
                  _ eq_refl (or_introl eq_refl)).
  - refine (proj2 (POST_create_duplicate Sample.runtime "u1" "s1"
                     Sample.world Sample.ada Sample.salsa
                     ltac:(discriminate) ltac:(discriminate)
                     eq_refl eq_refl eq_refl eq_refl eq_refl)
                  (or_introl eq_refl) (booking_calls_ok_sample _ _)
                  (ex_intro _ Sample.six_pm (or_intror eq_refl))
                  (ex_intro _ Sample.seven_pm (or_intror eq_refl))).
Defined.

(** Ada books the salsa class while the mail endpoint is down. *)
Lemma POST_create_mail_failure_witness :
  exists reservationId qrCode w',
    CreateRoute.POST Sample.mail_down (Sample.book "u1" "s1") Sample.world
    = (Ok (json (CreateRoute.Created true reservationId qrCode
                   "Helmet reservation created successfully")), w')
    /\ (exists r, In r (helmetReservations (db w'))
                  /\ HelmetReservation.id r = reservationId
                  /\ HelmetReservation.status r = booked)
    /\ In (console_error ["Error sending email:"; "fetch failed"]) (console w').
Proof.
  exact (POST_create_mail_failure Sample.mail_down "u1" "s1" Sample.world
           Sample.ada Sample.salsa Sample.six_pm Sample.seven_pm "fetch failed"
           ltac:(discriminate) ltac:(discriminate)
           (booking_calls_ok_mail_down _ _) eq_refl eq_refl eq_refl
           (or_intror eq_refl) (or_intror eq_refl) eq_refl).
Defined.

(** Coach 1 deletes the sessions of the dance course while the salsa
    class cannot be deleted: the zouk class is deleted, and the answer
    is still the success response. *)
Lemma POST_bulk_delete_partial_failure_witness :
  exists cancelledCount message w',
    BulkDelete.POST Sample.deletion_trouble Sample.own_course
                    Sample.world_booked
    = (Ok (json (BulkDelete.Deleted true 1 cancelledCount
                   (Some ["Error deleting schedule s1: permission denied"])
                   message)), w')
    /\ courseSchedules (db w') = [Sample.salsa].
Proof.
  destruct (POST_bulk_delete_partial_failure Sample.deletion_trouble
              Sample.own_course Sample.world_booked
              (snd (BulkDelete.select Sample.deletion_trouble Sample.own_course
                                      Sample.world_booked))
              [Sample.salsa; Sample.zouk]
              ltac:(vm_compute; reflexivity) ltac:(discriminate))
    as (c & msg & w' & H & Hs & _).
  exists c, msg, w'. split; [exact H | exact Hs].
Defined.

(** Coach 2 asks for the deletion of the sessions of the course of
    coach 1, and coach 1 for those of a course that does not exist. *)
Lemma POST_bulk_delete_foreign_course_witness :
  (fst (BulkDelete.POST Sample.runtime Sample.foreign_course Sample.world_booked)
   = Ok (json_status
           (BulkDelete.Error
              "You do not have permission to delete schedules for this course")
           403)
   /\ db (snd (BulkDelete.POST Sample.runtime Sample.foreign_course
                               Sample.world_booked))
      = db Sample.world_booked)
  /\ (fst (BulkDelete.POST Sample.runtime Sample.missing_course
                           Sample.world_booked)
      = Ok (json_status (BulkDelete.Error "Course not found") 404)
      /\ db (snd (BulkDelete.POST Sample.runtime Sample.missing_course
                                  Sample.world_booked))
         = db Sample.world_booked).
Proof.
  split.
  - refine (proj1 (POST_bulk_delete_foreign_course Sample.runtime "coach2" "c1"
                     None None Sample.world_booked
                     ltac:(discriminate) ltac:(discriminate) eq_refl eq_refl)
                  Sample.dance eq_refl ltac:(discriminate)).
  - refine (proj2 (POST_bulk_delete_foreign_course Sample.runtime "coach1" "c9"
                     None None Sample.world_booked
                     ltac:(discriminate) ltac:(discriminate) eq_refl eq_refl)
                  eq_refl).
Defined.

Lemma filter_length_at_most {A} (p : A -> bool) l :
  (length (filter p l) <= length l)%nat.
Proof.
  induction l as [|x l IH]; cbn; [lia|]. destruct (p x); cbn; lia.
Defined.

(** A store with one identity at most has one identity per user at
    most. *)
Lemma one_identity_of_length d :
  (length (userQRCodes d) <= 1)%nat -> one_identity_per_user d.
Proof.
  intros H u. unfold identities_of.
  pose proof (filter_length_at_most
                (fun q => UserQRCode.userId q =? u) (userQRCodes d)).
  lia.
Defined.

(** After the first booking of Ada, and after a cancellation, a scan, a
    bulk deletion and a second booking served later, a third booking
    answers with the image of the identity issued by the first and
    stores its token. *)
Lemma identity_issued_once_witness :
  let w' := serve Sample.later_requests Sample.world_booked in
  one_identity_per_user (db w')
  /\ Store.qr_by_user (db w') "u1" = Some Sample.ada_identity
  /\ exists reservationId w'' r,
      CreateRoute.POST Sample.runtime (Sample.book "u1" "s2") w'
      = (Ok (json (CreateRoute.Created true reservationId
                     (UserQRCode.qrCodeImage Sample.ada_identity)
                     "Helmet reservation created successfully")), w'')
      /\ helmetReservations (db w'')
         = (helmetReservations (db w') ++ [r])%list
      /\ HelmetReservation.qrCode r = Sample.ada_token
      /\ userQRCodes (db w'') = userQRCodes (db w').
Proof.
  destruct (identity_issued_once Sample.runtime Sample.later_requests
              Sample.world_booked "u1" Sample.ada_identity
              (one_identity_of_length (db Sample.world_booked)
                 ltac:(vm_compute; lia)) eq_refl)
    as (_ & Hinv & Hq & _ & Hbook).
  split; [exact Hinv|]. split; [exact Hq|].
  refine (Hbook "s2" Sample.ada Sample.zouk Sample.six_pm Sample.seven_pm
                ltac:(discriminate) ltac:(discriminate)
                (booking_calls_ok_sample _ _) _ _ _
                (or_introl eq_refl) (or_introl eq_refl));
    vm_compute; reflexivity.
Defined.

(** The reservations of the zouk class cannot be read, and the class is
    deleted all the same. *)
Lemma delete_schedule_despite_reservation_failure_witness :
  exists w' t',
    BulkDelete.delete_schedule Sample.deletion_trouble Sample.zouk
                               (Sample.world_booked, BulkDelete.mkTally 0 0 [])
    = (Ok tt, (w', t'))
    /\ BulkDelete.deletedCount t' = 1%nat
    /\ BulkDelete.errors t' = []
    /\ Store.schedule_by_id (db w') "s2" = None
    /\ In (cancel_error_line Sample.zouk "reservations unavailable")
          (console w').
Proof.
  exact (proj1 (delete_schedule_despite_reservation_failure
                  Sample.deletion_trouble Sample.zouk Sample.world_booked
                  (BulkDelete.mkTally 0 0 []) "reservations unavailable"
                  (Sample.world_booked, BulkDelete.mkTally 0 0 [])
                  (cancel_all_lookup_fails Sample.deletion_trouble Sample.zouk
                     _ _ eq_refl)
                  eq_refl)).
Defined.

(* ===================================================================== *)
(** * Running a handler along every path *)
(* ===================================================================== *)

(** The value on which a stuck handler term waits: the scrutinee of its
    outermost [match] that is not itself a [match]. *)
Ltac head_scrutinee t :=
  lazymatch t with
  | match ?x with _ => _ end => head_scrutinee x
  | ?f ?a =>
      lazymatch f with
      | match ?x with _ => _ end => head_scrutinee x
      | _ => t
      end
  | _ => t
  end.

(** Runs the handler of the equation [E : handler ... = (o, w')] along
    every path: splits on the value the handler waits on, until the left
    side is a pair. *)
Ltac exec_in E :=
  repeat (cbv beta iota in E;
          lazymatch type of E with
          | (_, _) = _ => fail
          | ?t = _ => let x := head_scrutinee t in destruct x eqn:?
          end);
  cbv beta iota in E.

(* ===================================================================== *)
(** * Check-in: what it writes, and what follows it *)
(* ===================================================================== *)

Section ScanMore.
Variable rt : Runtime.

(** X1. The check-in endpoint always answers, with status 200, 400 or 500;
    it sends no mail, and it leaves the store as it was unless it answers
    200 for a booked reservation of the store, which it then checks in
    at the time of the request. *)
Theorem scan_writes_only_check_in (request : ScanRoute.Request) (w : World) :
  let run := ScanRoute.POST rt request w in
  exists response,
    fst run = Ok response
    /\ (http response = 200 \/ http response = 400 \/ http response = 500)%nat
    /\ outbox (snd run) = outbox w
    /\ (db (snd run) = db w
        \/ exists r,
            HelmetReservation.status r = booked
            /\ In r (helmetReservations (db w))
            /\ db (snd run)
               = Store.update_reservation (HelmetReservation.id r)
                   (checked_in_at (clock w)) (db w)
            /\ http response = 200%nat).
Proof.
  intros run. subst run.
  destruct (ScanRoute.POST rt request w) as [o w'] eqn:E.
  unfold ScanRoute.POST, userQRCodeService_getByQRCodeData,
    scheduleService_getById, helmetReservationService_getByUserAndSchedule,
    helmetReservationService_checkIn, query, update, call,
    try_catch, bind, ret, log_error, modify in E.
  exec_in E.
  all: injection E as <- <-.
  all: try (eexists; split; [reflexivity|]; cbn; auto 10; fail).
  eexists. split; [reflexivity|]. cbn. repeat split; auto.
  right. match goal with
         | H : Store.reservation_by_user_and_schedule _ _ _ _ = Some ?r |- _ =>
             exists r; apply reservation_lookup_Some in H; destruct H as [H _]
         end.
  repeat split; auto.
  match goal with
  | H1 : ReservationStatus_eqb ?s checked_in = false,
    H2 : ReservationStatus_eqb ?s cancelled = false |- ?s = booked =>
      destruct s; cbn in H1, H2; congruence
  end.
Qed.

Lemma filter_map_commute {A} (p : A -> bool) (f : A -> A) l :
  (forall x, p (f x) = p x) -> filter p (map f l) = map f (filter p l).
Proof.
  intros H. induction l as [|x l IH]; cbn; [reflexivity|].
  rewrite H. destruct (p x); cbn; now rewrite IH.
Qed.

Lemma find_map_commute {A} (p : A -> bool) (f : A -> A) l :
  (forall x, p (f x) = p x) -> find p (map f l) = option_map f (find p l).
Proof.
  intros H. induction l as [|x l IH]; cbn; [reflexivity|].
  rewrite H. destruct (p x); cbn; [reflexivity | exact IH].
Qed.

(** When the store holds one reservation for a pair, that is the one it
    resolves, whatever its choice among several would be. *)
Lemma lookup_single d userId scheduleId r :
  filter (Store.for_pair userId scheduleId) (helmetReservations d) = [r] ->
  Store.reservation_by_user_and_schedule rt d userId scheduleId = Some r.
Proof.
  intros H. unfold Store.reservation_by_user_and_schedule. rewrite H.
  destruct (pick rt [r]) as [|[|n]]; reflexivity.
Qed.

(** An update that keeps the ids, the users and the schedules of the
    reservations commutes with the lookups. *)
Lemma update_for_pair id f d userId scheduleId :
  (forall r, HelmetReservation.userId (f r) = HelmetReservation.userId r) ->
  (forall r, HelmetReservation.scheduleId (f r)
             = HelmetReservation.scheduleId r) ->
  filter (Store.for_pair userId scheduleId)
         (helmetReservations (Store.update_reservation id f d))
  = map (fun r => if HelmetReservation.id r =? id then f r else r)
        (filter (Store.for_pair userId scheduleId) (helmetReservations d)).
Proof.
  intros Hu Hs. unfold Store.update_reservation. cbn [helmetReservations
    set_helmetReservations].
  apply filter_map_commute. intros x. unfold Store.for_pair.
  destruct (HelmetReservation.id x =? id); [now rewrite Hu, Hs | reflexivity].
Qed.

Lemma update_by_id id f d r :
  (forall r, HelmetReservation.id (f r) = HelmetReservation.id r) ->
  Store.reservation_by_id d id = Some r ->
  Store.reservation_by_id (Store.update_reservation id f d) id = Some (f r).
Proof.
  intros Hid H. unfold Store.reservation_by_id, Store.update_reservation in *.
  cbn [helmetReservations set_helmetReservations].
  rewrite find_map_commute.
  - rewrite H. cbn. apply find_some in H. destruct H as [_ H]. now rewrite H.
  - intros x. destruct (HelmetReservation.id x =? id) eqn:E; [|exact E].
    rewrite Hid. exact E.
Qed.

Lemma reservation_by_id_In d r :
  In r (helmetReservations d) ->
  exists r0, Store.reservation_by_id d (HelmetReservation.id r) = Some r0
             /\ HelmetReservation.id r0 = HelmetReservation.id r.
Proof.
  intros Hin. unfold Store.reservation_by_id.
  destruct (find _ _) as [r0|] eqn:E.
  - exists r0. split; [reflexivity|]. apply find_some in E.
    now apply String.eqb_eq.
  - exfalso. pose proof (find_none _ _ E r Hin) as H. cbn in H.
    now rewrite String.eqb_refl in H.
Qed.

(** The run of a scan that checks in. *)
Lemma scan_booked_run qrToken scheduleId w q s r :
  qrToken <> "" ->
  scheduleId <> "" ->
  faults rt (op_userQRCodeService_getByQRCodeData qrToken) = None ->
  faults rt (op_scheduleService_getById scheduleId) = None ->
  faults rt (op_helmetReservationService_getByUserAndSchedule
               (UserQRCode.userId q) scheduleId) = None ->
  Store.qr_by_data (db w) qrToken = Some q ->
  Store.schedule_by_id (db w) scheduleId = Some s ->
  Store.reservation_by_user_and_schedule rt (db w) (UserQRCode.userId q)
    scheduleId = Some r ->
  HelmetReservation.status r = booked ->
  forall k : unit -> M (Response ScanRoute.Body),
    (forall u,
        k u = ret (json (ScanRoute.Result
                           (ScanRoute.mkScan true "success"
                              ("Welcome " ++ HelmetReservation.userName r ++ "!")
                              (Some (HelmetReservation.userName r))
                              (Some (HelmetReservation.userEmail r))
                              (Some (HelmetReservation.courseName r))
                              (Some (HelmetReservation.location r))
                              None
                              (Some (HelmetReservation.id r)))))) ->
    ScanRoute.POST rt (ScanRoute.mkRequest (Some qrToken) (Some scheduleId)) w
    = try_catch
        (bind (helmetReservationService_checkIn rt (HelmetReservation.id r)) k)
        (fun error =>
           log_error ["Error scanning QR code:"; error] ;;;
           ret (json_status
                  (ScanRoute.Error (message_or error "Internal server error"))
                  500)) w.
Proof.
  intros Htok Hsid F1 F2 F3 Hq Hs Hr Hst k Hk.
  unfold ScanRoute.POST. cbn [ScanRoute.qrCodeData ScanRoute.scheduleId].
  rewrite (truthy_Some _ Htok), (truthy_Some _ Hsid). cbn [negb orb or_empty].
  unfold userQRCodeService_getByQRCodeData, scheduleService_getById,
    helmetReservationService_getByUserAndSchedule.
  unfold try_catch at 1 2.
  rewrite (bind_ok _ _ _ _ _ (query_ok rt _ _ _ F1)), Hq.
  rewrite (bind_ok _ _ _ _ _ (query_ok rt _ _ _ F2)), Hs.
  rewrite (bind_ok _ _ _ _ _ (query_ok rt _ _ _ F3)), Hr, Hst.
  cbn [ReservationStatus_eqb]. unfold bind. 
  destruct (helmetReservationService_checkIn rt (HelmetReservation.id r) w)
    as [[[]|e] w1]; [rewrite Hk|]; reflexivity.
Qed.

(** X2. When the write of the check-in is refused, the answer is 500 with
    the message of the refusal, the world differs by one console line
    only, and the reservation is still booked. *)
Theorem scan_check_in_refused (qrToken scheduleId : string) (w : World)
  (q : UserQRCode.t) (s : CourseSchedule.t) (r : HelmetReservation.t)
  (e : string) :
  qrToken <> "" ->
  scheduleId <> "" ->
  faults rt (op_userQRCodeService_getByQRCodeData qrToken) = None ->
  faults rt (op_scheduleService_getById scheduleId) = None ->
  faults rt (op_helmetReservationService_getByUserAndSchedule
               (UserQRCode.userId q) scheduleId) = None ->
  Store.qr_by_data (db w) qrToken = Some q ->
  Store.schedule_by_id (db w) scheduleId = Some s ->
  Store.reservation_by_user_and_schedule rt (db w) (UserQRCode.userId q)
    scheduleId = Some r ->
  HelmetReservation.status r = booked ->
  faults rt (op_helmetReservationService_checkIn (HelmetReservation.id r))
  = Some e ->
  ScanRoute.POST rt (ScanRoute.mkRequest (Some qrToken) (Some scheduleId)) w
  = (Ok (json_status
           (ScanRoute.Error (message_or e "Internal server error")) 500),
     push_console (console_error ["Error scanning QR code:"; e]) w).
Proof.
  intros Htok Hsid F1 F2 F3 Hq Hs Hr Hst F4.
  erewrite scan_booked_run by (eassumption || (intros; reflexivity)).
  unfold try_catch, bind, helmetReservationService_checkIn.
  rewrite (update_fail rt _ _ _ _ F4). reflexivity.
Qed.

(** X3. A booked reservation, the only one of its user and schedule, is
    checked in by a scan.  Any later scan of the same token answers
    [already_checked_in] with the time of the first scan, and writes
    nothing; and the cancellation of the reservation is refused with
    400. *)
Theorem scan_then_scan_again (qrToken scheduleId : string) (w : World)
  (q : UserQRCode.t) (s : CourseSchedule.t) (r : HelmetReservation.t)
  (later : Z) :
  storage_ok rt ->
  qrToken <> "" ->
  scheduleId <> "" ->
  HelmetReservation.id r <> "" ->
  Store.qr_by_data (db w) qrToken = Some q ->
  Store.schedule_by_id (db w) scheduleId = Some s ->
  filter (Store.for_pair (UserQRCode.userId q) scheduleId)
         (helmetReservations (db w)) = [r] ->
  HelmetReservation.status r = booked ->
  let request := ScanRoute.mkRequest (Some qrToken) (Some scheduleId) in
  let w1 := set_clock later (snd (ScanRoute.POST rt request w)) in
  ScanRoute.POST rt request w1
  = (Ok (json (ScanRoute.Result
                 (ScanRoute.mkScan false "already_checked_in"
                    "Already checked in" (Some (HelmetReservation.userName r))
                    None None None (Some (clock w)) None))), w1)
  /\ CancelRoute.DELETE rt (Some (HelmetReservation.id r)) w1
     = (Ok (json_status
              (CancelRoute.Error
                 "Cannot cancel a reservation that has already been checked in")
              400), w1).
Proof.
  intros Hok Htok Hsid Hid Hq Hs Hone Hst request w1.
  pose proof (lookup_single _ _ _ _ Hone) as Hr.
  assert (Hrun : snd (ScanRoute.POST rt request w)
                 = set_db (Store.update_reservation (HelmetReservation.id r)
                             (checked_in_at (clock w)) (db w)) w).
  { unfold request.
    erewrite scan_booked_run
      by (eassumption || apply Hok || (intros; reflexivity)).
    unfold try_catch, bind, helmetReservationService_checkIn.
    rewrite (update_ok rt _ _ _ (Hok _)). reflexivity. }
  assert (Hdb : db w1 = Store.update_reservation (HelmetReservation.id r)
                          (checked_in_at (clock w)) (db w))
    by (unfold w1; rewrite Hrun; reflexivity).
  split.
  - unfold request, ScanRoute.POST.
    cbn [ScanRoute.qrCodeData ScanRoute.scheduleId].
    rewrite (truthy_Some _ Htok), (truthy_Some _ Hsid). cbn [negb orb or_empty].
    unfold userQRCodeService_getByQRCodeData, scheduleService_getById,
      helmetReservationService_getByUserAndSchedule.
    apply try_catch_ok.
    rewrite (bind_ok _ _ _ _ _ (query_ok rt _ _ _ (Hok _))), Hdb.
    change (Store.qr_by_data (Store.update_reservation _ _ (db w)) qrToken)
      with (Store.qr_by_data (db w) qrToken). rewrite Hq.
    rewrite (bind_ok _ _ _ _ _ (query_ok rt _ _ _ (Hok _))), Hdb.
    change (Store.schedule_by_id (Store.update_reservation _ _ (db w))
              scheduleId)
      with (Store.schedule_by_id (db w) scheduleId). rewrite Hs.
    rewrite (bind_ok _ _ _ _ _ (query_ok rt _ _ _ (Hok _))), Hdb.
    rewrite (lookup_single _ _ _ (checked_in_at (clock w) r)).
    + reflexivity.
    + rewrite update_for_pair by reflexivity. rewrite Hone. cbn [map].
      now rewrite String.eqb_refl.
  - assert (Hin : In r (helmetReservations (db w))).
    { assert (H : In r [r]) by now left. rewrite <- Hone in H.
      now apply filter_In in H. }
    destruct (reservation_by_id_In _ _ Hin) as (r0 & Hfind & _).
    unfold CancelRoute.DELETE.
    rewrite (truthy_Some _ Hid). cbn [negb or_empty].
    unfold helmetReservationService_getById.
    apply try_catch_ok.
    rewrite (bind_ok _ _ _ _ _ (query_ok rt _ _ _ (Hok _))), Hdb.
    rewrite (update_by_id (HelmetReservation.id r) (checked_in_at (clock w))
               (db w) r0 ltac:(reflexivity) Hfind).
    reflexivity.
Qed.

End ScanMore.

(* ===================================================================== *)
(** * Cancellation: what it writes, and what follows it *)
(* ===================================================================== *)

Section CancelMore.
Variable rt : Runtime.

(** X4. The cancellation endpoint always answers.  When it answers 200, the
    store differs by the status of the reservations with the given id,
    now cancelled; with every other answer (400, 404 or 500) the store is
    as it was.  It sends no mail. *)
Theorem DELETE_writes_only_cancel (reservationId : option string) (w : World) :
  let run := CancelRoute.DELETE rt reservationId w in
  exists response,
    fst run = Ok response
    /\ outbox (snd run) = outbox w
    /\ ((http response = 200%nat
         /\ db (snd run)
            = Store.update_reservation (or_empty reservationId)
                (HelmetReservation.with_status cancelled) (db w))
        \/ ((http response = 400 \/ http response = 404
             \/ http response = 500)%nat
            /\ db (snd run) = db w)).
Proof.
  intros run. subst run.
  destruct (CancelRoute.DELETE rt reservationId w) as [o w'] eqn:E.
  unfold CancelRoute.DELETE, helmetReservationService_getById,
    helmetReservationService_cancel, query, update, call,
    try_catch, bind, ret, log_error, modify in E.
  exec_in E.
  all: injection E as <- <-.
  all: eexists; split; [reflexivity|]; cbn; auto 10.
Qed.

(** The run of a cancellation that goes through. *)
Lemma DELETE_run reservationId w r :
  reservationId <> "" ->
  faults rt (op_helmetReservationService_getById reservationId) = None ->
  faults rt (op_helmetReservationService_cancel reservationId) = None ->
  Store.reservation_by_id (db w) reservationId = Some r ->
  HelmetReservation.status r <> checked_in ->
  CancelRoute.DELETE rt (Some reservationId) w
  = (Ok (json (CancelRoute.Cancelled true "Reservation cancelled successfully")),
     set_db (Store.update_reservation reservationId
               (HelmetReservation.with_status cancelled) (db w)) w).
Proof.
  intros Hid F1 F2 Hr Hst. unfold CancelRoute.DELETE.
  rewrite (truthy_Some _ Hid). cbn [negb or_empty].
  unfold helmetReservationService_getById, helmetReservationService_cancel.
  apply try_catch_ok.
  rewrite (bind_ok _ _ _ _ _ (query_ok rt _ _ _ F1)), Hr.
  destruct (HelmetReservation.status r) eqn:E; try congruence;
    cbn [ReservationStatus_eqb];
    rewrite (bind_ok _ _ _ _ _ (update_ok rt _ _ _ F2)); reflexivity.
Qed.

(** X5. Cancelling a reservation that is not checked in: the answer is 200,
    the store then resolves the id to the same reservation with status
    cancelled, and the reservations with another id are as they were. *)
Theorem DELETE_cancels (reservationId : string) (w : World)
  (r : HelmetReservation.t) :
  reservationId <> "" ->
  faults rt (op_helmetReservationService_getById reservationId) = None ->
  faults rt (op_helmetReservationService_cancel reservationId) = None ->
  Store.reservation_by_id (db w) reservationId = Some r ->
  HelmetReservation.status r <> checked_in ->
  let run := CancelRoute.DELETE rt (Some reservationId) w in
  fst run
  = Ok (json (CancelRoute.Cancelled true "Reservation cancelled successfully"))
  /\ Store.reservation_by_id (db (snd run)) reservationId
     = Some (HelmetReservation.with_status cancelled r)
  /\ length (helmetReservations (db (snd run)))
     = length (helmetReservations (db w))
  /\ (forall other,
         In other (helmetReservations (db w)) ->
         HelmetReservation.id other <> reservationId ->
         In other (helmetReservations (db (snd run)))).
Proof.
  intros Hid F1 F2 Hr Hst run. unfold run.
  rewrite (DELETE_run _ _ _ Hid F1 F2 Hr Hst).
  cbn [fst snd db set_db]. split; [reflexivity|]. split; [|split].
  - now apply update_by_id.
  - unfold Store.update_reservation. cbn. apply length_map.
  - intros other Hin Hne. unfold Store.update_reservation. cbn.
    apply in_map_iff. exists other. split; [|exact Hin].
    apply String.eqb_neq in Hne. now rewrite Hne.
Qed.

(** X6. After the cancellation of the only reservation of a user and a
    schedule, a scan of the user's token for the schedule answers
    [cancelled] and writes nothing, and a new booking of the pair is
    not held to be a duplicate. *)
Theorem cancel_then_scan (qrToken scheduleId : string) (w : World)
  (q : UserQRCode.t) (s : CourseSchedule.t) (r : HelmetReservation.t) :
  storage_ok rt ->
  qrToken <> "" ->
  scheduleId <> "" ->
  HelmetReservation.id r <> "" ->
  Store.qr_by_data (db w) qrToken = Some q ->
  Store.schedule_by_id (db w) scheduleId = Some s ->
  filter (Store.for_pair (UserQRCode.userId q) scheduleId)
         (helmetReservations (db w)) = [r] ->
  Store.reservation_by_id (db w) (HelmetReservation.id r) = Some r ->
  HelmetReservation.status r = booked ->
  let w1 := snd (CancelRoute.DELETE rt (Some (HelmetReservation.id r)) w) in
  ScanRoute.POST rt (ScanRoute.mkRequest (Some qrToken) (Some scheduleId)) w1
  = (Ok (json (ScanRoute.Result
                 (ScanRoute.mkScan false "cancelled" "Reservation was cancelled"
                    (Some (HelmetReservation.userName r))
                    None None None None None))), w1)
  /\ CreateRoute.blocks_booking
       (Store.reservation_by_user_and_schedule rt (db w1)
          (UserQRCode.userId q) scheduleId) = false.
Proof.
  intros Hok Htok Hsid Hid Hq Hs Hone Hfind Hst w1.
  assert (Hdb : db w1 = Store.update_reservation (HelmetReservation.id r)
                          (HelmetReservation.with_status cancelled) (db w)).
  { unfold w1.
    rewrite (DELETE_run _ _ _ Hid (Hok _) (Hok _) Hfind)
      by (rewrite Hst; discriminate).
    reflexivity. }
  assert (Hlook : Store.reservation_by_user_and_schedule rt (db w1)
                    (UserQRCode.userId q) scheduleId
                  = Some (HelmetReservation.with_status cancelled r)).
  { rewrite Hdb. apply lookup_single.
    rewrite update_for_pair by reflexivity. rewrite Hone. cbn [map].
    now rewrite String.eqb_refl. }
  split; [|rewrite Hlook; reflexivity].
  unfold ScanRoute.POST.
  cbn [ScanRoute.qrCodeData ScanRoute.scheduleId].
  rewrite (truthy_Some _ Htok), (truthy_Some _ Hsid). cbn [negb orb or_empty].
  unfold userQRCodeService_getByQRCodeData, scheduleService_getById,
    helmetReservationService_getByUserAndSchedule.
  apply try_catch_ok.
  rewrite (bind_ok _ _ _ _ _ (query_ok rt _ _ _ (Hok _))), Hdb.
  change (Store.qr_by_data (Store.update_reservation _ _ (db w)) qrToken)
    with (Store.qr_by_data (db w) qrToken). rewrite Hq.
  rewrite (bind_ok _ _ _ _ _ (query_ok rt _ _ _ (Hok _))), Hdb.
  change (Store.schedule_by_id (Store.update_reservation _ _ (db w))
            scheduleId)
    with (Store.schedule_by_id (db w) scheduleId). rewrite Hs.
  rewrite (bind_ok _ _ _ _ _ (query_ok rt _ _ _ (Hok _))).
  rewrite Hlook. reflexivity.
Qed.

End CancelMore.

(* ===================================================================== *)
(** * Booking: what it writes, and what follows it *)
(* ===================================================================== *)

Section BookingMore.
Variable rt : Runtime.

Local Ltac unfold_booking :=
  unfold CreateRoute.POST, CreateRoute.get_or_create_QRCode,
    CreateRoute.after_create, CreateRoute.as_Date,
    userService_getById, scheduleService_getById,
    helmetReservationService_getByUserAndSchedule,
    userQRCodeService_getByUserId, QRCode_toDataURL, userQRCodeService_create,
    helmetReservationService_create, notificationService_create,
    fetch_send_email, query, update, call,
    try_catch, bind, ret, throw, gets, log_error, modify in *.

Local Ltac added_reservations :=
  first [ exists []; cbn; split; [now rewrite app_nil_r|];
          split; [lia | constructor]
        | eexists [_]; cbn; split; [reflexivity|];
          split; [lia | repeat constructor] ].

(** Every path of the booking endpoint. *)
Lemma create_frame (request : CreateRoute.Request) (w : World) :
  let run := CreateRoute.POST rt request w in
  exists response,
    fst run = Ok response
    /\ (http response = 200 \/ http response = 400 \/ http response = 404
        \/ http response = 500)%nat
    /\ users (db (snd run)) = users (db w)
    /\ courseSchedules (db (snd run)) = courseSchedules (db w)
    /\ courses (db (snd run)) = courses (db w)
    /\ (exists added,
           helmetReservations (db (snd run))
           = (helmetReservations (db w) ++ added)%list
           /\ (length added <= 1)%nat
           /\ Forall (fun r => HelmetReservation.status r = booked) added)
    /\ ((http response = 400 \/ http response = 404)%nat ->
        db (snd run) = db w /\ outbox (snd run) = outbox w).
Proof.
  intros run. subst run.
  destruct (CreateRoute.POST rt request w) as [o w'] eqn:E.
  unfold_booking. exec_in E.
  all: injection E as <- <-.
  all: eexists; split; [reflexivity|]; cbn [fst snd http json json_status].
  all: split; [auto 10|]; split; [reflexivity|]; split; [reflexivity|].
  all: split; [reflexivity|]; split; [added_reservations|].
  all: try (intros [H|H]; discriminate H).
  all: intros _; split; reflexivity.
Qed.

(** X7. The booking endpoint always answers, with status 200, 400, 404 or
    500.  Whatever it answers, it leaves the users, the schedules and the
    courses as they were and changes no reservation of the store: it adds
    one booked reservation at most.  When it answers 400 or 404 it has
    written nothing and sent no mail. *)
Theorem create_writes (request : CreateRoute.Request) (w : World) :
  let run := CreateRoute.POST rt request w in
  exists response,
    fst run = Ok response
    /\ (http response = 200 \/ http response = 400 \/ http response = 404
        \/ http response = 500)%nat
    /\ users (db (snd run)) = users (db w)
    /\ courseSchedules (db (snd run)) = courseSchedules (db w)
    /\ courses (db (snd run)) = courses (db w)
    /\ (exists added,
           helmetReservations (db (snd run))
           = (helmetReservations (db w) ++ added)%list
           /\ (length added <= 1)%nat
           /\ Forall (fun r => HelmetReservation.status r = booked) added)
    /\ ((http response = 400 \/ http response = 404)%nat ->
        db (snd run) = db w /\ outbox (snd run) = outbox w).
Proof. exact (create_frame request w). Qed.

(** X8. The checks of a booking, in their order: a missing field is answered
    400; then an unknown user 404, whether or not the schedule exists;
    then an unknown schedule 404.  In all three cases the world is as it
    was. *)
Theorem create_checks_in_order (request : CreateRoute.Request) (w : World) :
  (truthy (CreateRoute.userId request) = false
   \/ truthy (CreateRoute.scheduleId request) = false ->
   CreateRoute.POST rt request w
   = (Ok (json_status
            (CreateRoute.Error "Missing required fields: userId and scheduleId")
            400), w))
  /\ (truthy (CreateRoute.userId request) = true ->
      truthy (CreateRoute.scheduleId request) = true ->
      faults rt (op_userService_getById (or_empty (CreateRoute.userId request)))
      = None ->
      Store.user_by_id (db w) (or_empty (CreateRoute.userId request)) = None ->
      CreateRoute.POST rt request w
      = (Ok (json_status (CreateRoute.Error "User not found") 404), w))
  /\ (forall user,
         truthy (CreateRoute.userId request) = true ->
         truthy (CreateRoute.scheduleId request) = true ->
         faults rt (op_userService_getById
                      (or_empty (CreateRoute.userId request))) = None ->
         faults rt (op_scheduleService_getById
                      (or_empty (CreateRoute.scheduleId request))) = None ->
         Store.user_by_id (db w) (or_empty (CreateRoute.userId request))
         = Some user ->
         Store.schedule_by_id (db w)
           (or_empty (CreateRoute.scheduleId request)) = None ->
         CreateRoute.POST rt request w
         = (Ok (json_status (CreateRoute.Error "Schedule not found") 404), w)).
Proof.
  split; [|split].
  - intros H. unfold CreateRoute.POST. apply try_catch_ok.
    destruct H as [H|H]; rewrite H; cbn [negb orb]; [reflexivity|].
    now rewrite orb_true_r.
  - intros Hu Hs F1 Huser. unfold CreateRoute.POST. apply try_catch_ok.
    rewrite Hu, Hs. cbn [negb orb]. unfold userService_getById.
    now rewrite (bind_ok _ _ _ _ _ (query_ok rt _ _ _ F1)), Huser.
  - intros user Hu Hs F1 F2 Huser Hsched. unfold CreateRoute.POST.
    apply try_catch_ok.
    rewrite Hu, Hs. cbn [negb orb]. unfold userService_getById.
    rewrite (bind_ok _ _ _ _ _ (query_ok rt _ _ _ F1)), Huser.
    unfold scheduleService_getById.
    now rewrite (bind_ok _ _ _ _ _ (query_ok rt _ _ _ F2)), Hsched.
Qed.

Lemma filter_none {A} (p : A -> bool) l :
  (forall x, In x l -> p x = false) -> filter p l = [].
Proof.
  induction l as [|x l IH]; intros H; cbn; [reflexivity|].
  rewrite (H x (or_introl eq_refl)). apply IH. intros y Hy. apply H. now right.
Qed.

Lemma try_catch_bind_ok {S A B} (m : St S A) (k : A -> St S B) h s a s' :
  m s = (Ok a, s') -> try_catch (bind m k) h s = try_catch (k a) h s'.
Proof. intros H. unfold try_catch, bind. now rewrite H. Qed.

(** Get-or-create touches the identities and the id counter only. *)
Lemma get_or_create_keeps userId w o w1 :
  CreateRoute.get_or_create_QRCode rt userId w = (o, w1) ->
  users (db w1) = users (db w)
  /\ courseSchedules (db w1) = courseSchedules (db w)
  /\ courses (db w1) = courses (db w)
  /\ helmetReservations (db w1) = helmetReservations (db w)
  /\ notifications (db w1) = notifications (db w)
  /\ outbox w1 = outbox w
  /\ clock w1 = clock w.
Proof.
  intros E.
  unfold CreateRoute.get_or_create_QRCode, userQRCodeService_getByUserId,
    QRCode_toDataURL, userQRCodeService_create, query, call, bind, gets, ret
    in E.
  exec_in E.
  all: injection E as _ <-; repeat split.
Qed.

(** A booking that passes the checks reaches the steps that follow the
    persisting of the reservation. *)
Lemma POST_create_reaches userId scheduleId w user schedule :
  userId <> "" ->
  scheduleId <> "" ->
  booking_calls_ok rt userId scheduleId ->
  Store.user_by_id (db w) userId = Some user ->
  Store.schedule_by_id (db w) scheduleId = Some schedule ->
  CreateRoute.blocks_booking
    (Store.reservation_by_user_and_schedule rt (db w) userId scheduleId)
  = false ->
  exists q w1,
    CreateRoute.get_or_create_QRCode rt userId w = (Ok (Some q), w1)
    /\ helmetReservations (db w1) = helmetReservations (db w)
    /\ notifications (db w1) = notifications (db w)
    /\ outbox w1 = outbox w
    /\ CreateRoute.POST rt
         (CreateRoute.mkRequest (Some userId) (Some scheduleId)) w
       = try_catch
           (CreateRoute.after_create rt user schedule userId q (fresh_id w1))
           (fun error =>
              log_error ["Error creating helmet reservation:"; error] ;;;
              ret (json_status
                     (CreateRoute.Error
                        (message_or error "Internal server error")) 500))
           (bump_docId
              (set_db (set_helmetReservations
                         (helmetReservations (db w1)
                            ++ [HelmetReservation.with_id (fresh_id w1)
                                  (CreateRoute.reservation_data user schedule
                                     userId scheduleId (clock w1) q)])%list
                         (db w1)) w1)).
Proof.
  intros Hu Hs (F1 & F2 & F3 & F4 & F5 & F6 & F7 & F8) Huser Hsched Hfree.
  assert (Hget : exists q w1,
             CreateRoute.get_or_create_QRCode rt userId w = (Ok (Some q), w1)
             /\ helmetReservations (db w1) = helmetReservations (db w)
             /\ notifications (db w1) = notifications (db w)
             /\ outbox w1 = outbox w).
  { destruct (Store.qr_by_user (db w) userId) as [q|] eqn:Hq.
    - exists q, w. rewrite (get_or_create_existing rt _ _ _ F4 Hq). auto.
    - eexists _, _. rewrite (get_or_create_fresh rt _ _ F4 F5 F6 Hq).
      repeat split. }
  destruct Hget as (q & w1 & Hq & Hres & Hnot & Hout).
  exists q, w1. repeat (split; [assumption|]).
  unfold CreateRoute.POST. cbn [CreateRoute.userId CreateRoute.scheduleId].
  rewrite (truthy_Some _ Hu), (truthy_Some _ Hs). cbn [negb orb or_empty].
  unfold userService_getById.
  rewrite (try_catch_bind_ok _ _ _ _ _ _ (query_ok rt _ _ _ F1)), Huser.
  unfold scheduleService_getById.
  rewrite (try_catch_bind_ok _ _ _ _ _ _ (query_ok rt _ _ _ F2)), Hsched.
  unfold helmetReservationService_getByUserAndSchedule.
  rewrite (try_catch_bind_ok _ _ _ _ _ _ (query_ok rt _ _ _ F3)), Hfree.
  rewrite (try_catch_bind_ok _ _ _ _ _ _ Hq).
  rewrite (try_catch_bind_ok (gets clock) _ _ w1 (clock w1) w1 eq_refl).
  unfold helmetReservationService_create.
  cbn [CreateRoute.reservation_data HelmetReservation.userId
         HelmetReservation.scheduleId].
  rewrite (try_catch_bind_ok _ _ _ _ _ _ (call_ok rt _ _ _ F7)).
  reflexivity.
Qed.

Lemma as_Date_no_toDate field v w :
  no_toDate v -> exists e, CreateRoute.as_Date field v w = (Throw e, w).
Proof.
  intros [-> | [[raw ->] | [n ->]]]; eexists; reflexivity.
Qed.

(** X9. A schedule whose start or end is neither a date nor a timestamp: the
    booking persists the reservation, then fails while it formats the
    dates.  The answer is 500, the reservation is in the store with
    status booked, and neither the notification nor the mail is sent.
    When the pair had no reservation before, the same request sent again
    is refused with 400 as a duplicate. *)
Theorem create_without_dates (userId scheduleId : string) (w : World)
  (user : User.t) (schedule : CourseSchedule.t) :
  userId <> "" ->
  scheduleId <> "" ->
  booking_calls_ok rt userId scheduleId ->
  Store.user_by_id (db w) userId = Some user ->
  Store.schedule_by_id (db w) scheduleId = Some schedule ->
  CreateRoute.blocks_booking
    (Store.reservation_by_user_and_schedule rt (db w) userId scheduleId)
  = false ->
  no_toDate (CourseSchedule.startTime schedule)
  \/ ((exists d, converts (CourseSchedule.startTime schedule) d)
      /\ no_toDate (CourseSchedule.endTime schedule)) ->
  let request := CreateRoute.mkRequest (Some userId) (Some scheduleId) in
  exists e w' r,
    CreateRoute.POST rt request w
    = (Ok (json_status (CreateRoute.Error e) 500), w')
    /\ helmetReservations (db w') = (helmetReservations (db w) ++ [r])%list
    /\ HelmetReservation.userId r = userId
    /\ HelmetReservation.scheduleId r = scheduleId
    /\ HelmetReservation.status r = booked
    /\ notifications (db w') = notifications (db w)
    /\ outbox w' = outbox w
    /\ ((forall r0, In r0 (helmetReservations (db w)) ->
                    Store.for_pair userId scheduleId r0 = false) ->
        CreateRoute.POST rt request w'
        = (Ok (json_status
                 (CreateRoute.Error
                    "You already have a reservation for this class") 400),
           w')).
Proof.
  intros Hu Hs Hcalls Huser Hsched Hfree Hdates request.
  destruct (POST_create_reaches userId scheduleId w user schedule
              Hu Hs Hcalls Huser Hsched Hfree)
    as (q & w1 & Hq & Hres & Hnot & Hout & Hpost).
  set (r := HelmetReservation.with_id (fresh_id w1)
              (CreateRoute.reservation_data user schedule userId scheduleId
                 (clock w1) q)) in *.
  set (w2 := bump_docId _) in Hpost.
  assert (Hthrow : exists e,
             CreateRoute.after_create rt user schedule userId q (fresh_id w1) w2
             = (Throw e, w2)).
  { unfold CreateRoute.after_create.
    destruct Hdates as [H | [[d Hd] H]].
    - destruct (as_Date_no_toDate "schedule.startTime" _ w2 H) as [e He].
      exists e. now rewrite (bind_throw _ _ _ _ _ He).
    - destruct (as_Date_no_toDate "schedule.endTime" _ w2 H) as [e He].
      exists e. rewrite (bind_ok _ _ _ _ _ (as_Date_converts _ _ _ w2 Hd)).
      now rewrite (bind_throw _ _ _ _ _ He). }
  destruct Hthrow as [e He].
  exists (message_or e "Internal server error"),
    (push_console (console_error ["Error creating helmet reservation:"; e]) w2),
    r.
  split; [|split; [|split; [|split; [|split; [|split; [|split]]]]]].
  - unfold request. rewrite Hpost. unfold try_catch. rewrite He. reflexivity.
  - cbn. now rewrite Hres.
  - reflexivity.
  - reflexivity.
  - reflexivity.
  - cbn. exact Hnot.
  - cbn. exact Hout.
  - intros Hnone. destruct Hcalls as (F1 & F2 & F3 & _).
    unfold request, CreateRoute.POST.
    cbn [CreateRoute.userId CreateRoute.scheduleId].
    rewrite (truthy_Some _ Hu), (truthy_Some _ Hs). cbn [negb orb or_empty].
    apply try_catch_ok.
    unfold userService_getById.
    rewrite (bind_ok _ _ _ _ _ (query_ok rt _ _ _ F1)).
    assert (Hw : db (push_console
                       (console_error
                          ["Error creating helmet reservation:"; e]) w2)
                 = set_helmetReservations
                     (helmetReservations (db w1) ++ [r])%list (db w1))
      by reflexivity.
    rewrite Hw.
    destruct (get_or_create_keeps _ _ _ _ Hq) as (Husers & Hscheds & _).
    unfold Store.user_by_id. cbn [users set_helmetReservations].
    rewrite Husers. fold (Store.user_by_id (db w) userId). rewrite Huser.
    unfold scheduleService_getById.
    rewrite (bind_ok _ _ _ _ _ (query_ok rt _ _ _ F2)), Hw.
    unfold Store.schedule_by_id. cbn [courseSchedules set_helmetReservations].
    rewrite Hscheds. fold (Store.schedule_by_id (db w) scheduleId).
    rewrite Hsched.
    unfold helmetReservationService_getByUserAndSchedule.
    rewrite (bind_ok _ _ _ _ _ (query_ok rt _ _ _ F3)), Hw.
    rewrite (lookup_single rt _ _ _ r); [reflexivity|].
    cbn [helmetReservations set_helmetReservations].
    rewrite Hres, filter_app.
    assert (Hempty : filter (Store.for_pair userId scheduleId)
                            (helmetReservations (db w)) = []).
    { now apply filter_none. }
    rewrite Hempty. cbn. unfold Store.for_pair. cbn.
    now rewrite !String.eqb_refl.
Qed.


End BookingMore.

(* ===================================================================== *)
(** * The reservations of a user *)
(* ===================================================================== *)

Section ListingMore.
Variable rt : Runtime.
Variable fault : string -> option string.

(** X11. The listing endpoint always answers, with status 200, 400 or 500,
    and never writes.  When it answers 200 for a user, it lists the
    reservations of that user, all of them and no other, in the order of
    the store; the image and the token are those of the identity that
    the store resolves for the user, and both are [null] when the user
    has none. *)
Theorem user_GET_reads (userId : option string) (w : World) :
  let run := UserRoute.GET rt fault userId w in
  exists response,
    fst run = Ok response
    /\ db (snd run) = db w
    /\ outbox (snd run) = outbox w
    /\ (http response = 200 \/ http response = 400 \/ http response = 500)%nat
    /\ (http response = 200%nat ->
        exists listed qrCode qrCodeData,
          body response = UserRoute.Listing true listed qrCode qrCodeData
          /\ (forall r, In r listed
                        <-> In r (helmetReservations (db w))
                            /\ HelmetReservation.userId r = or_empty userId)
          /\ qrCode
             = UserRoute.or_null
                 (option_map UserQRCode.qrCodeImage
                    (Store.qr_by_user (db w) (or_empty userId)))
          /\ qrCodeData
             = UserRoute.or_null
                 (option_map UserQRCode.qrCodeData
                    (Store.qr_by_user (db w) (or_empty userId)))
          /\ (Store.qr_by_user (db w) (or_empty userId) = None ->
              qrCode = None /\ qrCodeData = None)).
Proof.
  intros run. subst run.
  destruct (UserRoute.GET rt fault userId w) as [o w'] eqn:E.
  unfold UserRoute.GET, UserRoute.helmetReservationService_getByUserId,
    userQRCodeService_getByUserId, query, call,
    try_catch, bind, ret, log_error, modify in E.
  exec_in E.
  all: injection E as <- <-.
  all: eexists; split; [reflexivity|]; cbn [fst snd http json json_status db
                                             outbox push_console body].
  all: split; [reflexivity|]; split; [reflexivity|]; split; [auto|].
  all: try (intros H; discriminate H).
  all: intros _; eexists _, _, _; split; [reflexivity|].
  all: split; [|split; [reflexivity|split; [reflexivity|]]].
  all: try (intros r; rewrite filter_In, String.eqb_eq; reflexivity).
  all: intros ->; split; reflexivity.
Qed.

(** X12. Booking, then listing.  After a booking that goes through, the
    listing of the user ends with the new reservation, and the token it
    returns is the token stored in that reservation; the image it returns
    is the image that the booking returned. *)
Theorem book_then_list (userId scheduleId : string) (w : World)
  (user : User.t) (schedule : CourseSchedule.t) (classDate endTime : JsDate) :
  storage_ok rt ->
  fault userId = None ->
  userId <> "" ->
  scheduleId <> "" ->
  Store.user_by_id (db w) userId = Some user ->
  Store.schedule_by_id (db w) scheduleId = Some schedule ->
  CreateRoute.blocks_booking
    (Store.reservation_by_user_and_schedule rt (db w) userId scheduleId)
  = false ->
  converts (CourseSchedule.startTime schedule) classDate ->
  converts (CourseSchedule.endTime schedule) endTime ->
  let booking :=
    CreateRoute.POST rt (CreateRoute.mkRequest (Some userId) (Some scheduleId))
                     w in
  exists reservationId qrCode token earlier r,
    fst booking
    = Ok (json (CreateRoute.Created true reservationId qrCode
                  "Helmet reservation created successfully"))
    /\ fst (UserRoute.GET rt fault (Some userId) (snd booking))
       = Ok (json (UserRoute.Listing true (earlier ++ [r])%list
                     (UserRoute.or_null (Some qrCode))
                     (UserRoute.or_null (Some token))))
    /\ HelmetReservation.id r = reservationId
    /\ HelmetReservation.qrCode r = token
    /\ HelmetReservation.scheduleId r = scheduleId
    /\ HelmetReservation.status r = booked.
Proof.
  intros Hok Hf Hu Hs Huser Hsched Hfree Hd1 Hd2 booking.
  assert (Hcalls : booking_calls_ok rt userId scheduleId)
    by (repeat split; intros; apply Hok).
  destruct (POST_create_ok rt userId scheduleId w user schedule classDate
              endTime Hu Hs Hcalls Huser Hsched Hfree Hd1 Hd2)
    as (q & w1 & w' & Hget & Hpost & Hres & Hqr & _).
  pose proof (get_or_create_result rt _ _ _ _ Hget) as Hq.
  subst booking. rewrite Hpost. cbn [fst snd].
  eexists _, _, (UserQRCode.qrCodeData q), _, _.
  split; [reflexivity|]. split; [|repeat split].
  unfold UserRoute.GET. rewrite (truthy_Some _ Hu). cbn [negb or_empty].
  unfold try_catch, bind, UserRoute.helmetReservationService_getByUserId.
  rewrite Hf. unfold userQRCodeService_getByUserId.
  rewrite (query_ok rt _ _ _ (Hok _)).
  unfold Store.qr_by_user in *. rewrite Hqr, Hq. cbn [option_map ret fst].
  rewrite Hres, filter_app. cbn [filter CreateRoute.reservation_data
    HelmetReservation.userId HelmetReservation.with_id].
  rewrite String.eqb_refl. reflexivity.
  all: reflexivity.
Qed.

End ListingMore.

(* ===================================================================== *)
(** * Bulk deletion: the reservations *)
(* ===================================================================== *)

Lemma active_booked r :
  active r = true <-> HelmetReservation.status r = booked.
Proof.
  unfold active. destruct (HelmetReservation.status r); cbn;
    split; intros H; (reflexivity || discriminate H).
Qed.

Lemma cancel_ids_app a b r :
  cancel_ids b (cancel_ids a r) = cancel_ids (a ++ b) r.
Proof.
  unfold cancel_ids. rewrite existsb_app.
  destruct (existsb (String.eqb (HelmetReservation.id r)) a); cbn [orb].
  - change (HelmetReservation.id (HelmetReservation.with_status cancelled r))
      with (HelmetReservation.id r).
    destruct (existsb (String.eqb (HelmetReservation.id r)) b); reflexivity.
  - reflexivity.
Qed.

Lemma cancel_ids_id ids r :
  HelmetReservation.id (cancel_ids ids r) = HelmetReservation.id r.
Proof. unfold cancel_ids. now destruct (existsb _ ids). Qed.

(** A reservation that is still booked after a cancellation has not
    been touched by it. *)
Lemma cancel_ids_booked ids r :
  HelmetReservation.status (cancel_ids ids r) = booked -> cancel_ids ids r = r.
Proof.
  unfold cancel_ids. destruct (existsb _ ids); [discriminate | reflexivity].
Qed.

Lemma map_cancel_ids_nil l : map (cancel_ids []) l = l.
Proof. induction l as [|r l IH]; cbn; [|rewrite IH]; reflexivity. Qed.

Lemma cancels_ids_same w w' :
  db w' = db w -> outbox w' = outbox w -> cancels_ids [] w w'.
Proof.
  intros H1 H2. unfold cancels_ids. rewrite H1, H2, map_cancel_ids_nil.
  repeat split.
Qed.

Lemma cancels_ids_trans a b w w1 w2 :
  cancels_ids a w w1 -> cancels_ids b w1 w2 -> cancels_ids (a ++ b) w w2.
Proof.
  intros (A1 & A2 & A3 & A4 & A5 & A6) (B1 & B2 & B3 & B4 & B5 & B6).
  unfold cancels_ids. rewrite B1, A1, map_map.
  split; [|repeat split; congruence].
  apply map_ext. intros r. apply cancel_ids_app.
Qed.

(** When ids are unique, two documents of the list with the same id are
    the same document. *)
Lemma NoDup_map_eq {A B} (f : A -> B) l a b :
  NoDup (map f l) -> In a l -> In b l -> f a = f b -> a = b.
Proof.
  induction l as [|x l IH]; cbn; intros Hn Ha Hb Hf; [contradiction|].
  inversion Hn as [|y m Hx Hn']; subst.
  destruct Ha as [<-|Ha], Hb as [<-|Hb]; auto.
  - exfalso. apply Hx. rewrite Hf. now apply in_map.
  - exfalso. apply Hx. rewrite <- Hf. now apply in_map.
Qed.

(** With unique ids, cancelling the ids of the documents that pass a
    test cancels those documents and no other. *)
Lemma cancel_ids_filter (q : HelmetReservation.t -> bool) l :
  NoDup (map HelmetReservation.id l) ->
  map (cancel_ids (map HelmetReservation.id (filter q l))) l
  = map (fun r => if q r then HelmetReservation.with_status cancelled r else r)
        l.
Proof.
  intros Hn. apply map_ext_in. intros r Hr. unfold cancel_ids.
  destruct (q r) eqn:Q.
  - replace (existsb _ _) with true; [reflexivity|].
    symmetry. apply existsb_exists. exists (HelmetReservation.id r).
    split; [|apply String.eqb_refl].
    apply in_map. apply filter_In. now split.
  - replace (existsb _ _) with false; [reflexivity|].
    symmetry. apply not_true_is_false. intros H.
    apply existsb_exists in H. destruct H as (i & Hi & He).
    apply String.eqb_eq in He. apply in_map_iff in Hi.
    destruct Hi as (r0 & Hid & Hin). apply filter_In in Hin.
    destruct Hin as [Hin Hq].
    assert (r0 = r) by (apply (NoDup_map_eq _ _ _ _ Hn Hin Hr); congruence).
    subst r0. congruence.
Qed.

Section BulkMore.
Variable rt : Runtime.

(** The inner loop, from any state: it cancels the active reservations
    of the list in their order, up to the first cancellation that is
    refused, and counts them. *)
Lemma cancel_loop rs :
  forall w t,
  exists o w' t' done rest,
    for_of rs (BulkDelete.cancel_if_active rt) (w, t) = (o, (w', t'))
    /\ filter active rs = (done ++ rest)%list
    /\ cancels_ids (map HelmetReservation.id done) w w'
    /\ BulkDelete.cancelledReservationsCount t'
       = (BulkDelete.cancelledReservationsCount t + length done)%nat
    /\ (storage_ok rt -> o = Ok tt /\ rest = []).
Proof.
  induction rs as [|r rs IH]; intros w t.
  - exists (Ok tt), w, t, [], []. cbn. repeat split; auto.
    now apply cancels_ids_same.
  - cbn [for_of filter]. unfold bind at 1.
    unfold BulkDelete.cancel_if_active at 1. fold (active r).
    destruct (active r) eqn:A.
    + unfold bind at 1, BulkDelete.lift, helmetReservationService_cancel,
        update, call. cbn [fst snd].
      destruct (faults rt (op_helmetReservationService_cancel
                             (HelmetReservation.id r))) as [e|] eqn:F.
      * exists (Throw e), w, t, [], (r :: filter active rs). cbn.
        repeat split; auto.
        -- now apply cancels_ids_same.
        -- rewrite (H _) in F. discriminate.
        -- rewrite (H _) in F. discriminate.
      * cbn.
        match goal with
        | |- context [for_of rs _ (?w1, ?t1)] =>
            destruct (IH w1 t1)
              as (o & w' & t' & done & rest & H & Hf & Hc & Hn & Hok)
        end.
        exists o, w', t', (r :: done), rest. rewrite H, Hf.
        split; [reflexivity|]. split; [reflexivity|]. split; [|split].
        -- change (map HelmetReservation.id (r :: done))
             with ([HelmetReservation.id r]
                     ++ map HelmetReservation.id done)%list.
           eapply cancels_ids_trans; [|exact Hc].
           unfold cancels_ids. cbn. repeat split.
           apply map_ext. intros x. unfold cancel_ids. cbn [existsb].
           now rewrite orb_false_r.
        -- rewrite Hn. cbn. lia.
        -- exact Hok.
    + cbn.
      destruct (IH w t) as (o & w' & t' & done & rest & H & Hf & Hc & Hn & Hok).
      exists o, w', t', done, rest. now rewrite H.
Qed.


(** The inner block for one schedule. *)
Lemma cancel_all_run schedule w t :
  exists o w' t' done rest,
    BulkDelete.cancel_all rt schedule (w, t) = (o, (w', t'))
    /\ filter active
         (Store.reservations_by_schedule (db w) (CourseSchedule.id schedule))
       = (done ++ rest)%list
    /\ cancels_ids (map HelmetReservation.id done) w w'
    /\ BulkDelete.cancelledReservationsCount t'
       = (BulkDelete.cancelledReservationsCount t + length done)%nat
    /\ (storage_ok rt -> o = Ok tt /\ rest = []).
Proof.
  unfold BulkDelete.cancel_all, bind, BulkDelete.lift,
    helmetReservationService_getByScheduleId, query, call. cbn [fst snd].
  destruct (faults rt (op_helmetReservationService_getByScheduleId
                         (CourseSchedule.id schedule))) as [e|] eqn:F.
  - exists (Throw e), w, t, [],
      (filter active
         (Store.reservations_by_schedule (db w) (CourseSchedule.id schedule))).
    cbn. repeat split; auto.
    + now apply cancels_ids_same.
    + rewrite (H _) in F. discriminate.
    + rewrite (H _) in F. discriminate.
  - apply cancel_loop.
Qed.

(** One iteration of the deletion loop, read on the reservations. *)
Lemma delete_schedule_run schedule w t :
  exists w' t' done rest,
    BulkDelete.delete_schedule rt schedule (w, t) = (Ok tt, (w', t'))
    /\ filter active
         (Store.reservations_by_schedule (db w) (CourseSchedule.id schedule))
       = (done ++ rest)%list
    /\ cancels_ids (map HelmetReservation.id done) w w'
    /\ BulkDelete.cancelledReservationsCount t'
       = (BulkDelete.cancelledReservationsCount t + length done)%nat
    /\ (storage_ok rt -> rest = []).
Proof.
  destruct (cancel_all_run schedule w t)
    as (o & w1 & t1 & done & rest & H & Hf & Hc & Hn & Hok).
  unfold BulkDelete.delete_schedule, BulkDelete.cancel_reservations,
    try_catch, bind. rewrite H.
  unfold BulkDelete.lift, deleteDoc_courseSchedules, update, call, log,
    log_error, modify, BulkDelete.incr_deletedCount, BulkDelete.errors_push,
    BulkDelete.on_tally, modify.
  destruct Hc as (C1 & C2 & C3 & C4 & C5 & C6).
  destruct o as [[]|e]; cbn [fst snd];
    destruct (faults rt (op_deleteDoc_courseSchedules
                           (CourseSchedule.id schedule))) as [e'|];
    cbn [fst snd];
    eexists _, _, done, rest; (split; [reflexivity|]);
    (split; [exact Hf|]); (split; [|split; [exact Hn | apply Hok]]);
    unfold cancels_ids; cbn; repeat split; assumption.
Qed.

(** The deletion loop, from any state and whatever fails: it only
    cancels reservations, and only reservations that were booked for one
    of the schedules of the loop. *)
Lemma delete_loop_run schedules :
  forall w t,
  exists w' t' ids,
    for_of schedules (BulkDelete.delete_schedule rt) (w, t)
    = (Ok tt, (w', t'))
    /\ cancels_ids ids w w'
    /\ (forall id, In id ids ->
                   booked_for (helmetReservations (db w)) schedules id).
Proof.
  induction schedules as [|s rest IH]; intros w t.
  - exists w, t, []. split; [reflexivity|]. split.
    + now apply cancels_ids_same.
    + intros id [].
  - destruct (delete_schedule_run s w t)
      as (w1 & t1 & done & left & H1 & Hf & Hc & _ & _).
    destruct (IH w1 t1) as (w' & t' & ids & H2 & Hc2 & Hb).
    exists w', t', (map HelmetReservation.id done ++ ids)%list.
    cbn [for_of]. rewrite (bind_ok _ _ _ _ _ H1).
    split; [exact H2|]. split; [eapply cancels_ids_trans; eassumption|].
    intros id Hin. apply in_app_or in Hin. destruct Hin as [Hin|Hin].
    + apply in_map_iff in Hin. destruct Hin as (r & <- & Hr).
      assert (Hr' : In r (filter active
                            (Store.reservations_by_schedule
                               (db w) (CourseSchedule.id s))))
        by (rewrite Hf; apply in_or_app; now left).
      apply filter_In in Hr'. destruct Hr' as [Hr' Ha].
      apply filter_In in Hr'. destruct Hr' as [Hr' Hs].
      exists r. split; [exact Hr'|]. split; [reflexivity|].
      split; [now apply active_booked|].
      unfold reserved_for. cbn [existsb]. now rewrite Hs.
    + destruct (Hb id Hin) as (r' & Hr' & Hid & Hst & Hfor).
      destruct Hc as (C1 & _). rewrite C1 in Hr'.
      apply in_map_iff in Hr'. destruct Hr' as (r & <- & Hr).
      pose proof (cancel_ids_booked _ _ Hst) as Heq. rewrite Heq in *.
      exists r. split; [exact Hr|]. split; [exact Hid|].
      split; [exact Hst|].
      unfold reserved_for in *. cbn [existsb]. rewrite Hfor.
      apply orb_true_r.
Qed.

Lemma cancel_for_step s rest r :
  cancel_for rest (cancel_for [s] r) = cancel_for (s :: rest) r.
Proof.
  unfold cancel_for, reserved_for. cbn [existsb]. rewrite orb_false_r.
  destruct (active r) eqn:A; cbn [andb]; [|now rewrite A].
  destruct (HelmetReservation.scheduleId r =? CourseSchedule.id s) eqn:E;
    cbn [orb].
  - reflexivity.
  - rewrite A. reflexivity.
Qed.

Lemma count_for_step s rest l :
  (length (filter (fun r => active r && reserved_for [s] r) l)
   + length (filter (fun r => active r && reserved_for rest r)
                    (map (cancel_for [s]) l)))%nat
  = length (filter (fun r => active r && reserved_for (s :: rest) r) l).
Proof.
  unfold cancel_for, reserved_for. cbn [existsb].
  induction l as [|r l IH]; [reflexivity|].
  cbn [map filter].
  destruct (active r) eqn:A; cbn [andb].
  - destruct (HelmetReservation.scheduleId r =? CourseSchedule.id s) eqn:E;
      cbn [orb andb].
    + change (active (HelmetReservation.with_status cancelled r)) with false.
      cbn [andb length]. rewrite <- IH. lia.
    + change (HelmetReservation.scheduleId r) with
        (HelmetReservation.scheduleId r).
      rewrite A. cbn [andb].
      destruct (existsb _ rest); cbn [length]; rewrite <- IH; lia.
  - rewrite A. cbn [andb]. exact IH.
Qed.

(** The deletion loop when no call fails and ids are unique: every
    active reservation of one of the schedules is cancelled and counted,
    and no other reservation changes. *)
Lemma delete_loop_cascade schedules :
  storage_ok rt ->
  forall w t,
  NoDup (map HelmetReservation.id (helmetReservations (db w))) ->
  exists w' t',
    for_of schedules (BulkDelete.delete_schedule rt) (w, t)
    = (Ok tt, (w', t'))
    /\ helmetReservations (db w')
       = map (cancel_for schedules) (helmetReservations (db w))
    /\ BulkDelete.cancelledReservationsCount t'
       = (BulkDelete.cancelledReservationsCount t
          + length (filter (fun r => active r && reserved_for schedules r)
                           (helmetReservations (db w))))%nat.
Proof.
  intros Hok. induction schedules as [|s rest IH]; intros w t Hn.
  - exists w, t. split; [reflexivity|]. split.
    + unfold cancel_for, reserved_for. cbn [existsb].
      symmetry. erewrite map_ext; [apply map_id|].
      intros r. now rewrite andb_false_r.
    + unfold reserved_for. cbn [existsb].
      erewrite filter_ext_bool by (intros r; apply andb_false_r).
      assert (E : forall l : list HelmetReservation.t,
                 filter (fun _ => false) l = [])
        by (induction l; auto).
      rewrite E. cbn. lia.
  - destruct (delete_schedule_run s w t)
      as (w1 & t1 & done & left & H1 & Hf & (C1 & _) & Hc & Hl).
    rewrite (Hl Hok), app_nil_r in Hf. subst done.
    unfold Store.reservations_by_schedule in *.
    rewrite filter_filter in C1, Hc.
    rewrite (cancel_ids_filter _ _ Hn) in C1.
    assert (S1 : helmetReservations (db w1)
                 = map (cancel_for [s]) (helmetReservations (db w))).
    { rewrite C1. apply map_ext. intros r. unfold cancel_for, reserved_for.
      cbn [existsb]. now rewrite orb_false_r, andb_comm. }
    assert (Hn1 : NoDup (map HelmetReservation.id (helmetReservations (db w1)))).
    { rewrite C1, map_map. erewrite map_ext; [exact Hn|].
      intros r. cbn. now destruct (_ && _). }
    destruct (IH w1 t1 Hn1) as (w' & t' & H2 & R2 & N2).
    exists w', t'. cbn [for_of]. rewrite (bind_ok _ _ _ _ _ H1).
    split; [exact H2|]. split.
    + rewrite R2, S1, map_map. apply map_ext. intros r.
      apply cancel_for_step.
    + rewrite N2, Hc, S1, <- count_for_step.
      rewrite <- Nat.add_assoc. f_equal. f_equal. f_equal.
      apply filter_ext_bool. intros r. unfold reserved_for. cbn [existsb].
      now rewrite orb_false_r, andb_comm.
Qed.

(** ** The selection *)

Lemma reads_refl w : reads w w.
Proof. split; reflexivity. Qed.

Lemma reads_trans x y z : reads x y -> reads y z -> reads x z.
Proof. intros [A B] [C D]. split; congruence. Qed.

Lemma only_reads_query {A} op (f : Db -> A) : sat reads (query rt op f).
Proof. apply sat_query. apply reads_refl. Qed.

Lemma only_reads_log args : sat reads (log args).
Proof. intros w. split; reflexivity. Qed.

Lemma only_reads_log_error args : sat reads (log_error args).
Proof. intros w. split; reflexivity. Qed.

#[local] Hint Resolve reads_refl reads_trans only_reads_query only_reads_log
  only_reads_log_error : frame.

(** The selection reads the store, and sends nothing. *)
Lemma select_only_reads request : sat reads (BulkDelete.select rt request).
Proof.
  unfold BulkDelete.select, BulkDelete.filter_by_owner,
    BulkDelete.filter_by_date, BulkDelete.in_date_range,
    getDocs_courseSchedules, courseService_getById, courseService_getAll.
  frame.
Qed.

(** A filter keeps elements of its list only. *)
Lemma filterM_In {A} (f : A -> M bool) l :
  forall w kept w',
    BulkDelete.filterM f l w = (Ok kept, w') ->
    forall x, In x kept -> In x l.
Proof.
  induction l as [|a l IH]; cbn [BulkDelete.filterM]; intros w kept w' H x Hx.
  - injection H as <- _. exact Hx.
  - unfold bind, ret in H.
    destruct (f a w) as [[keep|e] w1]; [|discriminate H].
    destruct (BulkDelete.filterM f l w1) as [[kept'|e] w2] eqn:E;
      [|discriminate H].
    injection H as <- _.
    destruct keep; [destruct Hx as [<-|Hx]; [now left|]|];
      right; eapply IH; eassumption.
Qed.

(** The ownership test, read as a statement. *)
Lemma owned_by_owned d coach s :
  coach <> "" ->
  BulkDelete.owned_by coach (courses d) s = true -> owned d coach s.
Proof.
  intros Hc. unfold BulkDelete.owned_by, owned.
  destruct (CourseSchedule.createdBy s) as [by_|]; cbn [truthy String_of].
  - destruct (by_ =? "") eqn:E; cbn [negb].
    + apply String.eqb_eq in E. subst by_.
      destruct ("" =? coach) eqn:E'.
      * apply String.eqb_eq in E'. now subst coach.
      * intros H. right.
        destruct (find _ (courses d)) as [c|] eqn:F; [|discriminate H].
        apply find_some in F. destruct F as [Hin Hid].
        exists c. repeat split; [exact Hin | now apply String.eqb_eq
                                | now apply String.eqb_eq].
    + destruct (by_ =? coach) eqn:E'.
      * apply String.eqb_eq in E'. subst by_. now left.
      * intros H. right.
        destruct (find _ (courses d)) as [c|] eqn:F; [|discriminate H].
        apply find_some in F. destruct F as [Hin Hid].
        exists c. repeat split; [exact Hin | now apply String.eqb_eq
                                | now apply String.eqb_eq].
  - destruct ("" =? coach) eqn:E'.
    + apply String.eqb_eq in E'. now subst coach.
    + intros H. right.
      destruct (find _ (courses d)) as [c|] eqn:F; [|discriminate H].
      apply find_some in F. destruct F as [Hin Hid].
      exists c. repeat split; [exact Hin | now apply String.eqb_eq
                              | now apply String.eqb_eq].
Qed.

(** What the owner filter lets through. *)
Lemma filter_by_owner_selectable request all w owned_ w1 :
  truthy (BulkDelete.coachId request) = true ->
  BulkDelete.filter_by_owner rt request all w = (Ok (inr owned_), w1) ->
  forall s, In s owned_ ->
            In s all
            /\ (exists coach, BulkDelete.coachId request = Some coach
                              /\ coach <> ""
                              /\ owned (db w) coach s)
            /\ (truthy (BulkDelete.courseId request) = true ->
                String_of (CourseSchedule.courseId s)
                = or_empty (BulkDelete.courseId request)).
Proof.
  intros Hc H s Hs.
  destruct (truthy_inv _ Hc) as (coach & Hcoach & Hne).
  unfold BulkDelete.filter_by_owner, courseService_getById,
    courseService_getAll, query, call, log, modify, bind, ret in H.
  rewrite Hcoach in H. cbn [String_of] in H.
  destruct (truthy (BulkDelete.courseId request)) eqn:Tc.
  - destruct (faults rt _); [discriminate H|].
    destruct (Store.course_by_id (db w) _) as [c|] eqn:F; [|discriminate H].
    destruct (negb _) eqn:N; [discriminate H|].
    injection H as <- _. apply filter_In in Hs. destruct Hs as [Hin Hcourse].
    apply negb_false_iff, String.eqb_eq in N.
    apply String.eqb_eq in Hcourse.
    apply find_some in F. destruct F as [Fin Fid].
    apply String.eqb_eq in Fid.
    split; [exact Hin|]. split.
    + exists coach. split; [exact Hcoach|]. split; [exact Hne|].
      right. exists c. repeat split; [exact Fin | congruence | exact N].
    + intros _. exact Hcourse.
  - destruct (faults rt _); [discriminate H|].
    injection H as <- _. apply filter_In in Hs. destruct Hs as [Hin Ho].
    split; [exact Hin|]. split.
    + exists coach. split; [exact Hcoach|]. split; [exact Hne|].
      now apply owned_by_owned.
    + intros K. discriminate K.
Qed.

(** What the date filter lets through was in its list. *)
Lemma filter_by_date_In request l w kept w1 :
  BulkDelete.filter_by_date rt request l w = (Ok kept, w1) ->
  forall s, In s kept -> In s l.
Proof.
  unfold BulkDelete.filter_by_date.
  destruct (truthy _ || truthy _).
  - unfold bind, log, modify, ret.
    destruct (BulkDelete.filterM _ l w) as [[kept'|e] w2] eqn:E;
      [|discriminate].
    intros H. injection H as <- _. eapply filterM_In. exact E.
  - unfold ret. intros H. injection H as <- _. auto.
Qed.

(** Every schedule that the selection returns is a schedule of the
    store that the coach of the request owns, and is of the course of
    the request when it names one. *)
Lemma select_selectable request w schedules w1 :
  BulkDelete.select rt request w = (Ok (inr schedules), w1) ->
  forall s, In s schedules -> selectable (db w) request s.
Proof.
  intros H s Hs. unfold BulkDelete.select in H.
  unfold bind at 1, log at 1, modify at 1 in H.
  destruct (negb (truthy (BulkDelete.coachId request))) eqn:Tc;
    [discriminate H|].
  apply negb_false_iff in Tc.
  destruct (_ && _); [discriminate H|].
  unfold bind at 1, getDocs_courseSchedules, query, call in H.
  destruct (faults rt op_getDocs_courseSchedules); [discriminate H|].
  unfold bind at 1, log at 1, modify at 1 in H.
  unfold bind at 1 in H.
  match type of H with
  | context [BulkDelete.filter_by_owner rt request ?all ?w0] =>
      destruct (BulkDelete.filter_by_owner rt request all w0)
        as [[[early|owned_]|e] w2] eqn:E; [discriminate H| |discriminate H]
  end.
  unfold bind at 1 in H.
  destruct (BulkDelete.filter_by_date rt request owned_ w2)
    as [[kept|e] w3] eqn:D; [|discriminate H].
  unfold bind, log, modify, ret in H. injection H as <- _.
  pose proof (filter_by_date_In _ _ _ _ _ D s Hs) as Ho.
  destruct (filter_by_owner_selectable _ _ _ _ _ Tc E s Ho) as (A & B & C).
  split; [exact A|]. split; [exact B | exact C].
Qed.

(** An early answer of the selection is an error with status 400, 403
    or 404. *)
Lemma select_early request w response w1 :
  BulkDelete.select rt request w = (Ok (inl response), w1) ->
  (http response = 400 \/ http response = 403 \/ http response = 404)%nat
  /\ exists e, body response = BulkDelete.Error e.
Proof.
  intros H.
  unfold BulkDelete.select, BulkDelete.filter_by_owner,
    BulkDelete.filter_by_date, getDocs_courseSchedules, courseService_getById,
    courseService_getAll, query, call, log, modify, bind, ret in H.
  exec_in H.
  all: try discriminate H.
  all: injection H as <- _; cbn; split; [auto|]; eexists; reflexivity.
Qed.

(** ** The endpoint *)

(** Either the endpoint answers without a write, or the selection has
    matched schedules and the loop has run over them. *)
Lemma POST_bulk_cases request w :
  (exists response w',
      BulkDelete.POST rt request w = (Ok response, w')
      /\ reads w w'
      /\ (http response = 200 \/ http response = 400 \/ http response = 403
          \/ http response = 404 \/ http response = 500)%nat
      /\ (forall a b c d e, body response <> BulkDelete.Deleted a b c d e))
  \/ (exists schedules w1 w' t' message,
         BulkDelete.select rt request w = (Ok (inr schedules), w1)
         /\ schedules <> []
         /\ reads w w1
         /\ for_of schedules (BulkDelete.delete_schedule rt)
                   (w1, BulkDelete.mkTally 0 0 [])
            = (Ok tt, (w', t'))
         /\ BulkDelete.POST rt request w
            = (Ok (json (BulkDelete.Deleted true
                           (BulkDelete.deletedCount t')
                           (BulkDelete.cancelledReservationsCount t')
                           (errors_field (BulkDelete.errors t'))
                           message)), w')).
Proof.
  pose proof (select_only_reads request w) as Hr.
  unfold BulkDelete.POST, try_catch, bind.
  destruct (BulkDelete.select rt request w) as [[[early|schedules]|e] w1] eqn:E;
    cbn [snd] in Hr.
  - left. destruct (select_early _ _ _ _ E) as (Hs & msg & Hb).
    exists early, w1. cbn. split; [reflexivity|]. split; [exact Hr|].
    split; [intuition|]. intros a b c d e'. rewrite Hb. discriminate.
  - destruct schedules as [|s rest].
    + left. eexists _, w1. cbn. split; [reflexivity|]. split; [exact Hr|].
      split; [auto|]. discriminate.
    + right. cbn [length Nat.eqb].
      destruct (for_of_delete_spec rt (s :: rest) w1 (BulkDelete.mkTally 0 0 []))
        as (w' & t' & H & _).
      exists (s :: rest), w1, w', t'. eexists.
      split; [reflexivity|]. split; [discriminate|]. split; [exact Hr|].
      split; [exact H|].
      unfold BulkDelete.delete_all, bind, BulkDelete.with_locals.
      rewrite H. reflexivity.
  - left. eexists _, _. cbn. split; [reflexivity|].
    split; [destruct Hr; split; assumption|]. split; [auto 6|]. discriminate.
Qed.

Lemma Forall2_map_in {A} (R : A -> A -> Prop) (g : A -> A) l :
  (forall x, In x l -> R x (g x)) -> Forall2 R l (map g l).
Proof.
  induction l as [|x l IH]; intros H; cbn; constructor.
  - apply H. now left.
  - apply IH. intros y Hy. apply H. now right.
Qed.

(** X13. The bulk deletion always answers, with status 200, 400, 403, 404 or
    500.  It removes no reservation and adds none: the reservations it
    leaves are those it found, in their order, some of them cancelled.
    It leaves the users, the courses, the QR identities and the
    notifications as they were and sends no mail; it adds no schedule
    and changes none.  Unless it answers with the counts of a deletion,
    the store is as it was. *)
Theorem bulk_delete_writes (request : BulkDelete.Request) (w : World) :
  let run := BulkDelete.POST rt request w in
  exists response ids,
    fst run = Ok response
    /\ (http response = 200 \/ http response = 400 \/ http response = 403
        \/ http response = 404 \/ http response = 500)%nat
    /\ cancels_ids ids w (snd run)
    /\ (exists keep, courseSchedules (db (snd run))
                     = filter keep (courseSchedules (db w)))
    /\ ((forall a b c d e, body response <> BulkDelete.Deleted a b c d e) ->
        db (snd run) = db w).
Proof.
  intros run. subst run.
  destruct (POST_bulk_cases request w)
    as [(response & w' & H & [Hd Ho] & Hs & Hb)
       |(schedules & w1 & w' & t' & message & Hsel & Hne & [Hd Ho] & Hloop
         & H)];
    rewrite H; cbn [fst snd].
  - exists response, []. split; [reflexivity|]. split; [exact Hs|].
    split; [now apply cancels_ids_same|]. split.
    + exists (fun _ => true). now rewrite Hd, filter_all.
    + intros _. exact Hd.
  - destruct (delete_loop_run schedules w1 (BulkDelete.mkTally 0 0 []))
      as (w2 & t2 & ids & Hloop' & Hc & _).
    rewrite Hloop in Hloop'. injection Hloop' as <- <-.
    destruct (for_of_delete_spec rt schedules w1 (BulkDelete.mkTally 0 0 []))
      as (w3 & t3 & Hloop' & _ & _ & Hsch).
    rewrite Hloop in Hloop'. injection Hloop' as <- <-.
    eexists _, ids. split; [reflexivity|]. split; [now left|]. split; [|split].
    + unfold cancels_ids in *. rewrite Hd, Ho in Hc. exact Hc.
    + eexists. rewrite Hsch, Hd. reflexivity.
    + intros K. exfalso. eapply K. reflexivity.
Qed.

(** X14. A schedule that the bulk deletion removes has the id of a schedule
    of the store that the coach of the request owns (the schedule was
    created by the coach, or its course is a course of the coach), that
    is of the course of the request when it names one, and whose delete
    call went through. *)
Theorem bulk_delete_only_owned (request : BulkDelete.Request) (w : World)
  (x : CourseSchedule.t) :
  In x (courseSchedules (db w)) ->
  ~ In x (courseSchedules (db (snd (BulkDelete.POST rt request w)))) ->
  exists s,
    selectable (db w) request s
    /\ CourseSchedule.id s = CourseSchedule.id x
    /\ deletable rt s = true.
Proof.
  intros Hin Hout.
  destruct (POST_bulk_cases request w)
    as [(response & w' & H & [Hd Ho] & Hs & Hb)
       |(schedules & w1 & w' & t' & message & Hsel & Hne & [Hd Ho] & Hloop
         & H)];
    rewrite H in Hout; cbn [fst snd] in Hout.
  - exfalso. apply Hout. now rewrite Hd.
  - destruct (for_of_delete_spec rt schedules w1 (BulkDelete.mkTally 0 0 []))
      as (w3 & t3 & Hloop' & _ & _ & Hsch).
    rewrite Hloop in Hloop'. injection Hloop' as <- <-.
    rewrite Hsch, Hd in Hout.
    destruct (deleted_by rt schedules x) eqn:D.
    + unfold deleted_by in D. apply existsb_exists in D.
      destruct D as (s & Hs & Hds). apply andb_true_iff in Hds.
      destruct Hds as [Hdel Hid]. apply String.eqb_eq in Hid.
      exists s. split; [|split; [now symmetry | exact Hdel]].
      exact (select_selectable _ _ _ _ Hsel s Hs).
    + exfalso. apply Hout. apply filter_In. split; [exact Hin|].
      now rewrite D.
Qed.

(** X15. When the ids of the reservations are unique, the bulk deletion
    leaves every reservation as it was, except for reservations that
    were booked for a schedule that the selection lets through, which it
    may cancel: a reservation that is checked in or cancelled, or is for
    another schedule, is never changed. *)
Theorem bulk_delete_cancels_booked_only (request : BulkDelete.Request)
  (w : World) :
  NoDup (map HelmetReservation.id (helmetReservations (db w))) ->
  Forall2
    (fun r r' =>
       r' = r
       \/ (HelmetReservation.status r = booked
           /\ r' = HelmetReservation.with_status cancelled r
           /\ exists s, selectable (db w) request s
                        /\ HelmetReservation.scheduleId r
                           = CourseSchedule.id s))
    (helmetReservations (db w))
    (helmetReservations (db (snd (BulkDelete.POST rt request w)))).
Proof.
  intros Hn.
  destruct (POST_bulk_cases request w)
    as [(response & w' & H & [Hd Ho] & Hs & Hb)
       |(schedules & w1 & w' & t' & message & Hsel & Hne & [Hd Ho] & Hloop
         & H)];
    rewrite H; cbn [fst snd].
  - rewrite Hd. rewrite <- (map_id (helmetReservations (db w))) at 2.
    apply Forall2_map_in. intros r _. now left.
  - destruct (delete_loop_run schedules w1 (BulkDelete.mkTally 0 0 []))
      as (w2 & t2 & ids & Hloop' & (Hc & _) & Hids).
    rewrite Hloop in Hloop'. injection Hloop' as <- <-.
    rewrite Hd in Hc, Hids. rewrite Hc.
    apply Forall2_map_in. intros r Hr. unfold cancel_ids.
    destruct (existsb _ ids) eqn:E; [right | now left].
    apply existsb_exists in E. destruct E as (id & Hid & He).
    apply String.eqb_eq in He.
    destruct (Hids id Hid) as (r0 & Hr0 & Hid0 & Hst & Hfor).
    assert (r0 = r) by (apply (NoDup_map_eq _ _ _ _ Hn Hr0 Hr); congruence).
    subst r0. split; [exact Hst|]. split; [reflexivity|].
    unfold reserved_for in Hfor. apply existsb_exists in Hfor.
    destruct Hfor as (s & Hs & Hsid). apply String.eqb_eq in Hsid.
    exists s. split; [|exact Hsid].
    exact (select_selectable _ _ _ _ Hsel s Hs).
Qed.

Lemma deleted_by_among schedules x :
  forallb (deletable rt) schedules = true ->
  deleted_by rt schedules x = among schedules x.
Proof.
  unfold deleted_by, among.
  induction schedules as [|s rest IH]; cbn [existsb forallb]; [reflexivity|].
  intros H. apply andb_true_iff in H. destruct H as [Hs Hrest].
  now rewrite Hs, (IH Hrest).
Qed.

(** X16. The cascade when no call fails and the ids of the reservations are
    unique.  For the schedules that the selection has matched, the
    answer counts all of them as deleted and reports no error; every
    document with the id of one of them is gone and no other schedule
    is; every active reservation of one of them is cancelled, the count
    of cancelled reservations is their number, and no other reservation
    is changed. *)
Theorem bulk_delete_cascade (request : BulkDelete.Request) (w w1 : World)
  (schedules : list CourseSchedule.t) :
  storage_ok rt ->
  NoDup (map HelmetReservation.id (helmetReservations (db w))) ->
  BulkDelete.select rt request w = (Ok (inr schedules), w1) ->
  schedules <> [] ->
  exists message w',
    BulkDelete.POST rt request w
    = (Ok (json (BulkDelete.Deleted true
                   (length schedules)
                   (length (filter (fun r => active r
                                             && reserved_for schedules r)
                                   (helmetReservations (db w))))
                   None message)), w')
    /\ helmetReservations (db w')
       = map (cancel_for schedules) (helmetReservations (db w))
    /\ courseSchedules (db w')
       = filter (fun x => negb (among schedules x)) (courseSchedules (db w)).
Proof.
  intros Hok Hn Hsel Hne.
  destruct (POST_bulk_cases request w)
    as [(response & w' & H & _ & _ & Hb)
       |(schedules' & w1' & w' & t' & message & Hsel' & _ & [Hd Ho] & Hloop
         & H)].
  - exfalso.
    unfold BulkDelete.POST, try_catch, bind in H. rewrite Hsel in H.
    destruct schedules as [|s rest]; [now apply Hne|].
    cbn [length Nat.eqb] in H.
    destruct (delete_all_spec rt (s :: rest) w1) as (c & m & w2 & Hall & _).
    rewrite Hall in H. injection H as <- _. eapply Hb. reflexivity.
  - rewrite Hsel in Hsel'. injection Hsel' as <- <-.
    destruct (for_of_delete_spec rt schedules w1 (BulkDelete.mkTally 0 0 []))
      as (w3 & t3 & Hloop' & Hdel & Herr & Hsch).
    rewrite Hloop in Hloop'. injection Hloop' as <- <-.
    rewrite <- Hd in Hn.
    destruct (delete_loop_cascade schedules Hok w1 (BulkDelete.mkTally 0 0 [])
                Hn)
      as (w3 & t3 & Hloop' & Hres & Hcount).
    rewrite Hloop in Hloop'. injection Hloop' as <- <-.
    assert (Hall : forallb (deletable rt) schedules = true).
    { apply forallb_forall. intros s _. unfold deletable. now rewrite (Hok _). }
    destruct (all_deletable rt _ Hall) as [Hf He].
    rewrite Hf in Hdel. rewrite He in Herr. cbn in Hdel, Herr, Hcount.
    rewrite H, Hdel, Herr, Hcount, Hd. cbn [errors_field length Nat.ltb Nat.leb].
    exists message, w'. split; [reflexivity|]. split.
    + now rewrite Hres, Hd.
    + rewrite Hsch, Hd. apply filter_ext_bool. intros x.
      now rewrite (deleted_by_among _ x Hall).
Qed.

End BulkMore.

(* ===================================================================== *)
(** * The subscription status and the offers popup *)
(* ===================================================================== *)

Section SubscriptionFacts.
Variable rt : Runtime.
Variable getActive : string -> M (option SubscriptionUtils.UserSubscription).
Variable hasPurchase : string -> M bool.

Local Ltac unfold_status :=
  unfold SubscriptionUtils.shouldShowOffersPopup,
    SubscriptionUtils.checkUserSubscriptionStatus, SubscriptionUtils.expired,
    try_catch, bind, ret, throw, gets, log_error, modify in *.

(** X17. The status check never throws, and its answer is coherent: a
    subscription is reported exactly when it is held to be active, and
    then it is not expired and its status is [active]. *)
Theorem subscription_status_coherent (userId : string) (w : World) :
  exists status w',
    SubscriptionUtils.checkUserSubscriptionStatus rt getActive hasPurchase
      userId w = (Ok status, w')
    /\ (SubscriptionUtils.hasActiveSubscription status = true ->
        SubscriptionUtils.isExpired status = false
        /\ exists s,
            SubscriptionUtils.subscription status = Some s
            /\ SubscriptionUtils.status s = "active"
            /\ fst (getActive userId w) = Ok (Some s))
    /\ (SubscriptionUtils.hasActiveSubscription status = false ->
        SubscriptionUtils.subscription status = None).
Proof.
  destruct (SubscriptionUtils.checkUserSubscriptionStatus _ _ _ _ _)
    as [o w'] eqn:E.
  unfold_status. exec_in E.
  all: injection E as <- <-.
  all: eexists _, _; split; [reflexivity|]; cbn.
  all: split; [|intros H; try rewrite H; try reflexivity; try discriminate H].
  all: try (intros H; discriminate H).
  all: intros H;
    repeat match type of H with
           | _ && _ = true =>
               let H1 := fresh in
               apply andb_true_iff in H; destruct H as [H1 H];
               apply negb_true_iff in H1
           | (_ =? _) = true => apply String.eqb_eq in H
           end.
  all: repeat match goal with
              | Hx : ?b = false |- context [?b] => rewrite Hx
              | Hx : getActive _ _ = _ |- _ => rewrite Hx
              end.
  all: rewrite ?H, ?String.eqb_refl; cbn.
  all: split; [reflexivity|]; eexists; split; [reflexivity|].
  all: split; [assumption | reflexivity].
Qed.

(** X18. Any failure inside the status check, be it the lookup of the
    subscription, the conversion of the end date or the lookup of the
    purchases, is answered with the status of a user who has nothing,
    even when the subscription found was active; the popup is then
    shown.  Neither function throws. *)
Theorem popup_shown_on_failure (userId : string) (w : World) (e : string) :
  (exists w1, getActive userId w = (Throw e, w1))
  \/ (exists s w1,
         getActive userId w = (Ok (Some s), w1)
         /\ SubscriptionUtils.planType s = "annual"
         /\ SubscriptionUtils.endDate s = TvTimestamp (Throw e))
  \/ (exists found w1 w2,
         getActive userId w = (Ok found, w1)
         /\ hasPurchase userId w1 = (Throw e, w2)) ->
  exists e' w0,
    let w' :=
      push_console
        (console_error ["Error checking subscription status:"; e']) w0 in
    SubscriptionUtils.checkUserSubscriptionStatus rt getActive hasPurchase
      userId w
    = (Ok (SubscriptionUtils.mkStatus false false None false), w')
    /\ SubscriptionUtils.shouldShowOffersPopup rt getActive hasPurchase
         userId w
       = (Ok true, w').
Proof.
  intros [(w1 & H) | [(s & w1 & H & Hp & Hd) | (found & w1 & w2 & H & Hp)]].
  - exists e, w1. unfold_status. rewrite H. split; reflexivity.
  - exists e, w1. unfold_status. rewrite H, Hp, Hd. split; reflexivity.
  - destruct (SubscriptionUtils.checkUserSubscriptionStatus rt getActive
                hasPurchase userId w) as [o w'] eqn:E.
    unfold SubscriptionUtils.shouldShowOffersPopup, bind.
    unfold_status. rewrite H in E |- *. exec_in E.
    all: try (rewrite Hp in *).
    all: injection E as <- <-.
    all: try match goal with
             | Hx : (Ok _, _) = (Throw _, _) |- _ => discriminate Hx
             end.
    all: eexists _, _; split; reflexivity.
Qed.

(** X19. A subscription whose session pack is used up, or whose annual term
    has ended, is reported as expired and not active, whatever its
    status says; the popup is shown, also to a user who has purchased an
    offer. *)
Theorem expired_subscription_shows_popup (userId : string) (w w1 w2 : World)
  (s : SubscriptionUtils.UserSubscription) (purchased : bool) :
  getActive userId w = (Ok (Some s), w1) ->
  hasPurchase userId w1 = (Ok purchased, w2) ->
  (SubscriptionUtils.planType s = "session_pack"
   /\ (SubscriptionUtils.remainingSessions s = None
       \/ exists n, SubscriptionUtils.remainingSessions s = Some n
                    /\ (n <= 0)%Z))
  \/ (SubscriptionUtils.planType s = "annual"
      /\ SubscriptionUtils.truthy_time (SubscriptionUtils.endDate s) = true
      /\ exists t,
          SubscriptionUtils.endDate_as_Date rt (SubscriptionUtils.endDate s)
          = Ok (mkDate (Some t))
          /\ (t < clock w1)%Z) ->
  SubscriptionUtils.checkUserSubscriptionStatus rt getActive hasPurchase
    userId w
  = (Ok (SubscriptionUtils.mkStatus false purchased None true), w2)
  /\ SubscriptionUtils.shouldShowOffersPopup rt getActive hasPurchase userId w
     = (Ok true, w2).
Proof.
  intros H Hp Hcase.
  assert (Hx : SubscriptionUtils.expired rt s w1 = (Ok true, w1)).
  { unfold SubscriptionUtils.expired.
    destruct Hcase as [(Hplan & Hleft) | (Hplan & Hend & t & Hdate & Hlt)];
      rewrite Hplan; cbn.
    - destruct Hleft as [-> | (n & -> & Hn)]; [reflexivity|].
      unfold SubscriptionUtils.none_left.
      replace (n <=? 0)%Z with true by (symmetry; now apply Z.leb_le).
      now rewrite orb_true_r.
    - rewrite Hend, Hdate. unfold bind, gets, ret, date_lt. cbn.
      now replace (t <? clock w1)%Z with true
        by (symmetry; now apply Z.ltb_lt). }
  unfold SubscriptionUtils.shouldShowOffersPopup,
    SubscriptionUtils.checkUserSubscriptionStatus, try_catch, bind, ret.
  rewrite H, Hx. cbn. rewrite Hp. cbn. rewrite orb_true_r.
  split; reflexivity.
Qed.

(** X20. A subscription with status [active] that is not expired hides the
    popup and is returned with the status.  It is not expired when its
    plan is a session pack with sessions left; when its plan is annual
    and its end date is missing, is not a date, or is not before the
    present time; and when its plan is neither of the two. *)
Theorem active_subscription_hides_popup (userId : string) (w w1 w2 : World)
  (s : SubscriptionUtils.UserSubscription) (purchased : bool) :
  getActive userId w = (Ok (Some s), w1) ->
  hasPurchase userId w1 = (Ok purchased, w2) ->
  SubscriptionUtils.status s = "active" ->
  (SubscriptionUtils.planType s = "session_pack"
   /\ exists n, SubscriptionUtils.remainingSessions s = Some n /\ (0 < n)%Z)
  \/ (SubscriptionUtils.planType s = "annual"
      /\ (SubscriptionUtils.truthy_time (SubscriptionUtils.endDate s) = false
          \/ exists d,
              SubscriptionUtils.endDate_as_Date rt
                (SubscriptionUtils.endDate s) = Ok d
              /\ (getTime d = None
                  \/ exists t, getTime d = Some t /\ (clock w1 <= t)%Z)))
  \/ (SubscriptionUtils.planType s <> "annual"
      /\ SubscriptionUtils.planType s <> "session_pack") ->
  SubscriptionUtils.checkUserSubscriptionStatus rt getActive hasPurchase
    userId w
  = (Ok (SubscriptionUtils.mkStatus true purchased (Some s) false), w2)
  /\ SubscriptionUtils.shouldShowOffersPopup rt getActive hasPurchase userId w
     = (Ok false, w2).
Proof.
  intros H Hp Hst Hcase.
  assert (Hx : SubscriptionUtils.expired rt s w1 = (Ok false, w1)).
  { unfold SubscriptionUtils.expired.
    destruct Hcase as [(Hplan & n & Hn & Hpos)
                      | [(Hplan & Hend) | (Hna & Hns)]].
    - rewrite Hplan, Hn. cbn. unfold SubscriptionUtils.none_left.
      replace (n =? 0)%Z with false by (symmetry; apply Z.eqb_neq; lia).
      now replace (n <=? 0)%Z with false by (symmetry; apply Z.leb_gt; lia).
    - rewrite Hplan. cbn.
      destruct Hend as [-> | (d & Hd & Ht)]; [reflexivity|].
      destruct (SubscriptionUtils.truthy_time _); [|reflexivity].
      rewrite Hd. unfold bind, gets, ret, date_lt. cbn.
      destruct Ht as [-> | (t & -> & Hle)]; [reflexivity|].
      now replace (t <? clock w1)%Z with false
        by (symmetry; apply Z.ltb_ge; lia).
    - apply String.eqb_neq in Hna, Hns. now rewrite Hna, Hns. }
  unfold SubscriptionUtils.shouldShowOffersPopup,
    SubscriptionUtils.checkUserSubscriptionStatus, try_catch, bind, ret.
  rewrite H, Hx. cbn. rewrite Hst, Hp. cbn. split; reflexivity.
Qed.

End SubscriptionFacts.

(* ===================================================================== *)
(** * The code of a discount card *)
(* ===================================================================== *)

Lemma string_forall_app p a b :
  string_forall p (a ++ b) = string_forall p a && string_forall p b.
Proof.
  induction a as [|c a IH]; cbn; [reflexivity|].
  now rewrite IH, andb_assoc.
Qed.

Lemma string_forall_substring p s :
  string_forall p s = true ->
  forall n m, string_forall p (substring n m s) = true.
Proof.
  induction s as [|c s IH]; cbn; intros H n m.
  - now destruct n, m.
  - apply andb_true_iff in H. destruct H as [Hc Hs].
    destruct n as [|n]; [destruct m as [|m]|]; cbn; [reflexivity| |now apply IH].
    now rewrite Hc, (IH Hs 0%nat m).
Qed.

Lemma length_substring_le s :
  forall n m, (String.length (substring n m s) <= m)%nat.
Proof.
  induction s as [|c s IH]; intros n m.
  - destruct n, m; cbn; lia.
  - destruct n as [|n]; [destruct m as [|m]|]; cbn; [lia| |apply IH].
    specialize (IH 0%nat m). lia.
Qed.

Lemma length_append a b :
  String.length (a ++ b) = (String.length a + String.length b)%nat.
Proof. induction a as [|c a IH]; cbn; [|rewrite IH]; reflexivity. Qed.

(** The decimal digits of a number are digits. *)
Lemma digits_of_uint d :
  string_forall DiscountCode.is_digit (NilEmpty.string_of_uint d) = true.
Proof. induction d; cbn; auto. Qed.

Lemma digits_of_Z z :
  (0 <= z)%Z -> string_forall DiscountCode.is_digit (string_of_Z z) = true.
Proof.
  intros Hz. unfold string_of_Z, NilZero.string_of_int.
  destruct z as [|p|p]; [reflexivity| |lia].
  cbn [Z.to_int]. unfold NilZero.string_of_uint.
  destruct (Pos.to_uint p) eqn:E; try apply digits_of_uint. reflexivity.
Qed.

Lemma string_forall_weaken (p q : ascii -> bool) s :
  (forall c, p c = true -> q c = true) ->
  string_forall p s = true -> string_forall q s = true.
Proof.
  intros H. induction s as [|c s IH]; cbn; [auto|].
  intros K. apply andb_true_iff in K. destruct K as [Kc Ks].
  now rewrite (H c Kc), (IH Ks).
Qed.

(** The upper case of a letter or digit is an upper-case letter or a
    digit, and is a fixed point of [upper]. *)
Lemma upper_alnum c :
  DiscountCode.is_lower c || DiscountCode.is_upper c || DiscountCode.is_digit c
  = true ->
  code_char (DiscountCode.upper c) = true.
Proof.
  destruct c as [[] [] [] [] [] [] [] []]; vm_compute; auto.
Qed.

Lemma upper_code_char c :
  code_char c = true -> DiscountCode.upper c = c.
Proof.
  destruct c as [[] [] [] [] [] [] [] []]; vm_compute; auto; discriminate.
Qed.

Lemma clean_name_chars s :
  string_forall code_char (DiscountCode.toUpperCase (DiscountCode.keep_alnum s))
  = true.
Proof.
  induction s as [|c s IH]; cbn; [reflexivity|].
  destruct (_ || _ || _) eqn:E; cbn; [|exact IH].
  now rewrite (upper_alnum c E), IH.
Qed.

Lemma toUpperCase_fixed s :
  string_forall code_char s = true -> DiscountCode.toUpperCase s = s.
Proof.
  induction s as [|c s IH]; cbn; [reflexivity|].
  intros H. apply andb_true_iff in H. destruct H as [Hc Hs].
  now rewrite (upper_code_char c Hc), (IH Hs).
Qed.

(** X21. A generated code is made of digits and upper-case letters only, so
    that the conversion to upper case that follows leaves it as it is;
    it has at most four characters of the name of the coach, and six of
    the time. *)
Theorem discount_code_shape (now : Z) (coachName : string) (percentage : Z) :
  (0 <= now)%Z ->
  (0 <= percentage)%Z ->
  let code := DiscountCode.generateDiscountCode now coachName percentage in
  string_forall code_char code = true
  /\ DiscountCode.toUpperCase code = code
  /\ (String.length (string_of_Z percentage) <= String.length code
      <= 4 + String.length (string_of_Z percentage) + 6)%nat.
Proof.
  intros Hnow Hp code.
  assert (Hc : string_forall code_char code = true).
  { subst code. unfold DiscountCode.generateDiscountCode.
    rewrite !string_forall_app. repeat (apply andb_true_iff; split).
    - apply string_forall_substring, clean_name_chars.
    - apply (string_forall_weaken DiscountCode.is_digit);
        [|now apply digits_of_Z].
      intros c H. unfold code_char. now rewrite H.
    - apply string_forall_substring.
      apply (string_forall_weaken DiscountCode.is_digit);
        [|now apply digits_of_Z].
      intros c H. unfold code_char. now rewrite H. }
  split; [exact Hc|]. split; [now apply toUpperCase_fixed|].
  subst code. unfold DiscountCode.generateDiscountCode,
    DiscountCode.slice_to, DiscountCode.slice_last.
  rewrite !length_append.
  pose proof (length_substring_le
                (DiscountCode.toUpperCase (DiscountCode.keep_alnum coachName))
                0 4).
  pose proof (length_substring_le (string_of_Z now)
                (String.length (string_of_Z now) - 6) 6).
  lia.
Qed.

(* ===================================================================== *)
(** * The discount cards shown to a user *)
(* ===================================================================== *)

Section MapFacts.
Context {V : Type}.
Variable key : V -> string.

Lemma Map_has_entries k l :
  UserCards.Map_has k (map (entry key) l) = existsb (fun v => key v =? k) l.
Proof.
  unfold UserCards.Map_has. induction l as [|v l IH]; cbn; [reflexivity|].
  now rewrite IH.
Qed.

Lemma Map_set_fresh k (v : V) m :
  UserCards.Map_has k m = false -> UserCards.Map_set k v m = (m ++ [(k, v)])%list.
Proof.
  unfold UserCards.Map_has.
  induction m as [|[k' v'] m IH]; cbn; [reflexivity|].
  intros H. apply orb_false_iff in H. destruct H as [Hk Hm].
  now rewrite Hk, (IH Hm).
Qed.

Lemma existsb_false_not_in (p : V -> bool) l :
  existsb p l = false -> forall x, In x l -> p x = false.
Proof.
  intros H x Hx. destruct (p x) eqn:E; [|reflexivity].
  assert (existsb p l = true) by (apply existsb_exists; eauto). congruence.
Qed.

Lemma fresh_key l v :
  ~ In (key v) (map key l) -> existsb (fun x => key x =? key v) l = false.
Proof.
  intros H. apply not_true_is_false. intros E. apply H.
  apply existsb_exists in E. destruct E as (x & Hx & Hk).
  apply String.eqb_eq in Hk. rewrite <- Hk. now apply in_map.
Qed.

(** The first loop: with unique ids, the entries are the documents in
    their order. *)
Lemma set_all l :
  forall seen,
    NoDup (map key (seen ++ l)) ->
    fold_left (fun m doc => UserCards.Map_set (key doc) doc m) l
              (map (entry key) seen)
    = map (entry key) (seen ++ l).
Proof.
  induction l as [|v l IH]; intros seen Hn; cbn [fold_left].
  - now rewrite app_nil_r.
  - assert (Hfresh : ~ In (key v) (map key seen)).
    { rewrite map_app in Hn. cbn in Hn. apply NoDup_remove_2 in Hn.
      intros H. apply Hn. apply in_or_app. now left. }
    rewrite Map_set_fresh
      by (rewrite Map_has_entries; now apply fresh_key).
    change [(key v, v)] with (map (entry key) [v]). rewrite <- map_app.
    rewrite IH by now rewrite <- app_assoc.
    now rewrite <- app_assoc.
Qed.

(** The second loop: the documents whose id is not yet a key are added,
    in their order. *)
Lemma set_missing l :
  forall seen added,
    NoDup (map key l) ->
    (forall v, In v added -> ~ In (key v) (map key l)) ->
    fold_left (fun m doc =>
                 if negb (UserCards.Map_has (key doc) m)
                 then UserCards.Map_set (key doc) doc m
                 else m)
              l (map (entry key) (seen ++ added))
    = map (entry key)
        (seen ++ added
           ++ filter (fun v => negb (existsb (fun x => key x =? key v) seen)) l).
Proof.
  induction l as [|v l IH]; intros seen added Hn Hadded; cbn [fold_left filter].
  - now rewrite app_nil_r.
  - inversion Hn as [|k ks Hv Hn']; subst.
    rewrite Map_has_entries, existsb_app.
    assert (Ha : existsb (fun x => key x =? key v) added = false).
    { apply not_true_is_false. intros E. apply existsb_exists in E.
      destruct E as (x & Hx & Hk). apply String.eqb_eq in Hk.
      apply (Hadded x Hx). rewrite Hk. now left. }
    rewrite Ha, orb_false_r.
    destruct (existsb (fun x => key x =? key v) seen) eqn:E; cbn [negb].
    + apply IH; [exact Hn'|].
      intros x Hx Hin. apply (Hadded x Hx). now right.
    + rewrite Map_set_fresh
        by (rewrite Map_has_entries, existsb_app, E, Ha; reflexivity).
      change [(key v, v)] with (map (entry key) [v]). rewrite <- map_app.
      rewrite <- app_assoc.
      rewrite (IH seen (added ++ [v])%list Hn').
      * now rewrite <- !app_assoc.
      * intros x Hx Hin. apply in_app_or in Hx. destruct Hx as [Hx|[<-|[]]].
        -- apply (Hadded x Hx). now right.
        -- now apply Hv.
Qed.

Lemma values_entries l : UserCards.Map_values (map (entry key) l) = l.
Proof.
  unfold UserCards.Map_values. rewrite map_map. cbn. apply map_id.
Qed.

End MapFacts.

Lemma NoDup_map_filter {A B} (f : A -> B) (p : A -> bool) l :
  NoDup (map f l) -> NoDup (map f (filter p l)).
Proof.
  induction l as [|x l IH]; cbn; intros H; [constructor|].
  inversion H as [|y ys Hx Hl]; subst.
  destruct (p x); cbn; [constructor|]; auto.
  intros Hin. apply Hx. apply in_map_iff in Hin.
  destruct Hin as (z & Hz & Hin). apply filter_In in Hin.
  rewrite <- Hz. apply in_map. tauto.
Qed.

(** With unique ids, the merge of two snapshots is the first followed
    by the documents of the second whose id is not in the first. *)
Lemma merge_snapshots student course :
  NoDup (map UserCards.id student) ->
  NoDup (map UserCards.id course) ->
  UserCards.merge student course
  = (student
       ++ filter (fun c => negb (existsb (fun s => UserCards.id s
                                                   =? UserCards.id c)
                                         student))
                 course)%list.
Proof.
  intros Hs Hc. unfold UserCards.merge.
  change (@nil (string * UserCards.DiscountCard))
    with (map (entry UserCards.id) []).
  rewrite (set_all UserCards.id student [] Hs). cbn [app].
  rewrite <- (app_nil_r student) at 1.
  rewrite (set_missing UserCards.id course student [] Hc)
    by (intros v []).
  now rewrite values_entries.
Qed.

Lemma find_first_of_filter {A} (p : A -> bool) l x rest :
  filter p l = x :: rest -> find p l = Some x.
Proof.
  induction l as [|y l IH]; cbn; [discriminate|].
  destruct (p y); [|exact IH]. intros H. now injection H as -> _.
Qed.

Lemma NoDup_app_disjoint {A} (a b : list A) :
  NoDup a -> NoDup b -> (forall x, In x a -> ~ In x b) -> NoDup (a ++ b).
Proof.
  induction a as [|x a IH]; cbn; intros Ha Hb Hd; [exact Hb|].
  inversion Ha as [|y ys Hx Ha']; subst. constructor.
  - intros Hin. apply in_app_or in Hin. destruct Hin as [Hin|Hin];
      [now apply Hx | apply (Hd x); auto].
  - apply IH; auto.
Qed.

Section UserCardsFacts.
Variable discount_cards : list UserCards.DiscountCard.
Variable fault : UserCards.Query -> option string.

(** The merge of the two snapshots of the store, read as a set. *)
Lemma merge_visible coach email :
  NoDup (map UserCards.id discount_cards) ->
  let student :=
    filter (fun c => UserCards.field_is (UserCards.coachId c) coach
                     && UserCards.field_is (UserCards.userEmail c) email)
           discount_cards in
  let course :=
    filter (fun c => UserCards.field_is (UserCards.coachId c) coach
                     && UserCards.field_is (UserCards.cardType c) "course")
           discount_cards in
  NoDup (map UserCards.id (UserCards.merge student course))
  /\ forall c,
      In c (UserCards.merge student course)
      <-> In c discount_cards
          /\ UserCards.field_is (UserCards.coachId c) coach
             && (UserCards.field_is (UserCards.userEmail c) email
                 || UserCards.field_is (UserCards.cardType c) "course")
             = true.
Proof.
  intros Hn student course.
  rewrite merge_snapshots by (now apply NoDup_map_filter).
  split.
  - rewrite map_app. apply NoDup_app_disjoint.
    + now apply NoDup_map_filter.
    + apply NoDup_map_filter. now apply NoDup_map_filter.
    + intros i Hs Hc. apply in_map_iff in Hs, Hc.
      destruct Hs as (s & Hsi & Hs), Hc as (c & Hci & Hc).
      apply filter_In in Hc. destruct Hc as [_ Hc].
      apply negb_true_iff in Hc.
      pose proof (existsb_false_not_in _ _ Hc s Hs) as K. cbn in K.
      apply String.eqb_neq in K. congruence.
  - intros c. rewrite in_app_iff. subst student course.
    rewrite !filter_In.
    destruct (UserCards.field_is (UserCards.coachId c) coach) eqn:C;
      cbn [andb]; [|intuition discriminate].
    destruct (UserCards.field_is (UserCards.userEmail c) email) eqn:U;
      cbn [orb]; [tauto|].
    split.
    + intros [[_ H]|[[Hin H] _]]; [discriminate H | tauto].
    + intros [Hin H]. right. split; [tauto|].
      apply negb_true_iff. apply not_true_is_false. intros E.
      apply existsb_exists in E. destruct E as (s & Hs & Hid).
      apply String.eqb_eq in Hid. apply filter_In in Hs.
      destruct Hs as [Hs Hp].
      assert (s = c) by (apply (NoDup_map_eq _ _ _ _ Hn Hs Hin); exact Hid).
      subst s. rewrite C, U in Hp. discriminate Hp.
Qed.

(** X22. The listing of the discount cards of a user always answers, with
    status 200, 400, 404 or 500, and writes nothing.  When the ids of
    the cards are unique and it answers with a list, the list holds
    each card that the user may be shown once, and no other card: a
    card addressed to another user is never listed, unless it is a
    course card of the coach that was asked for. *)
Theorem user_cards_visible (userId coachId : option string) (w : World) :
  NoDup (map UserCards.id discount_cards) ->
  let run := UserCards.GET discount_cards fault userId coachId w in
  exists response,
    fst run = Ok response
    /\ db (snd run) = db w
    /\ outbox (snd run) = outbox w
    /\ (http response = 200 \/ http response = 400 \/ http response = 404
        \/ http response = 500)%nat
    /\ (forall success listed,
           body response = UserCards.Cards success listed ->
           exists user,
             find (fun u => User.id u =? or_empty userId) (users (db w))
             = Some user
             /\ NoDup (map UserCards.id listed)
             /\ (forall c, In c listed
                           <-> In c discount_cards
                               /\ visible coachId (User.email user) c = true)).
Proof.
  intros Hn run. subst run.
  unfold UserCards.GET, UserCards.getDocs, try_catch, bind, ret, log_error,
    modify, visible.
  destruct (truthy userId); cbn [negb].
  2:{ eexists. cbn. repeat split; auto. intros ? ? H. discriminate H. }
  destruct (fault (UserCards.users_by_id (or_empty userId))).
  { eexists. cbn. repeat split; auto 6. intros ? ? H. discriminate H. }
  destruct (filter _ (users (db w))) as [|user others] eqn:Hf.
  { eexists. cbn. repeat split; auto 6. intros ? ? H. discriminate H. }
  apply find_first_of_filter in Hf.
  destruct (truthy coachId).
  - destruct (fault (UserCards.student_cards _ _)).
    { eexists. cbn. repeat split; auto 6. intros ? ? H. discriminate H. }
    destruct (fault (UserCards.course_cards _)).
    { eexists. cbn. repeat split; auto 6. intros ? ? H. discriminate H. }
    eexists. cbn [fst snd]. split; [reflexivity|]. cbn.
    repeat split; auto. intros success listed H. injection H as <- <-.
    exists user. split; [exact Hf|].
    exact (merge_visible (or_empty coachId) (User.email user) Hn).
  - destruct (fault (UserCards.cards_by_email _)).
    { eexists. cbn. repeat split; auto 6. intros ? ? H. discriminate H. }
    eexists. cbn [fst snd]. split; [reflexivity|]. cbn.
    repeat split; auto. intros success listed H. injection H as <- <-.
    exists user. split; [exact Hf|]. split; [now apply NoDup_map_filter|].
    intros c. apply filter_In.
Qed.

End UserCardsFacts.

(* ===================================================================== *)
(** * The further statements on the sample data *)
(* ===================================================================== *)

(** Ada is scanned while the write of the check-in is refused. *)
Lemma scan_check_in_refused_witness :
  ScanRoute.POST Cases.checkin_down (Sample.scan Sample.ada_token "s1")
                 Sample.world_booked
  = (Ok (json_status (ScanRoute.Error "write refused") 500),
     push_console (console_error ["Error scanning QR code:"; "write refused"])
                  Sample.world_booked).
Proof.
  exact (scan_check_in_refused Cases.checkin_down Sample.ada_token "s1"
           Sample.world_booked Sample.ada_identity Sample.salsa _
           "write refused" ltac:(discriminate) ltac:(discriminate)
           eq_refl eq_refl eq_refl eq_refl eq_refl eq_refl eq_refl eq_refl).
Defined.

(** Ada is scanned, and scanned again five minutes later; she then asks
    for the cancellation. *)
Lemma scan_then_scan_again_witness :
  let w1 := set_clock 1710000300000 Sample.world_checked_in in
  ScanRoute.POST Sample.runtime (Sample.scan Sample.ada_token "s1") w1
  = (Ok (json (ScanRoute.Result
                 (ScanRoute.mkScan false "already_checked_in"
                    "Already checked in" (Some "Ada Lovelace")
                    None None None (Some 1710000000000%Z) None))), w1)
  /\ CancelRoute.DELETE Sample.runtime (Some "doc1") w1
     = (Ok (json_status
              (CancelRoute.Error
                 "Cannot cancel a reservation that has already been checked in")
              400), w1).
Proof.
  refine (scan_then_scan_again Sample.runtime Sample.ada_token "s1"
            Sample.world_booked Sample.ada_identity Sample.salsa _
            1710000300000%Z storage_ok_sample
            ltac:(discriminate) ltac:(discriminate) _
            eq_refl eq_refl eq_refl eq_refl).
  vm_compute. discriminate.
Defined.

(** Ada cancels her booking of the salsa class. *)
Lemma DELETE_cancels_witness :
  fst (CancelRoute.DELETE Sample.runtime (Some "doc1") Sample.world_booked)
  = Ok (json (CancelRoute.Cancelled true "Reservation cancelled successfully"))
  /\ option_map HelmetReservation.status
       (Store.reservation_by_id (db Sample.world_cancelled) "doc1")
     = Some cancelled.
Proof.
  destruct (DELETE_cancels Sample.runtime "doc1" Sample.world_booked _
              ltac:(discriminate) eq_refl eq_refl eq_refl ltac:(discriminate))
    as (H1 & H2 & _).
  split; [exact H1 | exact (f_equal (option_map HelmetReservation.status) H2)].
Defined.

(** Ada cancels, and is scanned afterwards. *)
Lemma cancel_then_scan_witness :
  ScanRoute.POST Sample.runtime (Sample.scan Sample.ada_token "s1")
                 Sample.world_cancelled
  = (Ok (json (ScanRoute.Result
                 (ScanRoute.mkScan false "cancelled" "Reservation was cancelled"
                    (Some "Ada Lovelace") None None None None None))),
     Sample.world_cancelled)
  /\ CreateRoute.blocks_booking
       (Store.reservation_by_user_and_schedule Sample.runtime
          (db Sample.world_cancelled) "u1" "s1") = false.
Proof.
  refine (cancel_then_scan Sample.runtime Sample.ada_token "s1"
            Sample.world_booked Sample.ada_identity Sample.salsa _
            storage_ok_sample
            ltac:(discriminate) ltac:(discriminate) _
            eq_refl eq_refl eq_refl eq_refl eq_refl).
  vm_compute. discriminate.
Defined.

(** A second booking of the salsa class by Ada is answered 400, and has
    written nothing. *)
Lemma create_writes_witness :
  db (snd (CreateRoute.POST Sample.runtime (Sample.book "u1" "s1")
                            Sample.world_booked))
  = db Sample.world_booked
  /\ outbox (snd (CreateRoute.POST Sample.runtime (Sample.book "u1" "s1")
                                   Sample.world_booked))
     = outbox Sample.world_booked.
Proof.
  destruct (create_writes Sample.runtime (Sample.book "u1" "s1")
              Sample.world_booked) as (response & H & _ & _ & _ & _ & _ & K).
  apply K. left.
  exact (f_equal (fun o => match o with
                           | Ok response => http response
                           | Throw _ => 400%nat
                           end) (eq_sym H)).
Defined.

(** A booking without a schedule, by a user that does not exist, and of
    a schedule that does not exist. *)
Lemma create_checks_in_order_witness :
  CreateRoute.POST Sample.runtime (CreateRoute.mkRequest (Some "u9") None)
                   Sample.world
  = (Ok (json_status
           (CreateRoute.Error "Missing required fields: userId and scheduleId")
           400), Sample.world)
  /\ CreateRoute.POST Sample.runtime (Sample.book "u9" "s9") Sample.world
     = (Ok (json_status (CreateRoute.Error "User not found") 404), Sample.world)
  /\ CreateRoute.POST Sample.runtime (Sample.book "u1" "s9") Sample.world
     = (Ok (json_status (CreateRoute.Error "Schedule not found") 404),
        Sample.world).
Proof.
  split; [|split].
  - exact (proj1 (create_checks_in_order Sample.runtime
                    (CreateRoute.mkRequest (Some "u9") None) Sample.world)
                 (or_intror eq_refl)).
  - exact (proj1 (proj2 (create_checks_in_order Sample.runtime
                           (Sample.book "u9" "s9") Sample.world))
                 eq_refl eq_refl eq_refl eq_refl).
  - exact (proj2 (proj2 (create_checks_in_order Sample.runtime
                           (Sample.book "u1" "s9") Sample.world))
                 Sample.ada eq_refl eq_refl eq_refl eq_refl eq_refl eq_refl).
Defined.

(** Ada books the class that has no date, and tries again. *)
Lemma create_without_dates_witness :
  exists e w',
    CreateRoute.POST Sample.runtime Cases.book_undated Sample.world_undated
    = (Ok (json_status (CreateRoute.Error e) 500), w')
    /\ length (helmetReservations (db w')) = 1%nat
    /\ outbox w' = []
    /\ CreateRoute.POST Sample.runtime Cases.book_undated w'
       = (Ok (json_status
                (CreateRoute.Error
                   "You already have a reservation for this class") 400), w').
Proof.
  destruct (create_without_dates Sample.runtime "u1" "s3" Sample.world_undated
              Sample.ada Sample.undated
              ltac:(discriminate) ltac:(discriminate)
              (booking_calls_ok_sample _ _) eq_refl eq_refl eq_refl
              (or_introl (or_intror (or_introl (ex_intro _ _ eq_refl)))))
    as (e & w' & r & H & Hres & _ & _ & _ & _ & Hout & Hagain).
  exists e, w'. split; [exact H|]. split; [now rewrite Hres|].
  split; [exact Hout|]. apply Hagain. intros r0 [].
Defined.


(** The listing of Ada after her booking of the salsa class. *)
Lemma user_GET_reads_witness :
  exists listed,
    body (match fst (UserRoute.GET Sample.runtime (fun _ => None) (Some "u1")
                                   Sample.world_booked) with
          | Ok response => response
          | Throw e => json (UserRoute.Error e)
          end)
    = UserRoute.Listing true listed
        (Some (UserQRCode.qrCodeImage Sample.ada_identity))
        (Some Sample.ada_token)
    /\ (forall r, In r listed
                  <-> In r (helmetReservations (db Sample.world_booked))
                      /\ HelmetReservation.userId r = "u1").
Proof.
  destruct (user_GET_reads Sample.runtime (fun _ => None) (Some "u1")
              Sample.world_booked)
    as (response & H & _ & _ & _ & K).
  change (fst (UserRoute.GET Sample.runtime (fun _ => None) (Some "u1")
                             Sample.world_booked)) with
    (Ok (A := Response UserRoute.Body)
        (json (UserRoute.Listing true
                 (helmetReservations (db Sample.world_booked))
                 (Some (UserQRCode.qrCodeImage Sample.ada_identity))
                 (Some Sample.ada_token)))) in H |- *.
  injection H as <-.
  destruct (K eq_refl) as (listed & c & d & Hb & Hl & _).
  injection Hb as <- _ _.
  eexists. split; [reflexivity | exact Hl].
Defined.

(** Ada books the salsa class and lists her reservations. *)
Lemma book_then_list_witness :
  exists reservationId qrCode token earlier r,
    fst (CreateRoute.POST Sample.runtime (Sample.book "u1" "s1") Sample.world)
    = Ok (json (CreateRoute.Created true reservationId qrCode
                  "Helmet reservation created successfully"))
    /\ fst (UserRoute.GET Sample.runtime (fun _ => None) (Some "u1")
                          Sample.world_booked)
       = Ok (json (UserRoute.Listing true (earlier ++ [r])%list
                     (UserRoute.or_null (Some qrCode))
                     (UserRoute.or_null (Some token))))
    /\ HelmetReservation.id r = reservationId
    /\ HelmetReservation.qrCode r = token
    /\ HelmetReservation.scheduleId r = "s1"
    /\ HelmetReservation.status r = booked.
Proof.
  exact (book_then_list Sample.runtime (fun _ => None) "u1" "s1"
           Sample.world Sample.ada Sample.salsa Sample.six_pm
           Sample.seven_pm storage_ok_sample eq_refl
           ltac:(discriminate) ltac:(discriminate)
           eq_refl eq_refl eq_refl (or_intror eq_refl) (or_intror eq_refl)).
Defined.

Lemma unique_ids_world_booked :
  NoDup (map HelmetReservation.id (helmetReservations (db Sample.world_booked))).
Proof. vm_compute. constructor; [intros [] | constructor]. Defined.

(** Coach 2 asks for the deletion of the sessions of the course of
    coach 1: the store is as it was. *)
Lemma bulk_delete_writes_witness :
  db (snd (BulkDelete.POST Sample.runtime Sample.foreign_course
                           Sample.world_booked))
  = db Sample.world_booked.
Proof.
  destruct (bulk_delete_writes Sample.runtime Sample.foreign_course
              Sample.world_booked) as (response & ids & H & _ & _ & _ & K).
  apply K. intros a b c d e Hb.
  vm_compute in H. injection H as <-. discriminate Hb.
Defined.

(** Coach 1 deletes the sessions of the dance course: the salsa class
    is removed, and is a class of the coach. *)
Lemma bulk_delete_only_owned_witness :
  exists s,
    selectable (db Sample.world_booked) Sample.own_course s
    /\ CourseSchedule.id s = "s1"
    /\ deletable Sample.runtime s = true.
Proof.
  refine (bulk_delete_only_owned Sample.runtime Sample.own_course
            Sample.world_booked Sample.salsa (or_introl eq_refl) _).
  vm_compute. intros [].
Defined.

(** Coach 1 deletes the sessions of the dance course while Ada is
    booked for the salsa class. *)
Lemma bulk_delete_cancels_booked_only_witness :
  Forall2
    (fun r r' =>
       r' = r
       \/ (HelmetReservation.status r = booked
           /\ r' = HelmetReservation.with_status cancelled r
           /\ exists s, selectable (db Sample.world_booked) Sample.own_course s
                        /\ HelmetReservation.scheduleId r
                           = CourseSchedule.id s))
    (helmetReservations (db Sample.world_booked))
    (helmetReservations
       (db (snd (BulkDelete.POST Sample.runtime Sample.own_course
                                 Sample.world_booked)))).
Proof.
  exact (bulk_delete_cancels_booked_only Sample.runtime Sample.own_course
           Sample.world_booked unique_ids_world_booked).
Defined.

(** Coach 1 deletes the sessions of the dance course while Ada is
    booked for the salsa class: two sessions deleted, one reservation
    cancelled. *)
Lemma bulk_delete_cascade_witness :
  exists message w',
    BulkDelete.POST Sample.runtime Sample.own_course Sample.world_booked
    = (Ok (json (BulkDelete.Deleted true 2 1 None message)), w')
    /\ map HelmetReservation.status (helmetReservations (db w')) = [cancelled]
    /\ courseSchedules (db w') = [].
Proof.
  destruct (bulk_delete_cascade Sample.runtime Sample.own_course
              Sample.world_booked
              (snd (BulkDelete.select Sample.runtime Sample.own_course
                                      Sample.world_booked))
              [Sample.salsa; Sample.zouk]
              storage_ok_sample unique_ids_world_booked
              ltac:(vm_compute; reflexivity) ltac:(discriminate))
    as (message & w' & H & Hr & Hs).
  exists message, w'. split; [exact H|]. split.
  - rewrite Hr. reflexivity.
  - rewrite Hs. reflexivity.
Defined.

(** Bob, whose session pack has sessions left, is reported with his
    subscription. *)
Lemma subscription_status_coherent_witness :
  exists status,
    fst (SubscriptionUtils.checkUserSubscriptionStatus Sample.runtime
           Subscribers.getActive Subscribers.hasPurchase "u2" Sample.world)
    = Ok status
    /\ SubscriptionUtils.isExpired status = false
    /\ exists s, SubscriptionUtils.subscription status = Some s
                 /\ SubscriptionUtils.status s = "active".
Proof.
  destruct (subscription_status_coherent Sample.runtime Subscribers.getActive
              Subscribers.hasPurchase "u2" Sample.world)
    as (status & w' & H & Ha & _).
  exists status. rewrite H. split; [reflexivity|].
  vm_compute in H. injection H as <- <-.
  destruct (Ha eq_refl) as (He & s & Hs & Hst & _).
  split; [exact He|]. exists s. split; [exact Hs | exact Hst].
Defined.

(** The purchases of Carl cannot be read: he is shown the popup. *)
Lemma popup_shown_on_failure_witness :
  exists e' w0,
    let w' :=
      push_console
        (console_error ["Error checking subscription status:"; e']) w0 in
    SubscriptionUtils.checkUserSubscriptionStatus Sample.runtime
      Subscribers.getActive Subscribers.hasPurchase "u3" Sample.world
    = (Ok (SubscriptionUtils.mkStatus false false None false), w')
    /\ SubscriptionUtils.shouldShowOffersPopup Sample.runtime
         Subscribers.getActive Subscribers.hasPurchase "u3" Sample.world
       = (Ok true, w').
Proof.
  exact (popup_shown_on_failure Sample.runtime Subscribers.getActive
           Subscribers.hasPurchase "u3" Sample.world "purchases unavailable"
           (or_intror
              (or_intror
                 (ex_intro _ None
                    (ex_intro _ Sample.world
                       (ex_intro _ Sample.world (conj eq_refl eq_refl))))))).
Defined.

(** Ada, whose annual subscription has ended, is shown the popup
    although she has purchased an offer. *)
Lemma expired_subscription_shows_popup_witness :
  SubscriptionUtils.checkUserSubscriptionStatus Sample.runtime
    Subscribers.getActive Subscribers.hasPurchase "u1" Sample.world
  = (Ok (SubscriptionUtils.mkStatus false true None true), Sample.world)
  /\ SubscriptionUtils.shouldShowOffersPopup Sample.runtime
       Subscribers.getActive Subscribers.hasPurchase "u1" Sample.world
     = (Ok true, Sample.world).
Proof.
  exact (expired_subscription_shows_popup Sample.runtime Subscribers.getActive
           Subscribers.hasPurchase "u1" Sample.world Sample.world Sample.world
           Subscribers.ended true eq_refl eq_refl
           (or_intror
              (conj eq_refl
                 (conj eq_refl
                    (ex_intro _ 1704067200000%Z (conj eq_refl eq_refl)))))).
Defined.

(** Bob is not shown the popup. *)
Lemma active_subscription_hides_popup_witness :
  SubscriptionUtils.checkUserSubscriptionStatus Sample.runtime
    Subscribers.getActive Subscribers.hasPurchase "u2" Sample.world
  = (Ok (SubscriptionUtils.mkStatus true false (Some Subscribers.pack) false),
     Sample.world)
  /\ SubscriptionUtils.shouldShowOffersPopup Sample.runtime
       Subscribers.getActive Subscribers.hasPurchase "u2" Sample.world
     = (Ok false, Sample.world).
Proof.
  exact (active_subscription_hides_popup Sample.runtime Subscribers.getActive
           Subscribers.hasPurchase "u2" Sample.world Sample.world Sample.world
           Subscribers.pack false eq_refl eq_refl eq_refl
           (or_introl (conj eq_refl (ex_intro _ 3%Z (conj eq_refl eq_refl))))).
Defined.

(** The code generated for Eva Müller and 15 percent. *)
Lemma discount_code_shape_witness :
  let code := DiscountCode.generateDiscountCode 1710000123456 "Eva Müller" 15 in
  code = "EVAM15123456"
  /\ DiscountCode.toUpperCase code = code
  /\ (String.length code <= 12)%nat.
Proof.
  destruct (discount_code_shape 1710000123456 "Eva Müller" 15
              ltac:(lia) ltac:(lia)) as (_ & H & _ & L).
  split; [reflexivity|]. split; [exact H | exact L].
Defined.

Lemma unique_ids_wallet : NoDup (map UserCards.id Wallet.cards).
Proof. repeat constructor; cbn; intuition discriminate. Defined.

(** Ada asks for her cards of coach 1: her two cards and the course
    card, each once, and not the card of Bob. *)
Lemma user_cards_visible_witness :
  exists user,
    find (fun u => User.id u =? "u1") (users (db Sample.world)) = Some user
    /\ NoDup (map UserCards.id [Wallet.welcome; Wallet.both; Wallet.salsa10])
    /\ (forall c,
           In c [Wallet.welcome; Wallet.both; Wallet.salsa10]
           <-> In c Wallet.cards
               /\ visible (Some "coach1") (User.email user) c = true).
Proof.
  destruct (user_cards_visible Wallet.cards (fun _ => None) (Some "u1")
              (Some "coach1") Sample.world unique_ids_wallet)
    as (response & H & _ & _ & _ & K).
  vm_compute in H. injection H as <-.
  exact (K true _ eq_refl).
Defined.
